(** * Fleet maintenance agents: telemetry pipeline and booking scheduler

    A shallow embedding of the agents under [backend/agents] (health
    monitor, planner, base agent, coordinator) and of the tables of
    [backend/database/models.py] they work on, followed by the properties
    proved about them.

    Conventions of the embedding.
    - A Python [float] is an exact rational ([Q]); decimal literals denote
      the rationals they spell.  NaN and infinities are not represented,
      [float('inf')] as the initial best score is [None].
    - A [datetime] is the number of microseconds since midnight of some
      reference day ([Z]); a [timedelta] is a number of microseconds.
      [isoformat()] is injective, so a rendered timestamp is kept as the
      instant it renders.
    - [datetime.utcnow()] reads a clock kept in the state: every call takes
      the next reading, so two calls inside one operation may differ.
    - A request dictionary is a finite map from keys to dynamically typed
      values; result dictionaries of the agents are records, one per shape.
    - The database is part of the state; a commit is the state update.
      Server-side columns [created_at]/[updated_at] and the stopwatch
      [processing_time] of the audit table are left out. *)

From Stdlib Require Import ZArith QArith Qabs Lia Lqa Bool.
From stdpp Require Import gmap strings list fin_maps sorting.

Open Scope string_scope.
Open Scope list_scope.
Open Scope Z_scope.

(** ** Python odds and ends *)

Module Py.

(** [x < y] on floats. *)
Definition Qltb (x y : Q) : bool := negb (Qle_bool y x).

(** Truthiness of an optional float: [None] and [0.0] are falsy. *)
Definition truthy (o : option Q) : bool :=
  match o with
  | Some q => negb (Qeq_bool q 0)
  | None => false
  end.

(** Truthiness of an optional integer. *)
Definition truthyZ (o : option Z) : bool :=
  match o with
  | Some n => negb (n =? 0)
  | None => false
  end.

(** [max(l)] on a non-empty list [x :: l]: the first of the largest
    elements is kept. *)
Fixpoint max_from (x : Q) (l : list Q) : Q :=
  match l with
  | [] => x
  | y :: l' => max_from (if Qltb x y then y else x) l'
  end.

(** [max(a, b)] and [min(a, b)]: the first argument unless the second
    is strictly beyond it. *)
Definition max2 (a b : Q) : Q := if Qltb a b then b else a.
Definition min2 (a b : Q) : Q := if Qltb b a then b else a.

(** [sum(l)], [np.sum(l)] *)
Definition Qsum (l : list Q) : Q := foldr Qplus 0%Q l.

(** [x or d] on a nullable integer. *)
Definition or_default (o : option Z) (d : Z) : Z :=
  match o with
  | Some n => if n =? 0 then d else n
  | None => d
  end.

(** [sorted(l, key=key)] and [l.sort(key=key)]: the keys are compared
    with [<] and elements with equal keys keep their order. *)
Fixpoint insort {A K : Type} (lt : K -> K -> bool) (key : A -> K) (x : A) (l : list A)
    : list A :=
  match l with
  | [] => [x]
  | y :: l' => if lt (key y) (key x) then y :: insort lt key x l' else x :: l
  end.

Definition sorted {A K : Type} (lt : K -> K -> bool) (key : A -> K) (l : list A) : list A :=
  foldr (insort lt key) [] l.

(** [a < b] on pairs of an integer and an integer, and on triples of
    two floats and an integer: the first component that differs
    decides. *)
Definition ZZltb (a b : Z * Z) : bool :=
  if a.1 =? b.1 then a.2 <? b.2 else a.1 <? b.1.

Definition QQZltb (a b : Q * Q * Z) : bool :=
  if Qeq_bool a.1.1 b.1.1
  then if Qeq_bool a.1.2 b.1.2 then a.2 <? b.2 else Qltb a.1.2 b.1.2
  else Qltb a.1.1 b.1.1.

End Py.

(** ** Dates and durations *)

Module Time.

Definition microseconds_per_minute : Z := 60000000.
Definition microseconds_per_hour : Z := 3600000000.
Definition microseconds_per_day : Z := 86400000000.

(** [timedelta(minutes=n)], [timedelta(hours=n)], [timedelta(days=n)]. *)
Definition minutes (n : Z) : Z := n * microseconds_per_minute.
Definition hours (n : Z) : Z := n * microseconds_per_hour.
Definition days (n : Z) : Z := n * microseconds_per_day.

(** [t.minute] *)
Definition minute (t : Z) : Z := (t / microseconds_per_minute) mod 60.

(** [t.replace(minute=0, second=0, microsecond=0)] *)
Definition replace_minute0 (t : Z) : Z := t - t mod microseconds_per_hour.

(** [t.replace(hour=h, minute=0, second=0, microsecond=0)] *)
Definition replace_hour0 (h : Z) (t : Z) : Z :=
  (t / microseconds_per_day) * microseconds_per_day + hours h.

(** [t.replace(hour=h)]: minute, second and microsecond are kept. *)
Definition replace_hour (h : Z) (t : Z) : Z :=
  (t / microseconds_per_day) * microseconds_per_day + hours h
  + t mod microseconds_per_hour.

(** [d.total_seconds() / 3600] *)
Definition total_hours (d : Z) : Q := inject_Z d / inject_Z microseconds_per_hour.

(** [d.total_seconds() / 60] *)
Definition total_minutes (d : Z) : Q := inject_Z d / inject_Z microseconds_per_minute.

(** [timedelta(days=d)] for a float [d]: the nearest number of
    microseconds, a tie going to the even one. *)
Definition round_half_even (x : Q) : Z :=
  let f := Qnum x / Z.pos (Qden x) in
  let r := (x - inject_Z f)%Q in
  if Qle_bool r 0.5
  then if Qle_bool 0.5 r then (if Z.even f then f else f + 1) else f
  else f + 1.

Definition float_days (d : Q) : Z := round_half_even (d * inject_Z microseconds_per_day).

End Time.

(** ** Dictionaries passed between agents *)

(** One detected anomaly, the dictionary built by [_check_metric_anomaly].
    The f-string message is kept up to the value it interpolates, which is
    the [value] entry. *)
Record Anomaly := {
  metric : string;
  value : Q;
  threshold : Q;
  severity : string;
  severity_score : Q;
  message : string;
  historical_context : option string;
}.

Definition Telemetry : Type := list (string * option Q).

Inductive Scalar :=
| SNone
| SBool (b : bool)
| SInt (n : Z)
| SFloat (q : Q)
| SStr (s : string)
| SIso (t : Z)          (* a [str] holding [t.isoformat()] *)
| SDatetime (t : Z).

Inductive Value :=
| VScalar (s : Scalar)
| VStrings (l : list string)
| VTelemetry (t : Telemetry)
| VUpdates (u : list (string * Scalar))
| VAlertDetails (anomalies : list Anomaly) (overall_severity : Q) (telemetry_snapshot : Telemetry).

Coercion VScalar : Scalar >-> Value.

Abbreviation Data := (gmap string Value).

(** Result of [HealthMonitorAgent._detect_anomalies]. *)
Record AnomalyReport := {
  ar_vehicle_id : option Z;
  anomalies_detected : Z;
  anomalies : list Anomaly;
  overall_severity : Q;
  requires_immediate_attention : bool;
  ar_confidence : Q;
  ar_timestamp : Z;
}.

(** Result of a successful [PlannerAgent._schedule_booking]. *)
Record BookingResult := {
  br_booking_id : Z;
  br_vehicle_id : option Z;
  br_workshop_id : string;
  br_workshop_name : string;
  br_workshop_location : string;
  br_booking_slot : Z;
  br_estimated_duration : Z;
  br_service_type : string;
  br_priority : string;
  br_status : string;
  br_confidence : Q;
  br_timestamp : Z;
}.

(** Result of a successful [PlannerAgent._update_booking]. *)
Record BookingUpdateResult := {
  bu_booking_id : Z;
  bu_updated_fields : list string;
  bu_new_booking_slot : Z;
  bu_status : option string;
  bu_confidence : Q;
  bu_timestamp : Z;
}.

(** One entry of [alternative_slots] in the result of [_cancel_booking]. *)
Record AlternativeSlot := {
  alt_workshop_id : string;
  alt_workshop_name : string;
  alt_slot_time : Z;
  alt_estimated_duration : Z;
}.

(** Result of a successful [PlannerAgent._cancel_booking]. *)
Record BookingCancelResult := {
  bc_booking_id : Z;
  bc_status : string;
  bc_reason : string;
  bc_alternative_slots : list AlternativeSlot;
  bc_confidence : Q;
  bc_timestamp : Z;
}.

(** The dictionaries an agent's [process] returns.  [ROther] stands for
    the result of an operation that is not embedded here (health check,
    reports, notifications, logging); such a dictionary has a
    ["confidence"] entry at most among the keys the coordinator reads
    from a health or booking result. *)
Inductive AgentResult :=
| RError (error : string) (confidence : Q) (workshops_checked : option Z)
| RAnomalyReport (r : AnomalyReport)
| RBooking (r : BookingResult)
| RBookingUpdate (r : BookingUpdateResult)
| RBookingCancel (r : BookingCancelResult)
| ROther (operation : string) (confidence : option Q).

(** ** Tables ([database/models.py]) *)

Record Vehicle := {
  vehicle_reg : string;
  vehicle_status : string;
}.

Record VehicleTelemetry := {
  vt_vehicle_id : Z;
  vt_timestamp : Z;
  vt_battery_soh : option Q;
}.

Record Booking := {
  vehicle_id : option Z;
  workshop_id : string;
  workshop_name : string;
  booking_slot : Z;
  service_type : string;
  estimated_duration : option Z;     (* minutes *)
  priority : option string;          (* nullable, like the next two *)
  status : option string;
  predicted_issue : option string;
  confidence_score : option Q;
  recommended_actions : list string;
}.

Record Workshop := {
  ws_workshop_id : string;
  ws_name : string;
  ws_location : string;
  specialties : list string;
  rating : option Q;
}.

Record AgentAction := {
  agent_name : string;
  action_type : string;
  aa_vehicle_id : option Z;
  input_data : Data;
  output_data : option AgentResult;
  aa_status : string;
  aa_confidence_score : option Q;
  error_message : option string;
}.

(** ** State and effects *)

Record World := {
  clock : nat -> Z;                    (* the readings [utcnow()] returns, in order *)
  ticks : nat;                         (* how many have been taken *)
  vehicles : gmap Z Vehicle;
  workshops : list Workshop;           (* in the order a query returns them *)
  bookings : gmap Z Booking;
  vehicle_telemetry : list VehicleTelemetry;
  agent_actions : list AgentAction;    (* row [i] has id [i + 1] *)
}.

Inductive Exn :=
| ValueError (msg : string)
| TypeError (msg : string)
| KeyError (msg : string)
| IndexError (msg : string)
| IntegrityError (msg : string)
| CollaboratorError (msg : string).

(** [str(e)] *)
Definition exn_message (e : Exn) : string :=
  match e with
  | ValueError msg | TypeError msg | KeyError msg | IndexError msg
  | IntegrityError msg | CollaboratorError msg => msg
  end.

(** A computation that reads and writes the state and either returns or
    raises; what was written before a [raise] stays written. *)
Definition M (A : Type) : Type := World -> (Exn + A) * World.

Definition ret {A} (a : A) : M A := fun w => (inr a, w).

Definition raise {A} (e : Exn) : M A := fun w => (inl e, w).

Definition bind {A B} (m : M A) (k : A -> M B) : M B :=
  fun w =>
    match m w with
    | (inr a, w') => k a w'
    | (inl e, w') => (inl e, w')
    end.

(** [try: m except Exception as e: h e] *)
Definition try_except {A} (m : M A) (h : Exn -> M A) : M A :=
  fun w =>
    match m w with
    | (inr a, w') => (inr a, w')
    | (inl e, w') => h e w'
    end.

Notation "x <- m ;; k" := (bind m (fun x => k))
  (at level 100, m at next level, right associativity).
Notation "m ;;; k" := (bind m (fun _ => k))
  (at level 100, right associativity).

Definition get_world : M World := fun w => (inr w, w).

Definition utcnow : M Z :=
  fun w =>
    (inr (clock w (ticks w)),
     {| clock := clock w; ticks := S (ticks w); vehicles := vehicles w;
        workshops := workshops w; bookings := bookings w;
        vehicle_telemetry := vehicle_telemetry w;
        agent_actions := agent_actions w |}).

Definition set_bookings (bs : gmap Z Booking) : M unit :=
  fun w =>
    (inr tt,
     {| clock := clock w; ticks := ticks w; vehicles := vehicles w;
        workshops := workshops w; bookings := bs;
        vehicle_telemetry := vehicle_telemetry w;
        agent_actions := agent_actions w |}).

Definition set_agent_actions (l : list AgentAction) : M unit :=
  fun w =>
    (inr tt,
     {| clock := clock w; ticks := ticks w; vehicles := vehicles w;
        workshops := workshops w; bookings := bookings w;
        vehicle_telemetry := vehicle_telemetry w;
        agent_actions := l |}).

Definition set_vehicles (vs : gmap Z Vehicle) : M unit :=
  fun w =>
    (inr tt,
     {| clock := clock w; ticks := ticks w; vehicles := vs;
        workshops := workshops w; bookings := bookings w;
        vehicle_telemetry := vehicle_telemetry w;
        agent_actions := agent_actions w |}).


(** Typed reads of a request dictionary.  Requests are taken to be well
    typed: a key that holds a value of another type than the code expects
    is outside the embedding and reads as absent. *)
Module Dict.

Definition get_str (data : Data) (key : string) : option string :=
  match data !! key with
  | Some (VScalar (SStr s)) => Some s
  | _ => None
  end.

Definition get_int (data : Data) (key : string) : option Z :=
  match data !! key with
  | Some (VScalar (SInt n)) => Some n
  | _ => None
  end.

Definition get_float (data : Data) (key : string) : option Q :=
  match data !! key with
  | Some (VScalar (SFloat q)) => Some q
  | _ => None
  end.

Definition get_bool (data : Data) (key : string) : option bool :=
  match data !! key with
  | Some (VScalar (SBool b)) => Some b
  | _ => None
  end.

Definition get_strings (data : Data) (key : string) : option (list string) :=
  match data !! key with
  | Some (VStrings l) => Some l
  | _ => None
  end.

Definition get_telemetry (data : Data) (key : string) : option Telemetry :=
  match data !! key with
  | Some (VTelemetry t) => Some t
  | _ => None
  end.

Definition get_updates (data : Data) (key : string) : option (list (string * Scalar)) :=
  match data !! key with
  | Some (VUpdates u) => Some u
  | _ => None
  end.

End Dict.

(** ** [agents/health_monitor_agent.py] *)

Module HealthMonitorAgent.

(** [self]: the configuration set up by [__init__]. *)
Record t := { anomaly_thresholds : gmap string Q }.

Definition __init__ : t :=
  {| anomaly_thresholds :=
       list_to_map
         [ ("battery_soh_critical", 70%Q);
           ("battery_soh_warning", 80%Q);
           ("battery_temp_critical", 45%Q);
           ("battery_temp_warning", 40%Q);
           ("voltage_imbalance_critical", 0.5%Q);
           ("voltage_imbalance_warning", 0.3%Q);
           ("motor_temp_critical", 85%Q);
           ("motor_temp_warning", 75%Q);
           ("coolant_temp_critical", 95%Q);
           ("coolant_temp_warning", 85%Q);
           ("coolant_level_critical", 20%Q);
           ("coolant_level_warning", 30%Q);
           ("motor_efficiency_critical", 75%Q);
           ("motor_efficiency_warning", 80%Q) ] |}.

(** [metric in ["battery_soh", "motor_efficiency", "coolant_level"]] *)
Definition lower_is_worse (metric : string) : bool :=
  bool_decide (metric ∈ ["battery_soh"; "motor_efficiency"; "coolant_level"]).

(** [threshold and test(threshold)]: the threshold when it is set, not
    zero, and the comparison holds. *)
Definition breached (threshold : option Q) (test : Q -> bool) : option Q :=
  match threshold with
  | Some t => if Py.truthy threshold && test t then Some t else None
  | None => None
  end.

Definition _check_metric_anomaly (self : t) (metric : string) (value : Q) : option Anomaly :=
  let critical_threshold := anomaly_thresholds self !! (metric +:+ "_critical") in
  let warning_threshold := anomaly_thresholds self !! (metric +:+ "_warning") in
  if negb (Py.truthy critical_threshold) && negb (Py.truthy warning_threshold) then None
  else if lower_is_worse metric then
    (* Lower values are worse *)
    match breached critical_threshold (fun c => Py.Qltb value c) with
    | Some c =>
        Some {| metric := metric; value := value; threshold := c;
                severity := "critical"; severity_score := 1.0%Q;
                message := metric +:+ " is critically low: ";
                historical_context := None |}
    | None =>
        match breached warning_threshold (fun w => Py.Qltb value w) with
        | Some w =>
            Some {| metric := metric; value := value; threshold := w;
                    severity := "warning"; severity_score := 0.6%Q;
                    message := metric +:+ " is below normal: ";
                    historical_context := None |}
        | None => None
        end
    end
  else
    (* Higher values are worse *)
    match breached critical_threshold (fun c => Py.Qltb c value) with
    | Some c =>
        Some {| metric := metric; value := value; threshold := c;
                severity := "critical"; severity_score := 1.0%Q;
                message := metric +:+ " is critically high: ";
                historical_context := None |}
    | None =>
        match breached warning_threshold (fun w => Py.Qltb w value) with
        | Some w =>
            Some {| metric := metric; value := value; threshold := w;
                    severity := "warning"; severity_score := 0.6%Q;
                    message := metric +:+ " is above normal: ";
                    historical_context := None |}
        | None => None
        end
    end.

(** Placeholder data of [_get_historical_anomalies]; the vehicle id is
    not looked at. *)
Definition _get_historical_anomalies (vehicle_id : Z) : gmap string string :=
  {[ "battery_soh" := "Similar issue detected 2 months ago";
     "battery_temp" := "Temperature spikes observed during summer months";
     "motor_efficiency" := "Gradual decline over past 6 months" ]}.

(** The first loop of [_detect_anomalies]: the anomalies of the metrics
    that are present, in the order of the dictionary. *)
Fixpoint check_each (self : t) (telemetry : Telemetry) : list Anomaly :=
  match telemetry with
  | [] => []
  | (metric, None) :: rest => check_each self rest
  | (metric, Some value) :: rest =>
      match _check_metric_anomaly self metric value with
      | Some anomaly => anomaly :: check_each self rest
      | None => check_each self rest
      end
  end.

(** [anomaly["historical_context"] = historical.get(anomaly["metric"], "No historical data")] *)
Definition set_historical_context (historical : gmap string string) (a : Anomaly) : Anomaly :=
  {| metric := metric a; value := value a; threshold := threshold a;
     severity := severity a; severity_score := severity_score a;
     message := message a;
     historical_context := Some (default "No historical data" (historical !! metric a)) |}.

Definition _detect_anomalies (self : t) (data : Data) : M AnomalyReport :=
  let telemetry := default [] (Dict.get_telemetry data "telemetry") in
  let vehicle_id := Dict.get_int data "vehicle_id" in
  let anomalies := check_each self telemetry in
  let severity_scores := severity_score <$> anomalies in
  (* Get historical context for anomalies *)
  let anomalies :=
    match vehicle_id with
    | Some v =>
        if Py.truthyZ vehicle_id
        then set_historical_context (_get_historical_anomalies v) <$> anomalies
        else anomalies
    | None => anomalies
    end in
  let overall_severity :=
    match severity_scores with
    | s :: rest => Py.max_from s rest
    | [] => 0.0%Q
    end in
  now <- utcnow ;;
  ret {| ar_vehicle_id := vehicle_id;
         anomalies_detected := Z.of_nat (length anomalies);
         anomalies := anomalies;
         overall_severity := overall_severity;
         requires_immediate_attention := Qle_bool 0.8 overall_severity;
         ar_confidence := match anomalies with [] => 0.7%Q | _ => 0.9%Q end;
         ar_timestamp := now |}.

(** *** Trends *)

Record Trend := {
  direction : string;
  rate : Q;
  trend_confidence : Q;
}.

(** [np.arange(n)] *)
Definition arange (n : nat) : list Q := (fun i => inject_Z (Z.of_nat i)) <$> seq 0 n.

(** [np.polyfit(x, y, 1)]: slope and intercept of the least-squares
    line, by the normal equations.  The arithmetic here is exact;
    NumPy's is in doubles and rounds.  What is proved of a trend
    below therefore holds of the exact line, and carries over to the
    doubles where rounding cannot change it: comparisons that the
    code makes on the value it returns, and examples whose slope is
    far from the bound 0.1.  An exact 0, as the slope or the spread of
    a constant history would have here, is not to be expected of the
    doubles. *)
Definition polyfit1 (x y : list Q) : Q * Q :=
  let n := inject_Z (Z.of_nat (length x)) in
  let sx := Py.Qsum x in
  let sy := Py.Qsum y in
  let sxy := Py.Qsum (zip_with Qmult x y) in
  let sxx := Py.Qsum (zip_with Qmult x x) in
  let slope := ((n * sxy - sx * sy) / (n * sxx - sx * sx))%Q in
  (slope, ((sy - slope * sx) / n)%Q).

Definition _calculate_trend (values : list Q) : Trend :=
  if (length values <? 2)%nat
  then {| direction := "stable"; rate := 0.0%Q; trend_confidence := 0.0%Q |}
  else
    (* Simple linear regression *)
    let x := arange (length values) in
    let y := values in
    let '(slope, intercept) := polyfit1 x y in
    let direction :=
      if Py.Qltb (Qabs slope) 0.1 then "stable"
      else if Py.Qltb 0 slope then "improving"
      else "declining" in
    (* R-squared for confidence *)
    let y_pred := (fun xi => slope * xi + intercept)%Q <$> x in
    let ss_res := Py.Qsum (zip_with (fun a b => (a - b) ^ 2)%Q y y_pred) in
    let mean := (Py.Qsum y / inject_Z (Z.of_nat (length y)))%Q in
    let ss_tot := Py.Qsum ((fun a => (a - mean) ^ 2)%Q <$> y) in
    let r_squared := if Qeq_bool ss_tot 0 then 0%Q else (1 - ss_res / ss_tot)%Q in
    {| direction := direction;
       rate := Qabs slope;
       trend_confidence := Py.max2 0.0 (Py.min2 1.0 r_squared) |}.

(** [order_by(VehicleTelemetry.timestamp.desc())] *)
Definition newest_first (a b : VehicleTelemetry) : Prop :=
  vt_timestamp b <= vt_timestamp a.

#[global] Instance newest_first_dec : RelDecision newest_first.
Proof. intros a b. unfold newest_first. apply _. Defined.

(** [select ... where vehicle_id = ? and timestamp >= cutoff
    order by timestamp desc]: newest first. *)
Definition _get_historical_telemetry (vehicle_id : Z) (days : Z) : M (list VehicleTelemetry) :=
  now <- utcnow ;;
  let cutoff_date := now - Time.days days in
  w <- get_world ;;
  ret (merge_sort newest_first
         (filter (fun r => vt_vehicle_id r = vehicle_id /\ cutoff_date <= vt_timestamp r)
            (vehicle_telemetry w))).

Inductive Trends :=
| TrendsError (error : string)
| TrendsOf (battery_soh : option Trend).

Definition _analyze_trends (vehicle_id : Z) : M Trends :=
  historical_data <- _get_historical_telemetry vehicle_id 7 ;;
  if (length historical_data <? 3)%nat
  then ret (TrendsError "Insufficient data for trend analysis")
  else
    let battery_soh_values := omap vt_battery_soh historical_data in
    if (3 <=? length battery_soh_values)%nat
    then ret (TrendsOf (Some (_calculate_trend battery_soh_values)))
    else ret (TrendsOf None).

(** What is kept of the dictionary returned by an operation that is
    not embedded: the error message of its error dictionary, or the
    confidence of its report. *)
Inductive Outcome :=
| OutcomeError (error : string)
| OutcomeReport (confidence : Q).

Definition outcome_result (operation : string) (o : Outcome) : AgentResult :=
  match o with
  | OutcomeError e => RError e 0.0%Q None
  | OutcomeReport c => ROther operation (Some c)
  end.

Section process.

(** [_perform_health_check] and [_predict_maintenance_needs] are not
    embedded; none of the dictionaries they return has an
    ["anomalies_detected"], ["overall_severity"] or ["anomalies"]
    key. *)
Variable _perform_health_check : option Z -> M Outcome.
Variable _predict_maintenance_needs : option Z -> M Outcome.

Definition process (self : t) (data : Data) : M AgentResult :=
  let action_type := default "health_check" (Dict.get_str data "action") in
  if bool_decide (action_type = "health_check") then
    o <- _perform_health_check (Dict.get_int data "vehicle_id") ;;
    ret (outcome_result "health_check" o)
  else if bool_decide (action_type = "anomaly_detection") then
    r <- _detect_anomalies self data ;;
    ret (RAnomalyReport r)
  else if bool_decide (action_type = "predictive_analysis") then
    o <- _predict_maintenance_needs (Dict.get_int data "vehicle_id") ;;
    ret (outcome_result "predictive_analysis" o)
  else raise (ValueError ("Unknown action type: " +:+ action_type)).

End process.

End HealthMonitorAgent.

(** ** [agents/base_agent.py] *)

Module BaseAgent.

(** An agent: its name and its [process] method. *)
Record t := {
  name : string;
  process : Data -> M AgentResult;
}.

(** [s.endswith(suffix)] *)
Definition endswith (s suffix : string) : bool :=
  (String.length suffix <=? String.length s)%nat
  && String.eqb
       (String.substring (String.length s - String.length suffix) (String.length suffix) s)
       suffix.

(** The mean of the entries whose key ends in ["_confidence"], 0.5 when
    there is none. *)
Definition _calculate_confidence (metrics : list (string * Q)) : Q :=
  let counted := filter (fun kv => endswith kv.1 "_confidence" = true) metrics in
  let total_score := foldl (fun acc kv => (acc + kv.2)%Q) 0%Q counted in
  let count := length counted in
  if (0 <? count)%nat then (total_score / inject_Z (Z.of_nat count))%Q else 0.5%Q.

(** [result.get("confidence", None)] *)
Definition result_confidence (result : AgentResult) : option Q :=
  match result with
  | RError _ c _ => Some c
  | RAnomalyReport r => Some (ar_confidence r)
  | RBooking r => Some (br_confidence r)
  | RBookingUpdate r => Some (bu_confidence r)
  | RBookingCancel r => Some (bc_confidence r)
  | ROther _ c => c
  end.

(** Insert a row in the audit table and return its id. *)
Definition log_action (self : t) (action_type : string) (vehicle_id : option Z)
    (input_data : Data) (status : string) : M Z :=
  w <- get_world ;;
  set_agent_actions
    (agent_actions w ++
     [{| agent_name := name self; action_type := action_type;
         aa_vehicle_id := vehicle_id; input_data := input_data;
         output_data := None; aa_status := status;
         aa_confidence_score := None; error_message := None |}]) ;;;
  ret (Z.of_nat (length (agent_actions w)) + 1).

(** [action = session.get(AgentAction, action_id); if action: ...; commit()] *)
Definition update_action (action_id : Z) (f : AgentAction -> AgentAction) : M unit :=
  w <- get_world ;;
  let i := Z.to_nat (action_id - 1) in
  match agent_actions w !! i with
  | Some action =>
      if 1 <=? action_id
      then set_agent_actions (<[i := f action]> (agent_actions w))
      else ret tt
  | None => ret tt
  end.

Definition completed (result : AgentResult) (a : AgentAction) : AgentAction :=
  {| agent_name := agent_name a; action_type := action_type a;
     aa_vehicle_id := aa_vehicle_id a; input_data := input_data a;
     output_data := Some result; aa_status := "completed";
     aa_confidence_score := result_confidence result;
     error_message := error_message a |}.

Definition failed (message : string) (a : AgentAction) : AgentAction :=
  {| agent_name := agent_name a; action_type := action_type a;
     aa_vehicle_id := aa_vehicle_id a; input_data := input_data a;
     output_data := output_data a; aa_status := "failed";
     aa_confidence_score := aa_confidence_score a;
     error_message := Some message |}.

(** [execute_with_logging]: the action is logged as processing, the
    data (not the action type) is handed to [process], and the row is
    updated with the outcome; an exception is recorded and raised
    again. *)
Definition execute_with_logging (self : t) (action_type : string) (data : Data)
    (vehicle_id : option Z) : M AgentResult :=
  (* Log start of action *)
  action_id <- log_action self action_type vehicle_id data "processing" ;;
  try_except
    ((* Process the data *)
     result <- process self data ;;
     (* Update action with results *)
     update_action action_id (completed result) ;;;
     ret result)
    (fun e =>
       (* Update action with error *)
       (if negb (action_id =? 0)
        then update_action action_id (failed (exn_message e))
        else ret tt) ;;;
       raise e).

End BaseAgent.


(** ** [agents/health_monitor_agent.py]: health check and predictive analysis *)

Module HealthCheck.

Import HealthMonitorAgent.

(** The metric columns of a row of [vehicle_telemetry]; the state keeps
    of them the one the trend analysis of the health check reads. *)
Record TelemetryRow := {
  battery_soh : option Q;
  battery_soc : option Q;
  charge_cycles : option Z;
  voltage_imbalance : option Q;
  battery_temp : option Q;
  motor_rpm : option Q;
  motor_efficiency : option Q;
  motor_temp : option Q;
  coolant_temp : option Q;
  coolant_level : option Q;
}.

(** [getattr(data, metric, None)] for the name of a metric column; any
    other name reads as absent. *)
Definition getattr (data : TelemetryRow) (metric : string) : option Q :=
  if bool_decide (metric = "battery_soh") then battery_soh data
  else if bool_decide (metric = "battery_soc") then battery_soc data
  else if bool_decide (metric = "charge_cycles") then inject_Z <$> charge_cycles data
  else if bool_decide (metric = "voltage_imbalance") then voltage_imbalance data
  else if bool_decide (metric = "battery_temp") then battery_temp data
  else if bool_decide (metric = "motor_rpm") then motor_rpm data
  else if bool_decide (metric = "motor_efficiency") then motor_efficiency data
  else if bool_decide (metric = "motor_temp") then motor_temp data
  else if bool_decide (metric = "coolant_temp") then coolant_temp data
  else if bool_decide (metric = "coolant_level") then coolant_level data
  else None.

(** *** Health metrics *)

(** Get status (good/warning/critical) for a metric value. *)
Definition _get_metric_status (self : t) (metric : string) (value : Q) : string :=
  let critical_threshold := anomaly_thresholds self !! (metric +:+ "_critical") in
  let warning_threshold := anomaly_thresholds self !! (metric +:+ "_warning") in
  if negb (Py.truthy critical_threshold) && negb (Py.truthy warning_threshold) then "unknown"
  else if lower_is_worse metric then
    (* Lower values are worse *)
    match breached critical_threshold (fun c => Py.Qltb value c) with
    | Some _ => "critical"
    | None =>
        match breached warning_threshold (fun w => Py.Qltb value w) with
        | Some _ => "warning"
        | None => "good"
        end
    end
  else
    (* Higher values are worse *)
    match breached critical_threshold (fun c => Py.Qltb c value) with
    | Some _ => "critical"
    | None =>
        match breached warning_threshold (fun w => Py.Qltb w value) with
        | Some _ => "warning"
        | None => "good"
        end
    end.

(** An entry of the dictionary [_analyze_health_metrics] returns. *)
Record HealthMetric := {
  hm_value : Q;
  hm_status : string;
  hm_metric : string;
}.

(** [if reading is not None: metrics[name] = {...}] *)
Definition health_metric (self : t) (name metric : string) (reading : option Q)
    : list (string * HealthMetric) :=
  match reading with
  | Some value =>
      [(name, {| hm_value := value;
                 hm_status := _get_metric_status self metric value;
                 hm_metric := metric |})]
  | None => []
  end.

(** The dictionary of health metrics, in insertion order. *)
Definition _analyze_health_metrics (self : t) (telemetry : TelemetryRow)
    : list (string * HealthMetric) :=
  health_metric self "battery_health" "battery_soh" (battery_soh telemetry)
  ++ health_metric self "battery_temperature" "battery_temp" (battery_temp telemetry)
  ++ health_metric self "motor_efficiency" "motor_efficiency" (motor_efficiency telemetry)
  ++ health_metric self "coolant_system" "coolant_level" (coolant_level telemetry).

Definition weights : list (string * Q) :=
  [ ("battery_health", 0.3%Q);
    ("motor_efficiency", 0.25%Q);
    ("coolant_system", 0.2%Q);
    ("battery_temperature", 0.25%Q) ].

(** [weights.get(metric_name, 0.1)] *)
Definition weight (metric_name : string) : Q :=
  default 0.1%Q ((list_to_map weights : gmap string Q) !! metric_name).

Definition status_score (status : string) : Q :=
  if bool_decide (status = "good") then 1.0%Q
  else if bool_decide (status = "warning") then 0.6%Q
  else if bool_decide (status = "critical") then 0.2%Q
  else 0.5%Q.

(** Calculate overall health score from individual metrics. *)
Definition _calculate_health_score (health_metrics : list (string * HealthMetric)) : Q :=
  match health_metrics with
  | [] => 0.0%Q
  | _ :: _ =>
      let scores :=
        (fun entry => status_score (hm_status entry.2) * weight entry.1)%Q <$> health_metrics in
      (Py.Qsum scores / Py.Qsum weights.*2)%Q
  end.

(** Determine overall vehicle status and recommendations; the trends
    are not looked at. *)
Definition _determine_vehicle_status (health_metrics : list (string * HealthMetric))
    (trends : Trends) : string * list string :=
  let statuses := (fun entry => hm_status entry.2) <$> health_metrics in
  if bool_decide ("critical" ∈ statuses) then
    ("critical",
     ["Immediate inspection required";
      "Schedule emergency maintenance";
      "Consider taking vehicle out of service"])
  else if bool_decide ("warning" ∈ statuses) then
    ("warning",
     ["Schedule preventive maintenance";
      "Monitor closely";
      "Check affected systems"])
  else
    ("operational",
     ["Continue normal operations";
      "Regular maintenance schedule"]).

(** *** The health check *)

(** The report of a health check. *)
Record HealthReport := {
  hr_vehicle_id : Z;
  overall_health_score : Q;
  hr_status : string;
  health_metrics : list (string * HealthMetric);
  hr_trends : Trends;
  recommendations : list string;
  hr_confidence : Q;
  hr_timestamp : Z;
}.

Inductive HealthCheckResult :=
| HealthCheckError (error : string)
| HealthCheckReport (r : HealthReport).

(** What [HealthMonitorAgent.process] keeps of the result. *)
Definition outcome (r : HealthCheckResult) : Outcome :=
  match r with
  | HealthCheckError e => OutcomeError e
  | HealthCheckReport r => OutcomeReport (hr_confidence r)
  end.

Section health_check.

(** The latest row of a vehicle: a query on columns the state does not
    keep. *)
Variable _get_latest_telemetry : Z -> M (option TelemetryRow).

Definition _perform_health_check (self : t) (vehicle_id : option Z) : M HealthCheckResult :=
  w <- get_world ;;
  (* Get vehicle with latest telemetry *)
  match vehicle_id ≫= (fun v => (fun vehicle => (v, vehicle)) <$> vehicles w !! v) with
  | None => ret (HealthCheckError "Vehicle not found")
  | Some (vehicle_id, vehicle) =>
      (* Get latest telemetry *)
      latest_telemetry <- _get_latest_telemetry vehicle_id ;;
      match latest_telemetry with
      | None => ret (HealthCheckError "No telemetry data available")
      | Some latest_telemetry =>
          (* Analyze health metrics *)
          let health_status := _analyze_health_metrics self latest_telemetry in
          (* Get historical trends *)
          trends <- _analyze_trends vehicle_id ;;
          (* Calculate overall health score *)
          let overall_score := _calculate_health_score health_status in
          (* Determine status and recommendations *)
          let determined := _determine_vehicle_status health_status trends in
          let status := determined.1 in
          let recommendations := determined.2 in
          (* Update vehicle status if needed *)
          (if bool_decide (vehicle_status vehicle = status) then ret tt
           else
             w <- get_world ;;
             set_vehicles
               (<[vehicle_id := {| vehicle_reg := vehicle_reg vehicle;
                                   vehicle_status := status |}]> (vehicles w))) ;;;
          now <- utcnow ;;
          ret (HealthCheckReport
                 {| hr_vehicle_id := vehicle_id;
                    overall_health_score := overall_score;
                    hr_status := status;
                    health_metrics := health_status;
                    hr_trends := trends;
                    recommendations := recommendations;
                    hr_confidence :=
                      BaseAgent._calculate_confidence
                        [("data_confidence", 0.9%Q); ("analysis_confidence", 0.85%Q)];
                    hr_timestamp := now |})
      end
  end.

End health_check.

(** *** Predictive analysis *)

Record Prediction := {
  days_to_critical : Q;
  predicted_date : Z;
  current_value : Q;
  critical_threshold : Q;
}.

(** The dictionary [_analyze_metric_trend] returns; without enough
    values it has no ["trend"] entry. *)
Record MetricTrend := {
  mt_metric : string;
  mt_trend : option Trend;
  mt_prediction : option Prediction;
  mt_confidence : Q;
}.

(** Analyze trend for a specific metric. *)
Definition _analyze_metric_trend (self : t) (historical_data : list TelemetryRow)
    (metric : string) : M MetricTrend :=
  let values := omap (fun data => getattr data metric) historical_data in
  if (length values <? 3)%nat
  then ret {| mt_metric := metric; mt_trend := None; mt_prediction := None;
              mt_confidence := 0.0%Q |}
  else
    let trend := _calculate_trend values in
    (* Predict when metric might reach critical threshold *)
    prediction <-
      (if bool_decide (direction trend = "declining") && Py.Qltb 0 (rate trend) then
         let critical_threshold := anomaly_thresholds self !! (metric +:+ "_critical") in
         match critical_threshold, values with
         | Some c, first :: _ =>
             if Py.truthy critical_threshold && Py.Qltb c first then
               let days_to_critical := ((first - c) / rate trend)%Q in
               if Py.Qltb 0 days_to_critical then
                 now <- utcnow ;;
                 ret (Some {| days_to_critical := days_to_critical;
                              predicted_date := now + Time.float_days days_to_critical;
                              current_value := first;
                              critical_threshold := c |})
               else ret None
             else ret None
         | _, _ => ret None
         end
       else ret None) ;;
    ret {| mt_metric := metric; mt_trend := Some trend; mt_prediction := prediction;
           mt_confidence := trend_confidence trend |}.

Record Recommendation := {
  rec_metric : string;
  rec_priority : string;
  rec_action : string;
  estimated_days : Q;
  rec_confidence : Q;
}.

(** The body of the loop of [_generate_maintenance_recommendations]. *)
Definition recommendation (prediction : MetricTrend) : list Recommendation :=
  match mt_prediction prediction with
  | Some pred_data =>
      let days_to_critical := days_to_critical pred_data in
      let urgency :=
        if Qle_bool days_to_critical 7 then ("urgent", "Schedule immediate maintenance")
        else if Qle_bool days_to_critical 30 then ("high", "Schedule maintenance within 2 weeks")
        else ("normal", "Monitor and schedule routine maintenance") in
      [{| rec_metric := mt_metric prediction;
          rec_priority := urgency.1;
          rec_action := urgency.2;
          estimated_days := days_to_critical;
          rec_confidence := mt_confidence prediction |}]
  | None => []
  end.

(** Generate maintenance recommendations based on predictions. *)
Definition _generate_maintenance_recommendations (predictions : list MetricTrend)
    : list Recommendation :=
  Py.sorted Py.Qltb estimated_days (predictions ≫= recommendation).

End HealthCheck.

(** ** [agents/planner_agent.py] *)

Module PlannerAgent.

Record PriorityConfig := { urgency : Z; max_delay_hours : Z }.

Definition booking_priorities : gmap string PriorityConfig :=
  {[ "critical" := {| urgency := 1; max_delay_hours := 24 |};
     "high" := {| urgency := 2; max_delay_hours := 72 |};
     "normal" := {| urgency := 3; max_delay_hours := 168 |};
     "low" := {| urgency := 4; max_delay_hours := 336 |} ]}.

(** Service duration in minutes. *)
Definition duration_mapping : gmap string Z :=
  {[ "inspection" := 60;
     "preventive" := 120;
     "corrective" := 180;
     "emergency" := 240;
     "battery_service" := 90;
     "motor_service" := 150;
     "cooling_service" := 120;
     "general" := 120 ]}.

Definition _estimate_service_duration (service_type : string) : Z :=
  default 120 (duration_mapping !! service_type).

(** [specialties] contains the service type, ["all"] or ["general"];
    the rows come in table order. *)
Definition _find_suitable_workshops (service_type location : string) : M (list Workshop) :=
  w <- get_world ;;
  ret (filter (fun ws => service_type ∈ specialties ws
                         \/ "all" ∈ specialties ws
                         \/ "general" ∈ specialties ws)
         (workshops w)).

(** [order_by(Booking.booking_slot)] *)
Definition by_slot (a b : Booking) : Prop := booking_slot a <= booking_slot b.

#[global] Instance by_slot_dec : RelDecision by_slot.
Proof. intros a b. unfold by_slot. apply _. Defined.

(** The bookings a slot search looks at: those of the workshop that
    start at [now] or later and are scheduled, confirmed or in
    progress. *)
Definition existing_bookings (wid : string) (now : Z) (table : gmap Z Booking) : list Booking :=
  merge_sort by_slot
    (filter (fun b => workshop_id b = wid
                      /\ now <= booking_slot b
                      /\ status b ∈ [Some "scheduled"; Some "confirmed"; Some "in_progress"])
       (map_to_list table).*2).

(** [slot_time < booking_end and slot_end > booking.booking_slot] *)
Definition conflicts (slot_time slot_end : Z) (booking : Booking) : bool :=
  let booking_end :=
    booking_slot booking + Time.minutes (Py.or_default (estimated_duration booking) 120) in
  (slot_time <? booking_end) && (booking_slot booking <? slot_end).

(** The values [slot_time] takes in
    [while slot_time < day_end: ...; slot_time += timedelta(hours=1)]. *)
Definition hourly (slot_time day_end : Z) : list Z :=
  (fun k => slot_time + Time.hours k)
    <$> seqZ 0 ((day_end - slot_time + Time.hours 1 - 1) / Time.hours 1).

(** The slots the two nested loops visit, in order: for each of the
    next 30 days, the hours from 8 AM up to 6 PM. *)
Definition candidate_slots (current_time : Z) : list Z :=
  day_offset ← seqZ 0 30;
  let day_start := Time.replace_hour0 8 (current_time + Time.days day_offset) in
  let day_end := Time.replace_hour 18 day_start in
  hourly day_start day_end.

Definition _find_next_available_slot (wid service_type : string) : M (option Z) :=
  (* Get existing bookings *)
  now <- utcnow ;;
  w <- get_world ;;
  let existing_bookings := existing_bookings wid now (bookings w) in
  (* Find gaps in the schedule *)
  current_time <- utcnow ;;
  (* Round to next hour *)
  let current_time :=
    if 0 <? Time.minute current_time
    then Time.replace_minute0 current_time + Time.hours 1
    else current_time in
  let service_duration := _estimate_service_duration service_type in
  ret (List.find
         (fun slot_time =>
            let slot_end := slot_time + Time.minutes service_duration in
            negb (existsb (conflicts slot_time slot_end) existing_bookings))
         (candidate_slots current_time)).

(** The dictionary [best_slot] of [_find_optimal_slot]. *)
Record OptimalSlot := {
  os_workshop_id : string;
  os_workshop_name : string;
  os_location : string;
  slot_time : Z;
  os_estimated_duration : Z;
  availability_confidence : Q;
}.

(** The loop of [_find_optimal_slot]; [best_score = None] is
    [float('inf')]. *)
Fixpoint find_optimal_loop (workshops : list Workshop) (max_delay_hours : Z)
    (service_type : string) (best_slot : option OptimalSlot) (best_score : option Q)
    : M (option OptimalSlot) :=
  match workshops with
  | [] => ret best_slot
  | workshop :: rest =>
      found <- _find_next_available_slot (ws_workshop_id workshop) service_type ;;
      match found with
      | None => find_optimal_loop rest max_delay_hours service_type best_slot best_score
      | Some slot_time =>
          (* Calculate delay in hours *)
          now <- utcnow ;;
          let delay_hours := Time.total_hours (slot_time - now) in
          if Py.Qltb (inject_Z max_delay_hours) delay_hours
          then find_optimal_loop rest max_delay_hours service_type best_slot best_score
          else
            match rating workshop with
            | None => raise (TypeError "unsupported operand type(s) for *: 'NoneType' and 'int'")
            | Some rating =>
                (* Prefer higher rated workshops *)
                let score := (delay_hours - rating * 10)%Q in
                if match best_score with
                   | None => true
                   | Some best => Py.Qltb score best
                   end
                then
                  find_optimal_loop rest max_delay_hours service_type
                    (Some {| os_workshop_id := ws_workshop_id workshop;
                             os_workshop_name := ws_name workshop;
                             os_location := ws_location workshop;
                             slot_time := slot_time;
                             os_estimated_duration := _estimate_service_duration service_type;
                             availability_confidence := 0.8%Q |})
                    (Some score)
                else find_optimal_loop rest max_delay_hours service_type best_slot best_score
            end
      end
  end.

(** [self.booking_priorities.get(priority, self.booking_priorities["normal"])] *)
Definition priority_config (priority : string) : M PriorityConfig :=
  match booking_priorities !! "normal" with
  | None => raise (KeyError "normal")
  | Some normal => ret (default normal (booking_priorities !! priority))
  end.

Definition _find_optimal_slot (workshops : list Workshop) (priority service_type : string)
    : M (option OptimalSlot) :=
  priority_config <- priority_config priority ;;
  find_optimal_loop workshops (max_delay_hours priority_config) service_type None None.

(** The integer primary key of a new row: one more than the largest
    in the table. *)
Definition next_id (table : gmap Z Booking) : Z :=
  1 + foldr Z.max 0 (map_to_list table).*1.

(** [session.add(booking); commit(); refresh(booking)] *)
Definition add_booking (booking : Booking) : M Z :=
  w <- get_world ;;
  let id := next_id (bookings w) in
  set_bookings (<[id := booking]> (bookings w)) ;;;
  ret id.

Definition _schedule_booking (data : Data) : M AgentResult :=
  let vehicle_id := Dict.get_int data "vehicle_id" in
  let service_type := default "maintenance" (Dict.get_str data "service_type") in
  let priority := default "normal" (Dict.get_str data "priority") in
  let predicted_issue := default "" (Dict.get_str data "predicted_issue") in
  let confidence_score := default 0.5%Q (Dict.get_float data "confidence_score") in
  w <- get_world ;;
  (* Get vehicle information *)
  match vehicle_id ≫= (fun v => vehicles w !! v) with
  | None => ret (RError "Vehicle not found" 0.0%Q None)
  | Some vehicle =>
      (* Find available workshops *)
      workshops <- _find_suitable_workshops service_type "default" ;;
      match workshops with
      | [] => ret (RError "No available workshops found" 0.0%Q None)
      | _ :: _ =>
          (* Find optimal booking slot *)
          optimal_slot <- _find_optimal_slot workshops priority service_type ;;
          match optimal_slot with
          | None =>
              ret (RError "No available slots found" 0.0%Q
                     (Some (Z.of_nat (length workshops))))
          | Some optimal_slot =>
              (* Create booking *)
              booking_id <- add_booking
                {| vehicle_id := vehicle_id;
                   workshop_id := os_workshop_id optimal_slot;
                   workshop_name := os_workshop_name optimal_slot;
                   booking_slot := slot_time optimal_slot;
                   service_type := service_type;
                   estimated_duration := Some (os_estimated_duration optimal_slot);
                   priority := Some priority;
                   status := Some "scheduled";
                   predicted_issue := Some predicted_issue;
                   confidence_score := Some confidence_score;
                   recommended_actions :=
                     default [] (Dict.get_strings data "recommended_actions") |} ;;
              now <- utcnow ;;
              ret (RBooking
                     {| br_booking_id := booking_id;
                        br_vehicle_id := vehicle_id;
                        br_workshop_id := os_workshop_id optimal_slot;
                        br_workshop_name := os_workshop_name optimal_slot;
                        br_workshop_location := os_location optimal_slot;
                        br_booking_slot := slot_time optimal_slot;
                        br_estimated_duration := os_estimated_duration optimal_slot;
                        br_service_type := service_type;
                        br_priority := priority;
                        br_status := "scheduled";
                        br_confidence :=
                          BaseAgent._calculate_confidence
                            [("workshop_availability", availability_confidence optimal_slot);
                             ("scheduling_confidence", 0.9%Q)];
                        br_timestamp := now |})
          end
      end
  end.

Definition allowed_updates : list string :=
  ["booking_slot"; "service_type"; "priority"; "status";
   "estimated_duration"; "predicted_issue"; "confidence_score"].

Definition with_booking_slot (b : Booking) (t : Z) : Booking :=
  {| vehicle_id := vehicle_id b; workshop_id := workshop_id b;
     workshop_name := workshop_name b; booking_slot := t;
     service_type := service_type b; estimated_duration := estimated_duration b;
     priority := priority b; status := status b;
     predicted_issue := predicted_issue b; confidence_score := confidence_score b;
     recommended_actions := recommended_actions b |}.

Definition with_service_type (b : Booking) (s : string) : Booking :=
  {| vehicle_id := vehicle_id b; workshop_id := workshop_id b;
     workshop_name := workshop_name b; booking_slot := booking_slot b;
     service_type := s; estimated_duration := estimated_duration b;
     priority := priority b; status := status b;
     predicted_issue := predicted_issue b; confidence_score := confidence_score b;
     recommended_actions := recommended_actions b |}.

Definition with_priority (b : Booking) (s : option string) : Booking :=
  {| vehicle_id := vehicle_id b; workshop_id := workshop_id b;
     workshop_name := workshop_name b; booking_slot := booking_slot b;
     service_type := service_type b; estimated_duration := estimated_duration b;
     priority := s; status := status b;
     predicted_issue := predicted_issue b; confidence_score := confidence_score b;
     recommended_actions := recommended_actions b |}.

Definition with_status (b : Booking) (s : option string) : Booking :=
  {| vehicle_id := vehicle_id b; workshop_id := workshop_id b;
     workshop_name := workshop_name b; booking_slot := booking_slot b;
     service_type := service_type b; estimated_duration := estimated_duration b;
     priority := priority b; status := s;
     predicted_issue := predicted_issue b; confidence_score := confidence_score b;
     recommended_actions := recommended_actions b |}.

Definition with_estimated_duration (b : Booking) (d : option Z) : Booking :=
  {| vehicle_id := vehicle_id b; workshop_id := workshop_id b;
     workshop_name := workshop_name b; booking_slot := booking_slot b;
     service_type := service_type b; estimated_duration := d;
     priority := priority b; status := status b;
     predicted_issue := predicted_issue b; confidence_score := confidence_score b;
     recommended_actions := recommended_actions b |}.

Definition with_predicted_issue (b : Booking) (s : option string) : Booking :=
  {| vehicle_id := vehicle_id b; workshop_id := workshop_id b;
     workshop_name := workshop_name b; booking_slot := booking_slot b;
     service_type := service_type b; estimated_duration := estimated_duration b;
     priority := priority b; status := status b;
     predicted_issue := s; confidence_score := confidence_score b;
     recommended_actions := recommended_actions b |}.

Definition with_confidence_score (b : Booking) (c : option Q) : Booking :=
  {| vehicle_id := vehicle_id b; workshop_id := workshop_id b;
     workshop_name := workshop_name b; booking_slot := booking_slot b;
     service_type := service_type b; estimated_duration := estimated_duration b;
     priority := priority b; status := status b;
     predicted_issue := predicted_issue b; confidence_score := c;
     recommended_actions := recommended_actions b |}.

(** [if field == "booking_slot" and isinstance(value, str):
        value = datetime.fromisoformat(value)]; a string that is not an
    ISO date makes [fromisoformat] raise [ValueError]. *)
Definition parse_slot (field : string) (value : Scalar) : M Scalar :=
  if bool_decide (field = "booking_slot") then
    match value with
    | SIso t => ret (SDatetime t)
    | SStr s => raise (ValueError ("Invalid isoformat string: " +:+ s))
    | _ => ret value
    end
  else ret value.

(** [setattr(booking, field, value)] for an allowed field, as the commit
    takes it: the row with the column set, or the error the commit
    raises.  [setattr] itself does not fail.  [None] is stored in the
    columns that may be null, and refused with an [IntegrityError] by
    [booking_slot] and [service_type], which may not.  A value of the
    type of the column is stored.  What the database makes of a value
    of another type depends on its driver; here the commit refuses it. *)
Definition setattr (booking : Booking) (field : string) (value : Scalar) : Exn + Booking :=
  if bool_decide (field = "booking_slot") then
    match value with
    | SIso t | SDatetime t => inr (with_booking_slot booking t)
    | SNone => inl (IntegrityError "NOT NULL constraint failed: bookings.booking_slot")
    | _ => inl (TypeError "booking_slot")
    end
  else if bool_decide (field = "service_type") then
    match value with
    | SStr s => inr (with_service_type booking s)
    | SNone => inl (IntegrityError "NOT NULL constraint failed: bookings.service_type")
    | _ => inl (TypeError "service_type")
    end
  else if bool_decide (field = "priority") then
    match value with
    | SStr s => inr (with_priority booking (Some s))
    | SNone => inr (with_priority booking None)
    | _ => inl (TypeError "priority")
    end
  else if bool_decide (field = "status") then
    match value with
    | SStr s => inr (with_status booking (Some s))
    | SNone => inr (with_status booking None)
    | _ => inl (TypeError "status")
    end
  else if bool_decide (field = "estimated_duration") then
    match value with
    | SInt n => inr (with_estimated_duration booking (Some n))
    | SNone => inr (with_estimated_duration booking None)
    | _ => inl (TypeError "estimated_duration")
    end
  else if bool_decide (field = "predicted_issue") then
    match value with
    | SStr s => inr (with_predicted_issue booking (Some s))
    | SNone => inr (with_predicted_issue booking None)
    | _ => inl (TypeError "predicted_issue")
    end
  else
    match value with
    | SFloat q => inr (with_confidence_score booking (Some q))
    | SInt n => inr (with_confidence_score booking (Some (inject_Z n)))
    | SNone => inr (with_confidence_score booking None)
    | _ => inl (TypeError "confidence_score")
    end.

(** [for field, value in updates.items(): ...] on the loaded row.  The
    loop goes through all the updates; [refused] is the error the
    commit will raise, that of the first value refused. *)
Fixpoint apply_updates (updates : list (string * Scalar)) (booking : Booking)
    (updated_fields : list string) (refused : option Exn)
    : M (Booking * list string * option Exn) :=
  match updates with
  | [] => ret (booking, updated_fields, refused)
  | (field, value) :: rest =>
      if bool_decide (field ∈ allowed_updates)
      then
        value <- parse_slot field value ;;
        match setattr booking field value with
        | inr booking => apply_updates rest booking (updated_fields ++ [field]) refused
        | inl e =>
            apply_updates rest booking (updated_fields ++ [field])
              (Some (default e refused))
        end
      else apply_updates rest booking updated_fields refused
  end.

Definition _update_booking (data : Data) : M AgentResult :=
  let booking_id := Dict.get_int data "booking_id" in
  let updates := default [] (Dict.get_updates data "updates") in
  w <- get_world ;;
  match booking_id ≫= (fun i => (fun b => (i, b)) <$> bookings w !! i) with
  | None => ret (RError "Booking not found" 0.0%Q None)
  | Some (booking_id, booking) =>
      (* Update allowed fields *)
      updated <- apply_updates updates booking [] None ;;
      let booking := updated.1.1 in
      let updated_fields := updated.1.2 in
      (* await session.commit() *)
      match updated.2 with
      | Some e => raise e
      | None =>
          set_bookings (<[booking_id := booking]> (bookings w)) ;;;
          now <- utcnow ;;
          ret (RBookingUpdate
                 {| bu_booking_id := booking_id;
                    bu_updated_fields := updated_fields;
                    bu_new_booking_slot := booking_slot booking;
                    bu_status := status booking;
                    bu_confidence := 0.9%Q;
                    bu_timestamp := now |})
      end
  end.

(** [for workshop in workshops[:3]: ...] of [_cancel_booking]. *)
Fixpoint alternatives (workshops : list Workshop) (service_type : string)
    : M (list AlternativeSlot) :=
  match workshops with
  | [] => ret []
  | workshop :: rest =>
      slot <- _find_next_available_slot (ws_workshop_id workshop) service_type ;;
      more <- alternatives rest service_type ;;
      match slot with
      | Some slot =>
          ret ({| alt_workshop_id := ws_workshop_id workshop;
                  alt_workshop_name := ws_name workshop;
                  alt_slot_time := slot;
                  alt_estimated_duration := 120 |} :: more)
      | None => ret more
      end
  end.

Definition _cancel_booking (data : Data) : M AgentResult :=
  let booking_id := Dict.get_int data "booking_id" in
  let reason := default "User requested" (Dict.get_str data "reason") in
  w <- get_world ;;
  match booking_id ≫= (fun i => (fun b => (i, b)) <$> bookings w !! i) with
  | None => ret (RError "Booking not found" 0.0%Q None)
  | Some (booking_id, booking) =>
      if bool_decide (status booking ∈ [Some "completed"; Some "cancelled"])
      then ret (RError ("Cannot cancel booking with status: "
                        +:+ default "None" (status booking)) 0.0%Q None)
      else
        set_bookings (<[booking_id := with_status booking (Some "cancelled")]> (bookings w)) ;;;
        (* Find alternative slot if needed *)
        alternative_slots <-
          (if default false (Dict.get_bool data "find_alternative")
           then
             workshops <- _find_suitable_workshops (service_type booking) "default" ;;
             alternatives (take 3 workshops) (service_type booking)
           else ret []) ;;
        now <- utcnow ;;
        ret (RBookingCancel
               {| bc_booking_id := booking_id;
                  bc_status := "cancelled";
                  bc_reason := reason;
                  bc_alternative_slots := alternative_slots;
                  bc_confidence := 1.0%Q;
                  bc_timestamp := now |})
  end.

Section process.

(** [_find_available_workshops] and [_optimize_booking_schedule] are
    not embedded. *)
Variable _find_available_workshops : Data -> M AgentResult.
Variable _optimize_booking_schedule : Data -> M AgentResult.

Definition process (data : Data) : M AgentResult :=
  let action_type := default "schedule_booking" (Dict.get_str data "action") in
  if bool_decide (action_type = "schedule_booking") then _schedule_booking data
  else if bool_decide (action_type = "find_workshops") then _find_available_workshops data
  else if bool_decide (action_type = "optimize_schedule") then _optimize_booking_schedule data
  else if bool_decide (action_type = "update_booking") then _update_booking data
  else if bool_decide (action_type = "cancel_booking") then _cancel_booking data
  else raise (ValueError ("Unknown action type: " +:+ action_type)).

End process.

(** *** Workshop search *)

(** The dictionary [_get_workshop_availability] returns. *)
Record Availability := {
  next_available : option Z;
  next_available_hours : Q;
  current_load : string;
}.

Definition _get_workshop_availability (wid : string) : M Availability :=
  next_slot <- _find_next_available_slot wid "maintenance" ;;
  match next_slot with
  | Some next_slot =>
      now <- utcnow ;;
      ret {| next_available := Some next_slot;
             next_available_hours := Time.total_hours (next_slot - now);
             current_load := "normal" |}
  | None =>
      (* 30 days *)
      ret {| next_available := None; next_available_hours := 720%Q;
             current_load := "normal" |}
  end.

(** An entry of [workshop_details]. *)
Record WorkshopDetail := {
  wd_id : string;
  wd_name : string;
  wd_location : string;
  wd_specialties : list string;
  wd_rating : option Q;
  wd_availability : Availability;
  wd_distance : Z;
  estimated_wait_time : Q;
}.

(** [for workshop in workshops: ...] of [_find_available_workshops]. *)
Fixpoint workshop_details (workshops : list Workshop) : M (list WorkshopDetail) :=
  match workshops with
  | [] => ret []
  | workshop :: rest =>
      availability <- _get_workshop_availability (ws_workshop_id workshop) ;;
      more <- workshop_details rest ;;
      ret ({| wd_id := ws_workshop_id workshop;
              wd_name := ws_name workshop;
              wd_location := ws_location workshop;
              wd_specialties := specialties workshop;
              wd_rating := rating workshop;
              wd_availability := availability;
              wd_distance := 0;
              estimated_wait_time := next_available_hours availability |} :: more)
  end.

(** [(w["estimated_wait_time"], -w["rating"], w["distance"])] *)
Definition sort_key (w : WorkshopDetail) : M (Q * Q * Z) :=
  match wd_rating w with
  | Some rating => ret (estimated_wait_time w, (- rating)%Q, wd_distance w)
  | None => raise (TypeError "bad operand type for unary -: 'NoneType'")
  end.

(** The keys [list.sort] computes before it compares any, each with
    its element. *)
Fixpoint sort_keys (details : list WorkshopDetail) : M (list ((Q * Q * Z) * WorkshopDetail)) :=
  match details with
  | [] => ret []
  | w :: rest =>
      key <- sort_key w ;;
      more <- sort_keys rest ;;
      ret ((key, w) :: more)
  end.

(** The dictionary [_find_available_workshops] returns. *)
Record WorkshopSearch := {
  workshops_found : Z;
  found_workshops : list WorkshopDetail;
  criteria_service_type : string;
  criteria_location : string;
  criteria_max_distance : Scalar;
  ws_confidence : Q;
  ws_timestamp : Z;
}.

Definition _find_available_workshops (data : Data) : M WorkshopSearch :=
  let service_type := default "maintenance" (Dict.get_str data "service_type") in
  let location := default "default" (Dict.get_str data "location") in
  let max_distance :=
    match data !! "max_distance" with
    | Some (VScalar distance) => distance
    | _ => SInt 50
    end in
  workshops <- _find_suitable_workshops service_type location ;;
  workshop_details <- workshop_details workshops ;;
  (* Sort by priority factors *)
  keyed <- sort_keys workshop_details ;;
  let workshop_details := (Py.sorted Py.QQZltb fst keyed).*2 in
  now <- utcnow ;;
  ret {| workshops_found := Z.of_nat (length workshop_details);
         found_workshops := workshop_details;
         criteria_service_type := service_type;
         criteria_location := location;
         criteria_max_distance := max_distance;
         ws_confidence := match workshop_details with [] => 0.2%Q | _ :: _ => 0.8%Q end;
         ws_timestamp := now |}.

(** *** Schedule optimization *)

(** The rows of a query come with their primary keys. *)
Definition Row : Type := Z * Booking.

(** [booking.estimated_duration or 120] *)
Definition duration (booking : Row) : Z :=
  Py.or_default (estimated_duration booking.2) 120.

Definition priority_order : gmap string Z :=
  {[ "critical" := 1; "high" := 2; "normal" := 3; "low" := 4 ]}.

(** [priority_order.get(booking.priority, 3)] *)
Definition priority_rank (booking : Row) : Z :=
  default 3 (priority booking.2 ≫= (fun p => priority_order !! p)).

(** The gaps in minutes between each booking and the next. *)
Fixpoint gaps (bookings : list Row) : list Q :=
  match bookings with
  | current :: (next :: _) as rest =>
      let current_end := booking_slot current.2 + Time.minutes (duration current) in
      let next_start := booking_slot next.2 in
      Time.total_minutes (next_start - current_end) :: gaps rest
  | _ => []
  end.

(** The two dictionaries [_analyze_schedule_efficiency] returns: the
    short one for no bookings, the full one otherwise. *)
Inductive Efficiency :=
| EfficiencyOfNone
| EfficiencyOf (efficiency_gain avg_gap_minutes : Q) (suggestions : list string)
    (total_bookings total_duration : Z).

(** [optimization_suggestions.get("efficiency_gain", 0)] *)
Definition efficiency_gain (e : Efficiency) : Q :=
  match e with
  | EfficiencyOfNone => 0%Q
  | EfficiencyOf efficiency_gain _ _ _ _ => efficiency_gain
  end.

Definition suggestions (e : Efficiency) : list string :=
  match e with
  | EfficiencyOfNone => []
  | EfficiencyOf _ _ suggestions _ _ => suggestions
  end.

(** Analyze the efficiency of the current schedule. *)
Definition _analyze_schedule_efficiency (bookings : list Row) : Efficiency :=
  match bookings with
  | [] => EfficiencyOfNone
  | _ :: _ =>
      let total_duration := foldr Z.add 0 (duration <$> bookings) in
      (* Calculate gaps between bookings *)
      let gaps := gaps bookings in
      let avg_gap :=
        match gaps with
        | [] => 0%Q
        | _ :: _ => (Py.Qsum gaps / inject_Z (Z.of_nat (length gaps)))%Q
        end in
      let reduce :=
        if Py.Qltb 60 avg_gap then ["Reduce gaps between bookings"] else [] in
      (* Check for priority ordering *)
      let priorities := priority_rank <$> bookings in
      let reorder :=
        if bool_decide (priorities = Py.sorted Z.ltb id priorities) then []
        else ["Reorder bookings by priority"] in
      (* Up to 20% improvement *)
      let efficiency_gain := Py.min2 20 (Py.max2 0 (avg_gap - 30) / 30 * 20)%Q in
      EfficiencyOf efficiency_gain avg_gap (reduce ++ reorder)
        (Z.of_nat (length bookings)) total_duration
  end.

(** An entry of the optimized schedule. *)
Record ScheduleEntry := {
  se_booking_id : Z;
  se_vehicle_id : option Z;
  original_slot : Z;
  optimized_slot : Z;
  se_duration : Z;
  se_priority : option string;
  se_service_type : string;
}.

(** The loop of [_generate_optimized_schedule]: the bookings one after
    the other from [current_time] on, with a 30 minute buffer between
    them. *)
Fixpoint lay_out (sorted_bookings : list Row) (current_time : Z) : list ScheduleEntry :=
  match sorted_bookings with
  | [] => []
  | booking :: rest =>
      {| se_booking_id := booking.1;
         se_vehicle_id := vehicle_id booking.2;
         original_slot := booking_slot booking.2;
         optimized_slot := current_time;
         se_duration := duration booking;
         se_priority := priority booking.2;
         se_service_type := service_type booking.2 |}
      :: lay_out rest (current_time + Time.minutes (duration booking) + Time.minutes 30)
  end.

(** Generate an optimized schedule. *)
Definition _generate_optimized_schedule (bookings : list Row) : list ScheduleEntry :=
  match bookings with
  | [] => []
  | first :: others =>
      (* Sort by priority first, then by original slot time *)
      let sorted_bookings :=
        Py.sorted Py.ZZltb (fun b : Row => (priority_rank b, booking_slot b.2)) bookings in
      let current_time :=
        foldl Z.min (booking_slot first.2) ((fun b : Row => booking_slot b.2) <$> others) in
      lay_out sorted_bookings current_time
  end.

(** [order_by(Booking.booking_slot)] on rows. *)
Definition row_by_slot (a b : Row) : Prop := booking_slot a.2 <= booking_slot b.2.

#[global] Instance row_by_slot_dec : RelDecision row_by_slot.
Proof. intros a b. unfold row_by_slot. apply _. Defined.

(** The bookings of the workshop in the date range that are scheduled
    or confirmed, by slot. *)
Definition bookings_in_range (wid : option string) (start_date end_date : Z)
    (table : gmap Z Booking) : list Row :=
  merge_sort row_by_slot
    (filter (fun row : Row => Some (workshop_id row.2) = wid
                              /\ start_date <= booking_slot row.2
                              /\ booking_slot row.2 <= end_date
                              /\ status row.2 ∈ [Some "scheduled"; Some "confirmed"])
       (map_to_list table)).

(** The dictionary [_optimize_booking_schedule] returns. *)
Record ScheduleReport := {
  sr_workshop_id : option string;
  current_bookings : Z;
  optimization_suggestions : Efficiency;
  optimized_schedule : list ScheduleEntry;
  efficiency_improvement : Q;
  sr_confidence : Q;
  sr_timestamp : Z;
}.

Definition _optimize_booking_schedule (data : Data) : M ScheduleReport :=
  let wid := Dict.get_str data "workshop_id" in
  let date_range := default 7 (Dict.get_int data "date_range") in
  (* Get all bookings for the workshop in the date range *)
  start_date <- utcnow ;;
  let end_date := start_date + Time.days date_range in
  w <- get_world ;;
  let bookings := bookings_in_range wid start_date end_date (bookings w) in
  (* Analyze current schedule *)
  let optimization_suggestions := _analyze_schedule_efficiency bookings in
  (* Generate optimized schedule *)
  let optimized_schedule := _generate_optimized_schedule bookings in
  now <- utcnow ;;
  ret {| sr_workshop_id := wid;
         current_bookings := Z.of_nat (length bookings);
         optimization_suggestions := optimization_suggestions;
         optimized_schedule := optimized_schedule;
         efficiency_improvement := efficiency_gain optimization_suggestions;
         sr_confidence := 0.75%Q;
         sr_timestamp := now |}.

(** The planner with all its operations; of the reports of the last
    two, the coordinator's callers read the confidence. *)
Definition process_all (data : Data) : M AgentResult :=
  process
    (fun data =>
       r <- _find_available_workshops data ;;
       ret (ROther "find_workshops" (Some (ws_confidence r))))
    (fun data =>
       r <- _optimize_booking_schedule data ;;
       ret (ROther "optimize_schedule" (Some (sr_confidence r))))
    data.

End PlannerAgent.

(** ** [agents/agent_coordinator.py] *)

Module AgentCoordinator.

(** The four agents set up by [__init__], each behind the interface of
    [BaseAgent]. *)
Record t := {
  health_monitor : BaseAgent.t;
  planner : BaseAgent.t;
  communicator : BaseAgent.t;
  logger_agent : BaseAgent.t;
}.

(** The health monitor and the planner as [__init__] creates them; the
    operations of theirs that are not embedded are parameters. *)
Definition HealthMonitor (perform_health_check predict_maintenance_needs : option Z -> M HealthMonitorAgent.Outcome)
    : BaseAgent.t :=
  {| BaseAgent.name := "HealthMonitor";
     BaseAgent.process :=
       HealthMonitorAgent.process perform_health_check predict_maintenance_needs
         HealthMonitorAgent.__init__ |}.

Definition Planner (find_available_workshops optimize_booking_schedule : Data -> M AgentResult)
    : BaseAgent.t :=
  {| BaseAgent.name := "Planner";
     BaseAgent.process :=
       PlannerAgent.process find_available_workshops optimize_booking_schedule |}.

(** The two dictionaries [process_vehicle_telemetry] returns. *)
Inductive PipelineResult :=
| Completed (vehicle_id : Z) (steps_executed : list string)
    (results : list (string * AgentResult)) (timestamp : Z)
| Failed (vehicle_id : Z) (error : string)
    (partial_results : list (string * AgentResult)) (timestamp : Z).

Definition workflow_completed (r : PipelineResult) : bool :=
  match r with
  | Completed _ _ _ _ => true
  | Failed _ _ _ _ => false
  end.

(** The stage results the returned dictionary carries, under
    ["results"] or ["partial_results"]. *)
Definition stage_results (r : PipelineResult) : list (string * AgentResult) :=
  match r with
  | Completed _ _ results _ => results
  | Failed _ _ partial_results _ => partial_results
  end.

(** [health_result.get("anomalies_detected", 0)] *)
Definition get_anomalies_detected (r : AgentResult) : Z :=
  match r with
  | RAnomalyReport a => anomalies_detected a
  | _ => 0
  end.

(** [health_result.get("overall_severity", 0)] *)
Definition get_overall_severity (r : AgentResult) : Q :=
  match r with
  | RAnomalyReport a => overall_severity a
  | _ => 0%Q
  end.

(** [health_result.get("anomalies", [])] *)
Definition get_anomalies (r : AgentResult) : list Anomaly :=
  match r with
  | RAnomalyReport a => anomalies a
  | _ => []
  end.

(** [health_result.get("anomalies", [{}])[0].get("message", "")] *)
Definition first_message (r : AgentResult) : M string :=
  match r with
  | RAnomalyReport a =>
      match anomalies a with
      | first :: _ => ret (message first)
      | [] => raise (IndexError "list index out of range")
      end
  | _ => ret ""
  end.

(** [booking_result.get("booking_id")] *)
Definition get_booking_id (r : AgentResult) : option Z :=
  match r with
  | RBooking b => Some (br_booking_id b)
  | RBookingUpdate b => Some (bu_booking_id b)
  | RBookingCancel b => Some (bc_booking_id b)
  | _ => None
  end.

(** Determine priority based on severity. *)
Definition derive_priority (severity : Q) : string :=
  if Qle_bool 0.8 severity then "critical"
  else if Qle_bool 0.6 severity then "high"
  else "normal".

(** The [except Exception as e] block, entered with the results
    gathered so far. *)
Definition except (vehicle_id : Z) (workflow_results : list (string * AgentResult))
    (e : Exn) : M PipelineResult :=
  now <- utcnow ;;
  ret (Failed vehicle_id (exn_message e) workflow_results now).

(** A statement of the [try] block that may raise: on an exception
    control goes to the handler, otherwise on to the rest of the
    block. *)
Definition attempt {A} (m : M A) (handler : Exn -> M PipelineResult)
    (rest : A -> M PipelineResult) : M PipelineResult :=
  fun w =>
    match m w with
    | (inr a, w') => rest a w'
    | (inl e, w') => handler e w'
    end.

(** The final [return] of the [try] block. *)
Definition complete (vehicle_id : Z) (workflow_results : list (string * AgentResult))
    : M PipelineResult :=
  now <- utcnow ;;
  ret (Completed vehicle_id workflow_results.*1 workflow_results now).

(** The dictionaries handed to the agents.  None of them has an
    ["action"] entry. *)
Definition log_request (vehicle_id : Z) (telemetry_data : Telemetry) (now : Z) : Data :=
  {[ "vehicle_id" := VScalar (SInt vehicle_id);
     "telemetry" := VTelemetry telemetry_data;
     "timestamp" := VScalar (SIso now) ]}.

Definition health_request (vehicle_id : Z) (telemetry_data : Telemetry) : Data :=
  {[ "vehicle_id" := VScalar (SInt vehicle_id);
     "telemetry" := VTelemetry telemetry_data ]}.

Definition booking_request (vehicle_id : Z) (priority predicted_issue : string)
    (confidence_score : Q) : Data :=
  {[ "vehicle_id" := VScalar (SInt vehicle_id);
     "service_type" := VScalar (SStr "corrective");
     "priority" := VScalar (SStr priority);
     "predicted_issue" := VScalar (SStr predicted_issue);
     "confidence_score" := VScalar (SFloat confidence_score);
     "recommended_actions" := VStrings ["Immediate inspection required"] ]}.

Definition confirmation_request (booking_id : Z) : Data :=
  {[ "booking_id" := VScalar (SInt booking_id) ]}.

Definition alert_request (vehicle_id : Z) (telemetry_data : Telemetry)
    (health_result : AgentResult) (severity : Q) : Data :=
  {[ "vehicle_id" := VScalar (SInt vehicle_id);
     "alert_type" := VScalar (SStr "anomaly_detected");
     "severity" := VScalar (SStr (if Qle_bool 0.8 severity then "critical" else "warning"));
     "details" := VAlertDetails (get_anomalies health_result) severity telemetry_data ]}.

(** Send alert for high/critical issues, then return. *)
Definition alert_step (self : t) (vehicle_id : Z) (telemetry_data : Telemetry)
    (health_result : AgentResult) (severity : Q)
    (workflow_results : list (string * AgentResult)) : M PipelineResult :=
  if Qle_bool 0.6 severity then
    attempt
      (BaseAgent.execute_with_logging (communicator self) "send_alert"
         (alert_request vehicle_id telemetry_data health_result severity)
         (Some vehicle_id))
      (except vehicle_id workflow_results)
      (fun alert_result =>
         complete vehicle_id (workflow_results ++ [("alert_communication", alert_result)]))
  else complete vehicle_id workflow_results.

(** The call of the planner, with the message of the first anomaly as
    the predicted issue. *)
Definition schedule_call (self : t) (vehicle_id : Z) (health_result : AgentResult)
    (priority : string) : M AgentResult :=
  predicted_issue <- first_message health_result ;;
  BaseAgent.execute_with_logging (planner self) "schedule_booking"
    (booking_request vehicle_id priority predicted_issue
       (default 0.5%Q (BaseAgent.result_confidence health_result)))
    (Some vehicle_id).

(** Create booking if needed, confirm it, then go on to the alert. *)
Definition booking_step (self : t) (vehicle_id : Z) (telemetry_data : Telemetry)
    (health_result : AgentResult) (severity : Q) (priority : string)
    (workflow_results : list (string * AgentResult)) : M PipelineResult :=
  if Qle_bool 0.6 severity then
    attempt
      (schedule_call self vehicle_id health_result priority)
      (except vehicle_id workflow_results)
      (fun booking_result =>
         let workflow_results := (workflow_results ++ [("booking", booking_result)])%list in
         (* Send booking confirmation *)
         if Py.truthyZ (get_booking_id booking_result) then
           attempt
             (BaseAgent.execute_with_logging (communicator self)
                "send_booking_confirmation"
                (confirmation_request (default 0 (get_booking_id booking_result)))
                (Some vehicle_id))
             (except vehicle_id workflow_results)
             (fun comm_result =>
                alert_step self vehicle_id telemetry_data health_result severity
                  (workflow_results ++ [("booking_communication", comm_result)]))
         else
           alert_step self vehicle_id telemetry_data health_result severity
             workflow_results)
  else alert_step self vehicle_id telemetry_data health_result severity workflow_results.

(** The two logged calls that open the pipeline. *)
Definition log_call (self : t) (vehicle_id : Z) (telemetry_data : Telemetry) (now : Z)
    : M AgentResult :=
  BaseAgent.execute_with_logging (logger_agent self) "log_telemetry"
    (log_request vehicle_id telemetry_data now) (Some vehicle_id).

Definition health_call (self : t) (vehicle_id : Z) (telemetry_data : Telemetry)
    : M AgentResult :=
  BaseAgent.execute_with_logging (health_monitor self) "anomaly_detection"
    (health_request vehicle_id telemetry_data) (Some vehicle_id).

Definition process_vehicle_telemetry (self : t) (vehicle_id : Z) (telemetry_data : Telemetry)
    : M PipelineResult :=
  let workflow_results : list (string * AgentResult) := [] in
  (* Step 1: Log the telemetry data *)
  now <- utcnow ;;
  attempt
    (log_call self vehicle_id telemetry_data now)
    (except vehicle_id workflow_results)
    (fun log_result =>
       let workflow_results := (workflow_results ++ [("logging", log_result)])%list in
       (* Step 2: Health monitoring and anomaly detection *)
       attempt
         (health_call self vehicle_id telemetry_data)
         (except vehicle_id workflow_results)
         (fun health_result =>
            let workflow_results :=
              (workflow_results ++ [("health_monitoring", health_result)])%list in
            (* Step 3: If anomalies detected, trigger planning and communication *)
            if 0 <? get_anomalies_detected health_result then
              let severity := get_overall_severity health_result in
              let priority := derive_priority severity in
              booking_step self vehicle_id telemetry_data health_result severity priority
                workflow_results
            else complete vehicle_id workflow_results)).

(** *** Single actions and emergencies *)

(** [self.agents] *)
Definition agents (self : t) : gmap string BaseAgent.t :=
  {[ "health_monitor" := health_monitor self;
     "planner" := planner self;
     "communicator" := communicator self;
     "logger" := logger_agent self ]}.

(** Execute a specific action on a specific agent.  The action is put
    in the request under ["action"] before the agent is called. *)
Definition execute_agent_action (self : t) (agent_name action : string) (data : Data)
    : M AgentResult :=
  match agents self !! agent_name with
  | None => ret (RError ("Agent " +:+ agent_name +:+ " not found") 0.0%Q None)
  | Some agent =>
      try_except
        (let data := <["action" := VScalar (SStr action)]> data in
         BaseAgent.execute_with_logging agent action data (Dict.get_int data "vehicle_id"))
        (fun e => ret (RError (exn_message e) 0.0%Q None))
  end.

(** The two dictionaries [handle_emergency] returns. *)
Inductive EmergencyResult :=
| EmergencyHandled (vehicle_id : Z) (actions_taken : list string)
    (results : list (string * AgentResult)) (timestamp : Z)
| EmergencyNotHandled (error : string).

Definition emergency_handled (r : EmergencyResult) : bool :=
  match r with
  | EmergencyHandled _ _ _ _ => true
  | EmergencyNotHandled _ => false
  end.

(** [emergency_data.get("issue", "Emergency situation")]; the issue,
    when given, is a string. *)
Definition get_issue (emergency_data : list (string * Scalar)) : string :=
  match (list_to_map emergency_data : gmap string Scalar) !! "issue" with
  | Some (SStr issue) => issue
  | _ => "Emergency situation"
  end.

(** The requests of [handle_emergency]; [emergency_data] is a
    dictionary of scalars. *)
Definition emergency_alert_request (vehicle_id : Z) (emergency_data : list (string * Scalar))
    : Data :=
  {[ "vehicle_id" := VScalar (SInt vehicle_id);
     "alert_type" := VScalar (SStr "emergency");
     "severity" := VScalar (SStr "critical");
     "details" := VUpdates emergency_data ]}.

Definition emergency_booking_request (vehicle_id : Z) (emergency_data : list (string * Scalar))
    : Data :=
  {[ "vehicle_id" := VScalar (SInt vehicle_id);
     "service_type" := VScalar (SStr "emergency");
     "priority" := VScalar (SStr "critical");
     "predicted_issue" := VScalar (SStr (get_issue emergency_data));
     "confidence_score" := VScalar (SFloat 1.0%Q) ]}.

Definition emergency_status_request (vehicle_id : Z) (emergency_data : list (string * Scalar))
    : Data :=
  {[ "vehicle_id" := VScalar (SInt vehicle_id);
     "status" := VScalar (SStr "critical");
     "reason" := VScalar (SStr "Emergency situation");
     "metadata" := VUpdates emergency_data ]}.

(** Handle emergency situations with highest priority. *)
Definition handle_emergency (self : t) (vehicle_id : Z)
    (emergency_data : list (string * Scalar)) : M EmergencyResult :=
  try_except
    ((* Immediate alert *)
     alert_result <-
       BaseAgent.execute_with_logging (communicator self) "send_alert"
         (emergency_alert_request vehicle_id emergency_data) (Some vehicle_id) ;;
     (* Emergency booking *)
     booking_result <-
       BaseAgent.execute_with_logging (planner self) "schedule_booking"
         (emergency_booking_request vehicle_id emergency_data) (Some vehicle_id) ;;
     (* Update vehicle status *)
     status_result <-
       BaseAgent.execute_with_logging (logger_agent self) "update_vehicle_status"
         (emergency_status_request vehicle_id emergency_data) (Some vehicle_id) ;;
     let workflow_results :=
       [("emergency_alert", alert_result);
        ("emergency_booking", booking_result);
        ("status_update", status_result)] in
     now <- utcnow ;;
     ret (EmergencyHandled vehicle_id workflow_results.*1 workflow_results now))
    (fun e => ret (EmergencyNotHandled (exn_message e))).

End AgentCoordinator.

(** ** Notions the properties are stated with *)

Module Spec.

(** A report with its timestamp replaced. *)
Definition with_timestamp (r : AnomalyReport) (t : Z) : AnomalyReport :=
  {| ar_vehicle_id := ar_vehicle_id r;
     anomalies_detected := anomalies_detected r;
     anomalies := anomalies r;
     overall_severity := overall_severity r;
     requires_immediate_attention := requires_immediate_attention r;
     ar_confidence := ar_confidence r;
     ar_timestamp := t |}.

(** The value at step [x] of a history that starts at [a] and changes
    by [b] per step. *)
Definition linear (a b x : Q) : Q := (a + b * x)%Q.

(** A request for anomaly detection on a reading. *)
Definition reading (telemetry : Telemetry) (data : Data) : Data :=
  <["telemetry" := VTelemetry telemetry]> data.

(** The state after [n] more clock readings. *)
Definition advance (n : nat) (w : World) : World :=
  {| clock := clock w; ticks := (n + ticks w)%nat; vehicles := vehicles w;
     workshops := workshops w; bookings := bookings w;
     vehicle_telemetry := vehicle_telemetry w;
     agent_actions := agent_actions w |}.

(** *** The slot search, read off [_find_next_available_slot] *)

(** Round to next hour. *)
Definition round_up (t : Z) : Z :=
  if 0 <? Time.minute t then Time.replace_minute0 t + Time.hours 1 else t.

(** The slot conflicts with none of the bookings the search looks at
    when the query is made at [now]. *)
Definition free (table : gmap Z Booking) (wid service_type : string) (now slot_time : Z) : bool :=
  negb (existsb
          (PlannerAgent.conflicts slot_time
             (slot_time + Time.minutes (PlannerAgent._estimate_service_duration service_type)))
          (PlannerAgent.existing_bookings wid now table)).

(** The first free slot, for a query made at [now] and a search
    started at [current_time]. *)
Definition next_slot (table : gmap Z Booking) (wid service_type : string)
    (now current_time : Z) : option Z :=
  List.find (free table wid service_type now)
    (PlannerAgent.candidate_slots (round_up current_time)).

(** *** The candidates of [_find_optimal_slot] *)

(** A workshop with the slot found for it and the index of the clock
    reading its delay was measured against. *)
Record Candidate := {
  c_workshop : Workshop;
  c_slot : Z;
  c_read : nat;
}.

Definition delay_hours (clock : nat -> Z) (c : Candidate) : Q :=
  Time.total_hours (c_slot c - clock (c_read c)).

(** [delay_hours - workshop.rating * 10] *)
Definition score (clock : nat -> Z) (c : Candidate) : Q :=
  (delay_hours clock c - default 0%Q (rating (c_workshop c)) * 10)%Q.

(** The workshops that get a score, in the order of the enumeration,
    when the loop starts after [t] clock readings, and the number of
    readings taken when it ends: a workshop takes two readings for its
    slot search and a third one for the delay of the slot found. *)
Fixpoint scan (clock : nat -> Z) (table : gmap Z Booking) (max_delay_hours : Z)
    (service_type : string) (ws : list Workshop) (t : nat) : list Candidate * nat :=
  match ws with
  | [] => ([], t)
  | workshop :: rest =>
      match next_slot table (ws_workshop_id workshop) service_type (clock t) (clock (S t)) with
      | None => scan clock table max_delay_hours service_type rest (2 + t)
      | Some s =>
          let c := {| c_workshop := workshop; c_slot := s; c_read := (2 + t)%nat |} in
          let more := scan clock table max_delay_hours service_type rest (3 + t) in
          if Py.Qltb (inject_Z max_delay_hours) (delay_hours clock c)
          then more
          else (c :: more.1, more.2)
      end
  end.

(** The dictionary [best_slot] made for a candidate. *)
Definition slot_of (service_type : string) (c : Candidate) : PlannerAgent.OptimalSlot :=
  {| PlannerAgent.os_workshop_id := ws_workshop_id (c_workshop c);
     PlannerAgent.os_workshop_name := ws_name (c_workshop c);
     PlannerAgent.os_location := ws_location (c_workshop c);
     PlannerAgent.slot_time := c_slot c;
     PlannerAgent.os_estimated_duration := PlannerAgent._estimate_service_duration service_type;
     PlannerAgent.availability_confidence := 0.8%Q |}.

(** The selection among the candidates: a candidate replaces the best
    so far when its score is strictly smaller; a workshop without
    rating stops the loop with an exception. *)
Fixpoint select (clock : nat -> Z) (service_type : string) (cs : list Candidate)
    (best_slot : option PlannerAgent.OptimalSlot) (best_score : option Q)
    : Exn + option PlannerAgent.OptimalSlot :=
  match cs with
  | [] => inr best_slot
  | c :: rest =>
      match rating (c_workshop c) with
      | None => inl (TypeError "unsupported operand type(s) for *: 'NoneType' and 'int'")
      | Some _ =>
          if match best_score with
             | None => true
             | Some best => Py.Qltb (score clock c) best
             end
          then select clock service_type rest (Some (slot_of service_type c)) (Some (score clock c))
          else select clock service_type rest best_slot best_score
      end
  end.

(** The maximum delay in hours that goes with a priority. *)
Definition max_delay_for (priority : string) : Z :=
  PlannerAgent.max_delay_hours
    (default {| PlannerAgent.urgency := 3; PlannerAgent.max_delay_hours := 168 |}
       (PlannerAgent.booking_priorities !! priority)).

(** *** The calendar *)

(** [booking.booking_slot + timedelta(minutes=booking.estimated_duration or 120)] *)
Definition booking_end (b : Booking) : Z :=
  booking_slot b + Time.minutes (Py.or_default (estimated_duration b) 120).

(** The instant lies in the half-open interval of the booking. *)
Definition during (b : Booking) (instant : Z) : Prop :=
  booking_slot b <= instant < booking_end b.

(** No two bookings of one workshop that are not cancelled share an
    instant. *)
Definition non_overlapping (table : gmap Z Booking) : Prop :=
  forall (i j : Z) (b1 b2 : Booking),
    i <> j ->
    table !! i = Some b1 -> table !! j = Some b2 ->
    workshop_id b1 = workshop_id b2 ->
    status b1 <> Some "cancelled" -> status b2 <> Some "cancelled" ->
    forall instant : Z, ~ (during b1 instant /\ during b2 instant).

(** The two bookings agree on the fields the calendar depends on. *)
Definition same_calendar_entry (b b' : Booking) : Prop :=
  workshop_id b' = workshop_id b /\ booking_slot b' = booking_slot b
  /\ estimated_duration b' = estimated_duration b /\ status b' = status b.

(** *** Readings *)

(** The reading is present and beyond the threshold. *)
Definition below (reading : option Q) (threshold : Q) : Prop :=
  exists v, reading = Some v /\ (v < threshold)%Q.

Definition above (reading : option Q) (threshold : Q) : Prop :=
  exists v, reading = Some v /\ (threshold < v)%Q.

(** The state with another audit table. *)
Definition with_audit (rows : list AgentAction) (w : World) : World :=
  {| clock := clock w; ticks := ticks w; vehicles := vehicles w;
     workshops := workshops w; bookings := bookings w;
     vehicle_telemetry := vehicle_telemetry w; agent_actions := rows |}.

End Spec.

(** ** Concrete states and requests used in examples *)

Module Examples.

(** A clock that advances by one microsecond per reading, and one that
    returns the same instant twice in a row or more. *)
Definition ticking (start : Z) : nat -> Z := fun n => start + Z.of_nat n.
Definition frozen (instant : Z) : nat -> Z := fun _ => instant.

(** An empty database under a given clock. *)
Definition empty_world (clock : nat -> Z) : World :=
  {| clock := clock; ticks := 0; vehicles := ∅; workshops := [];
     bookings := ∅; vehicle_telemetry := []; agent_actions := [] |}.

(** The reading [{battery_soh: 65.0, battery_temp: 47.0}]. *)
Definition hot_and_worn : Telemetry :=
  [("battery_soh", Some 65.0%Q); ("battery_temp", Some 47.0%Q)].

(** Three readings of vehicle 1 on three successive days, the battery
    state of health rising from 70 to 80, seen on the fourth day. *)
Definition rising_history : World :=
  {| clock := ticking (Time.days 4); ticks := 0; vehicles := ∅; workshops := [];
     bookings := ∅;
     vehicle_telemetry :=
       [ {| vt_vehicle_id := 1; vt_timestamp := Time.days 1; vt_battery_soh := Some 70%Q |};
         {| vt_vehicle_id := 1; vt_timestamp := Time.days 2; vt_battery_soh := Some 75%Q |};
         {| vt_vehicle_id := 1; vt_timestamp := Time.days 3; vt_battery_soh := Some 80%Q |} ];
     agent_actions := [] |}.

(** Half past seven in the morning and half past twelve of day 100. *)
Definition morning : Z := Time.days 100 + Time.hours 7 + Time.minutes 30.
Definition midday : Z := Time.days 100 + Time.hours 12 + Time.minutes 30.

Definition north : Workshop :=
  {| ws_workshop_id := "ws_001"; ws_name := "North Garage"; ws_location := "North";
     specialties := ["battery_service"; "general"]; rating := Some 4.5%Q |}.

Definition south : Workshop :=
  {| ws_workshop_id := "ws_002"; ws_name := "South Garage"; ws_location := "South";
     specialties := ["corrective"; "emergency"]; rating := Some 4.5%Q |}.

(** A corrective booking of vehicle 1. *)
Definition booked (wid : string) (slot : Z) (minutes : Z) (status : string) : Booking :=
  {| vehicle_id := Some 1; workshop_id := wid; workshop_name := "";
     booking_slot := slot; service_type := "corrective";
     estimated_duration := Some minutes; priority := Some "normal";
     status := Some status; predicted_issue := Some "";
     confidence_score := None; recommended_actions := [] |}.

(** A fleet of one vehicle with the given workshops and bookings. *)
Definition fleet (clock : nat -> Z) (ws : list Workshop) (table : gmap Z Booking) : World :=
  {| clock := clock; ticks := 0;
     vehicles := {[ 1 := {| vehicle_reg := "EV-001"; vehicle_status := "operational" |} ]};
     workshops := ws; bookings := table; vehicle_telemetry := [];
     agent_actions := [] |}.

(** A request for a critical corrective booking of vehicle 1. *)
Definition critical_request : Data :=
  {[ "vehicle_id" := VScalar (SInt 1);
     "service_type" := VScalar (SStr "corrective");
     "priority" := VScalar (SStr "critical") ]}.

(** Two one-hour bookings of the north garage, at 10 and at 12. *)
Definition two_bookings : gmap Z Booking :=
  {[ 1 := booked "ws_001" (Time.days 100 + Time.hours 10) 60 "scheduled";
     2 := booked "ws_001" (Time.days 100 + Time.hours 12) 60 "scheduled" ]}.

(** The request to move booking 2 to 10 o'clock. *)
Definition move_to_ten : Data :=
  {[ "booking_id" := VScalar (SInt 2);
     "updates" := VUpdates [("booking_slot", SDatetime (Time.days 100 + Time.hours 10))] ]}.

(** The requests to confirm booking 2 and to shorten it to half an hour. *)
Definition confirm : Data :=
  {[ "booking_id" := VScalar (SInt 2);
     "updates" := VUpdates [("status", SStr "confirmed")] ]}.

Definition shorten : Data :=
  {[ "booking_id" := VScalar (SInt 2);
     "updates" := VUpdates [("estimated_duration", SInt 30)] ]}.

(** The request to change the service type of booking 2. *)
Definition change_service : Data :=
  {[ "booking_id" := VScalar (SInt 2);
     "updates" := VUpdates [("service_type", SStr "inspection")] ]}.

(** A four-hour job of the south garage that started at 10. *)
Definition started : gmap Z Booking :=
  {[ 1 := booked "ws_002" (Time.days 100 + Time.hours 10) 240 "in_progress" ]}.


(** A three-hour booking of the south garage at 8. *)
Definition at_eight : gmap Z Booking :=
  {[ 1 := booked "ws_002" (Time.days 100 + Time.hours 8) 180 "scheduled" ]}.

(** *** Agents *)

(** A logger that accepts every request. *)
Definition quiet_logger : BaseAgent.t :=
  {| BaseAgent.name := "Logger";
     BaseAgent.process := fun _ => ret (ROther "log_telemetry" (Some 1.0%Q)) |}.

(** A notifier every call of which raises. *)
Definition failing_notifier : BaseAgent.t :=
  {| BaseAgent.name := "Communicator";
     BaseAgent.process := fun _ => raise (CollaboratorError "notification service unavailable") |}.

(** The planner, its operations that are not embedded answering with
    an empty report. *)
Definition planner : BaseAgent.t :=
  AgentCoordinator.Planner
    (fun _ => ret (ROther "find_workshops" (Some 0.2%Q)))
    (fun _ => ret (ROther "optimize_schedule" (Some 0.75%Q))).

(** The fleet with both garages and no booking, at half past seven. *)
Definition depot : World :=
  fleet (ticking morning) [north; south] ∅.

(** *** The health check *)

(** A row with a worn battery and no other reading, and the query that
    finds it for every vehicle. *)
Definition worn : HealthCheck.TelemetryRow :=
  {| HealthCheck.battery_soh := Some 65%Q;
     HealthCheck.battery_soc := None;
     HealthCheck.charge_cycles := None;
     HealthCheck.voltage_imbalance := None;
     HealthCheck.battery_temp := None;
     HealthCheck.motor_rpm := None;
     HealthCheck.motor_efficiency := None;
     HealthCheck.motor_temp := None;
     HealthCheck.coolant_temp := None;
     HealthCheck.coolant_level := None |}.

Definition latest_worn (vehicle_id : Z) : M (option HealthCheck.TelemetryRow) :=
  ret (Some worn).

(** *** The coordinator as it is set up *)

(** The health monitor as [__init__] creates it, its health check
    reading [latest_worn]; predictive analysis answers that it has too
    little data. *)
Definition worn_monitor : BaseAgent.t :=
  AgentCoordinator.HealthMonitor
    (fun vehicle_id =>
       r <- HealthCheck._perform_health_check latest_worn HealthMonitorAgent.__init__
              vehicle_id ;;
       ret (HealthCheck.outcome r))
    (fun _ =>
       ret (HealthMonitorAgent.OutcomeError "Insufficient historical data for prediction")).

(** A notifier that accepts every request. *)
Definition quiet_notifier : BaseAgent.t :=
  {| BaseAgent.name := "Communicator";
     BaseAgent.process := fun _ => ret (ROther "send_alert" (Some 0.9%Q)) |}.

(** A coordinator all of whose agents answer. *)
Definition shipped : AgentCoordinator.t :=
  {| AgentCoordinator.health_monitor := worn_monitor;
     AgentCoordinator.planner := planner;
     AgentCoordinator.communicator := quiet_notifier;
     AgentCoordinator.logger_agent := quiet_logger |}.

(** The same with the notifier down. *)
Definition shipped_notifier_down : AgentCoordinator.t :=
  {| AgentCoordinator.health_monitor := worn_monitor;
     AgentCoordinator.planner := planner;
     AgentCoordinator.communicator := failing_notifier;
     AgentCoordinator.logger_agent := quiet_logger |}.

End Examples.

(** * Properties *)

(** ** Comparisons and maxima *)

Lemma Qltb_true (x y : Q) : Py.Qltb x y = true <-> (x < y)%Q.
Proof.
  unfold Py.Qltb. rewrite negb_true_iff, <- not_true_iff_false, Qle_bool_iff.
  split; intros H; lra.
Qed.

Lemma Qltb_false (x y : Q) : Py.Qltb x y = false <-> (y <= x)%Q.
Proof.
  unfold Py.Qltb. rewrite negb_false_iff, Qle_bool_iff. reflexivity.
Qed.

Lemma truthy_Some (q : Q) : ~ (q == 0)%Q -> Py.truthy (Some q) = true.
Proof.
  intros H. simpl. apply negb_true_iff, not_true_iff_false.
  intros E. apply Qeq_bool_iff in E. contradiction.
Qed.

Lemma max_from_upper (l : list Q) (x : Q) :
  (x <= Py.max_from x l)%Q /\ forall y, y ∈ l -> (y <= Py.max_from x l)%Q.
Proof.
  revert x. induction l as [|z l IH]; intros x; simpl.
  - split; [lra | intros y Hy; inversion Hy].
  - destruct (Py.Qltb x z) eqn:E.
    + apply Qltb_true in E. destruct (IH z) as [Hz Hl]. split; [lra |].
      intros y Hy. apply elem_of_cons in Hy as [-> | Hy]; auto.
    + apply Qltb_false in E. destruct (IH x) as [Hx Hl]. split; [lra |].
      intros y Hy. apply elem_of_cons in Hy as [-> | Hy]; [lra | auto].
Qed.

Lemma max_from_elem (l : list Q) (x : Q) : Py.max_from x l ∈ x :: l.
Proof.
  revert x. induction l as [|z l IH]; intros x; simpl.
  - apply list_elem_of_here.
  - destruct (Py.Qltb x z).
    + apply list_elem_of_further, IH.
    + specialize (IH x). apply elem_of_cons in IH as [-> | IH].
      * apply list_elem_of_here.
      * do 2 apply list_elem_of_further. exact IH.
Qed.

(** ** The health monitor *)

Module HealthMonitorFacts.

Import HealthMonitorAgent.

Lemma breached_Some (t : Q) (test : Q -> bool) :
  ~ (t == 0)%Q -> test t = true -> breached (Some t) test = Some t.
Proof.
  intros Ht Htest. unfold breached. rewrite (truthy_Some t Ht), Htest. reflexivity.
Qed.

Lemma breached_None (o : option Q) (test : Q -> bool) :
  (forall t, o = Some t -> test t = false) -> breached o test = None.
Proof.
  intros H. unfold breached. destruct o as [t|]; [|reflexivity].
  rewrite (H t eq_refl), andb_false_r. reflexivity.
Qed.

(** C4.  With both thresholds of a metric configured, a lower-is-worse
    metric gives a critical anomaly of score 1.0 below the critical
    threshold, a warning anomaly of score 0.6 from the critical
    threshold up to the warning threshold, and nothing from the warning
    threshold on; a higher-is-worse metric the same with the
    comparisons reversed. *)
Theorem check_metric_anomaly_by_direction
    (self : t) (m : string) (critical warning v : Q) :
  anomaly_thresholds self !! (m +:+ "_critical") = Some critical ->
  anomaly_thresholds self !! (m +:+ "_warning") = Some warning ->
  ~ (critical == 0)%Q -> ~ (warning == 0)%Q ->
  (lower_is_worse m = true ->
     ((v < critical)%Q ->
        exists a, _check_metric_anomaly self m v = Some a
                  /\ metric a = m /\ value a = v /\ threshold a = critical
                  /\ severity a = "critical" /\ severity_score a = 1.0%Q)
     /\ ((critical <= v)%Q -> (v < warning)%Q ->
        exists a, _check_metric_anomaly self m v = Some a
                  /\ metric a = m /\ value a = v /\ threshold a = warning
                  /\ severity a = "warning" /\ severity_score a = 0.6%Q)
     /\ ((critical <= v)%Q -> (warning <= v)%Q ->
        _check_metric_anomaly self m v = None))
  /\
  (lower_is_worse m = false ->
     ((critical < v)%Q ->
        exists a, _check_metric_anomaly self m v = Some a
                  /\ metric a = m /\ value a = v /\ threshold a = critical
                  /\ severity a = "critical" /\ severity_score a = 1.0%Q)
     /\ ((v <= critical)%Q -> (warning < v)%Q ->
        exists a, _check_metric_anomaly self m v = Some a
                  /\ metric a = m /\ value a = v /\ threshold a = warning
                  /\ severity a = "warning" /\ severity_score a = 0.6%Q)
     /\ ((v <= critical)%Q -> (v <= warning)%Q ->
        _check_metric_anomaly self m v = None)).
Proof.
  intros Hc Hw Hc0 Hw0.
  assert (Hgate : negb (Py.truthy (Some critical)) && negb (Py.truthy (Some warning)) = false).
  { rewrite (truthy_Some _ Hc0). reflexivity. }
  split; intros Hdir; unfold _check_metric_anomaly; rewrite Hc, Hw, Hgate, Hdir.
  - split; [|split].
    + intros Hv. rewrite breached_Some; [|assumption|by apply Qltb_true].
      eexists. repeat split.
    + intros Hv1 Hv2.
      rewrite breached_None; [|intros ? [= <-]; by apply Qltb_false].
      rewrite breached_Some; [|assumption|by apply Qltb_true].
      eexists. repeat split.
    + intros Hv1 Hv2.
      rewrite breached_None; [|intros ? [= <-]; by apply Qltb_false].
      rewrite breached_None; [|intros ? [= <-]; by apply Qltb_false].
      reflexivity.
  - split; [|split].
    + intros Hv. rewrite breached_Some; [|assumption|by apply Qltb_true].
      eexists. repeat split.
    + intros Hv1 Hv2.
      rewrite breached_None; [|intros ? [= <-]; by apply Qltb_false].
      rewrite breached_Some; [|assumption|by apply Qltb_true].
      eexists. repeat split.
    + intros Hv1 Hv2.
      rewrite breached_None; [|intros ? [= <-]; by apply Qltb_false].
      rewrite breached_None; [|intros ? [= <-]; by apply Qltb_false].
      reflexivity.
Qed.

Lemma check_metric_anomaly_by_direction_witness :
  (exists a, _check_metric_anomaly __init__ "battery_soh" 65 = Some a
             /\ severity a = "critical" /\ severity_score a = 1.0%Q)
  /\ (exists a, _check_metric_anomaly __init__ "battery_temp" 42 = Some a
             /\ severity a = "warning" /\ severity_score a = 0.6%Q)
  /\ _check_metric_anomaly __init__ "coolant_level" 30 = None.
Proof.
  split; [|split].
  - destruct (check_metric_anomaly_by_direction __init__ "battery_soh" 70 80 65)
      as [[Hlow _] _]; [reflexivity | reflexivity | lra | lra | reflexivity |].
    destruct Hlow as (a & Ha & _ & _ & _ & Hs & Hscore); [lra |]. eauto.
  - destruct (check_metric_anomaly_by_direction __init__ "battery_temp" 45 40 42)
      as [_ [_ [Hmid _]]]; [reflexivity | reflexivity | lra | lra | reflexivity |].
    destruct Hmid as (a & Ha & _ & _ & _ & Hs & Hscore); [lra | lra |]. eauto.
  - destruct (check_metric_anomaly_by_direction __init__ "coolant_level" 20 30 30)
      as [[_ [_ Hsafe]] _]; [reflexivity | reflexivity | lra | lra | reflexivity |].
    apply Hsafe; lra.
Defined.

Lemma check_each_app (self : t) (t1 t2 : Telemetry) :
  check_each self (t1 ++ t2) = check_each self t1 ++ check_each self t2.
Proof.
  induction t1 as [|[m [v|]] t1 IH]; simpl; [reflexivity | | exact IH].
  destruct (_check_metric_anomaly self m v); simpl; by rewrite IH.
Qed.

Lemma detect_anomalies_returns (self : t) (data : Data) (w : World) :
  exists r, (_detect_anomalies self data w).1 = inr r.
Proof. unfold _detect_anomalies, bind, utcnow, ret. simpl. eauto. Qed.

Lemma get_telemetry_reading (telemetry : Telemetry) (data : Data) :
  Dict.get_telemetry (Spec.reading telemetry data) "telemetry" = Some telemetry.
Proof. unfold Dict.get_telemetry, Spec.reading. by rewrite lookup_insert_eq. Qed.

Lemma get_int_reading (telemetry : Telemetry) (data : Data) :
  Dict.get_int (Spec.reading telemetry data) "vehicle_id" = Dict.get_int data "vehicle_id".
Proof. unfold Dict.get_int, Spec.reading. by rewrite lookup_insert_ne. Qed.

(** C10.  A metric with neither threshold configured never yields an
    anomaly, whatever its value: its entry in a reading changes nothing
    in what anomaly detection returns, and detection does not fail. *)
Theorem unconfigured_metric_is_silent (self : t) (m : string) :
  anomaly_thresholds self !! (m +:+ "_critical") = None ->
  anomaly_thresholds self !! (m +:+ "_warning") = None ->
  forall v : Q,
    _check_metric_anomaly self m v = None
    /\ forall (before after : Telemetry) (data : Data) (w : World),
         _detect_anomalies self (Spec.reading (before ++ (m, Some v) :: after) data) w
         = _detect_anomalies self (Spec.reading (before ++ after) data) w
         /\ exists r,
              (_detect_anomalies self (Spec.reading (before ++ (m, Some v) :: after) data) w).1
              = inr r.
Proof.
  intros Hc Hw v.
  assert (Hnone : _check_metric_anomaly self m v = None).
  { unfold _check_metric_anomaly. rewrite Hc, Hw. reflexivity. }
  split; [exact Hnone |].
  intros before after data w. split; [|apply detect_anomalies_returns].
  unfold _detect_anomalies. rewrite !get_telemetry_reading, !get_int_reading. simpl.
  rewrite !check_each_app. simpl. rewrite Hnone. reflexivity.
Qed.

Lemma unconfigured_metric_is_silent_witness :
  _check_metric_anomaly __init__ "battery_soc" 3 = None
  /\ _check_metric_anomaly __init__ "speed" 250 = None.
Proof.
  split.
  - apply (unconfigured_metric_is_silent __init__ "battery_soc"); reflexivity.
  - apply (unconfigured_metric_is_silent __init__ "speed"); reflexivity.
Defined.

Lemma severity_score_set_historical_context (h : gmap string string) (l : list Anomaly) :
  severity_score <$> (set_historical_context h <$> l) = severity_score <$> l.
Proof. rewrite <- list_fmap_compose. reflexivity. Qed.

Lemma severity_set_historical_context (h : gmap string string) (l : list Anomaly) :
  severity <$> (set_historical_context h <$> l) = severity <$> l.
Proof. rewrite <- list_fmap_compose. reflexivity. Qed.

(** The anomalies of a report are those of the reading, with or
    without their historical context. *)
Lemma detect_anomalies_report (self : t) (data : Data) (w : World) :
  exists (l : list Anomaly) (r : AnomalyReport),
    (_detect_anomalies self data w).1 = inr r
    /\ severity_score <$> l
       = severity_score <$> check_each self (default [] (Dict.get_telemetry data "telemetry"))
    /\ severity <$> l
       = severity <$> check_each self (default [] (Dict.get_telemetry data "telemetry"))
    /\ anomalies r = l
    /\ anomalies_detected r = Z.of_nat (length l)
    /\ overall_severity r
       = match severity_score <$> l with
         | s :: rest => Py.max_from s rest
         | [] => 0.0%Q
         end
    /\ requires_immediate_attention r = Qle_bool 0.8 (overall_severity r).
Proof.
  unfold _detect_anomalies, bind, utcnow, ret. simpl.
  set (found := check_each self _).
  destruct (Dict.get_int data "vehicle_id") as [v|]; [destruct (Py.truthyZ (Some v))|].
  - exists (set_historical_context (_get_historical_anomalies v) <$> found).
    eexists. split; [reflexivity|]. simpl.
    rewrite severity_score_set_historical_context, severity_set_historical_context.
    auto 10.
  - exists found. eexists. split; [reflexivity|]. simpl. auto 10.
  - exists found. eexists. split; [reflexivity|]. simpl. auto 10.
Qed.

Lemma check_each_hot_and_worn :
  severity <$> check_each __init__ Examples.hot_and_worn = ["critical"; "critical"]
  /\ severity_score <$> check_each __init__ Examples.hot_and_worn = [1.0%Q; 1.0%Q].
Proof. split; vm_compute; reflexivity. Qed.

(** C5.  Anomaly detection returns a report whose overall severity is
    the largest severity score among its anomalies, 0.0 when there is
    none, and which asks for immediate attention exactly from 0.8 on;
    on [{battery_soh: 65.0, battery_temp: 47.0}] with the default
    thresholds there are exactly two anomalies, both critical, and the
    overall severity is 1.0. *)
Theorem detect_anomalies_overall_severity (self : t) (data : Data) (w : World) :
  exists r : AnomalyReport,
    (_detect_anomalies self data w).1 = inr r
    /\ anomalies_detected r = Z.of_nat (length (anomalies r))
    /\ (anomalies r = [] -> overall_severity r = 0.0%Q)
    /\ (forall a, a ∈ anomalies r -> (severity_score a <= overall_severity r)%Q)
    /\ (anomalies r <> [] ->
        exists a, a ∈ anomalies r /\ overall_severity r = severity_score a)
    /\ (requires_immediate_attention r = true <-> (0.8 <= overall_severity r)%Q)
    /\ (self = __init__ ->
        Dict.get_telemetry data "telemetry" = Some Examples.hot_and_worn ->
        severity <$> anomalies r = ["critical"; "critical"]
        /\ overall_severity r = 1.0%Q).
Proof.
  destruct (detect_anomalies_report self data w)
    as (l & r & Hrun & Hscores & Hsev & Hl & Hcount & Hoverall & Hattention).
  exists r. split; [exact Hrun|]. rewrite Hl.
  split; [exact Hcount|].
  split; [|split; [|split; [|split]]].
  - intros ->. rewrite Hoverall. reflexivity.
  - intros a Ha. rewrite Hoverall.
    apply (list_elem_of_fmap_2 severity_score) in Ha.
    destruct (severity_score <$> l) as [|s rest]; [inversion Ha|].
    destruct (max_from_upper rest s) as [Hs Hrest].
    apply elem_of_cons in Ha as [-> | Ha]; auto.
  - intros Hne. rewrite Hoverall.
    destruct l as [|a0 l0]; [congruence|].
    pose proof (max_from_elem (severity_score <$> l0) (severity_score a0)) as Hin.
    change (severity_score a0 :: (severity_score <$> l0))
      with (severity_score <$> a0 :: l0) in Hin.
    apply list_elem_of_fmap in Hin as (a & Ha & Hmem).
    exists a. split; [exact Hmem | exact Ha].
  - rewrite Hattention. apply Qle_bool_iff.
  - intros -> Htel. rewrite Htel in Hsev, Hscores.
    change (default [] (Some Examples.hot_and_worn)) with Examples.hot_and_worn in *.
    destruct check_each_hot_and_worn as [E1 E2].
    rewrite E1 in Hsev. rewrite E2 in Hscores.
    split; [exact Hsev|]. rewrite Hoverall, Hscores. reflexivity.
Qed.

Lemma detect_anomalies_overall_severity_witness :
  exists r : AnomalyReport,
    (_detect_anomalies __init__ (Spec.reading Examples.hot_and_worn ∅)
       (Examples.empty_world (Examples.ticking 0))).1 = inr r
    /\ severity <$> anomalies r = ["critical"; "critical"]
    /\ overall_severity r = 1.0%Q
    /\ requires_immediate_attention r = true.
Proof.
  destruct (detect_anomalies_overall_severity __init__
              (Spec.reading Examples.hot_and_worn ∅)
              (Examples.empty_world (Examples.ticking 0)))
    as (r & Hrun & _ & _ & _ & _ & Hattention & Hscenario).
  destruct Hscenario as [Hsev Hoverall]; [reflexivity | apply get_telemetry_reading |].
  exists r. repeat split; try assumption.
  apply Hattention. rewrite Hoverall. lra.
Defined.

(** C9 as stated fails: the report carries the time of the call. *)
Lemma detect_anomalies_reads_the_clock :
  (_detect_anomalies __init__ (Spec.reading Examples.hot_and_worn ∅)
     (Examples.empty_world (Examples.ticking 0))).1
  <> (_detect_anomalies __init__ (Spec.reading Examples.hot_and_worn ∅)
        (Examples.empty_world (Examples.ticking 1))).1.
Proof. vm_compute. intros H. discriminate H. Qed.

(** C9, amended.  For given thresholds and request, anomaly detection
    returns one and the same report whatever the state, except for its
    timestamp, which is the clock reading at the call. *)
Theorem detect_anomalies_deterministic_up_to_timestamp (self : t) (data : Data) :
  exists r : AnomalyReport,
    forall w : World,
      (_detect_anomalies self data w).1
      = inr (Spec.with_timestamp r (clock w (ticks w))).
Proof.
  destruct (detect_anomalies_report self data (Examples.empty_world (Examples.frozen 0)))
    as (_ & r & Hrun & _).
  exists r. intros w. revert Hrun.
  unfold _detect_anomalies, bind, utcnow, ret. simpl.
  intros [= <-]. reflexivity.
Qed.

(** *** Least squares on a linear history *)

Lemma Qsum_app (l1 l2 : list Q) : (Py.Qsum (l1 ++ l2) == Py.Qsum l1 + Py.Qsum l2)%Q.
Proof.
  induction l1 as [|x l1 IH]; simpl.
  - ring.
  - rewrite IH. ring.
Qed.

Lemma Qsum_linear (a b : Q) (xs : list Q) :
  (Py.Qsum ((Spec.linear a b) <$> xs)
   == inject_Z (Z.of_nat (length xs)) * a + b * Py.Qsum xs)%Q.
Proof.
  induction xs as [|x xs IH].
  - simpl. ring.
  - change (length (x :: xs)) with (S (length xs)).
    rewrite Nat2Z.inj_succ, <- Z.add_1_r, inject_Z_plus.
    change (Py.Qsum ((Spec.linear a b) <$> x :: xs))
      with (Spec.linear a b x + Py.Qsum ((Spec.linear a b) <$> xs))%Q.
    change (Py.Qsum (x :: xs)) with (x + Py.Qsum xs)%Q.
    rewrite IH. unfold Spec.linear. ring.
Qed.

Lemma Qsum_products_linear (a b : Q) (xs : list Q) :
  (Py.Qsum (zip_with Qmult xs ((Spec.linear a b) <$> xs))
   == a * Py.Qsum xs + b * Py.Qsum (zip_with Qmult xs xs))%Q.
Proof.
  induction xs as [|x xs IH].
  - simpl. ring.
  - change (Py.Qsum (zip_with Qmult (x :: xs) ((Spec.linear a b) <$> x :: xs)))
      with (x * Spec.linear a b x
            + Py.Qsum (zip_with Qmult xs ((Spec.linear a b) <$> xs)))%Q.
    change (Py.Qsum (zip_with Qmult (x :: xs) (x :: xs)))
      with (x * x + Py.Qsum (zip_with Qmult xs xs))%Q.
    change (Py.Qsum (x :: xs)) with (x + Py.Qsum xs)%Q.
    rewrite IH. unfold Spec.linear. ring.
Qed.

Lemma arange_S (n : nat) : arange (S n) = arange n ++ [inject_Z (Z.of_nat n)].
Proof. unfold arange. rewrite seq_S, fmap_app. reflexivity. Qed.

Lemma length_arange (n : nat) : length (arange n) = n.
Proof. unfold arange. rewrite length_fmap. apply length_seq. Qed.

Lemma squares_arange_S (n : nat) :
  zip_with Qmult (arange (S n)) (arange (S n))
  = zip_with Qmult (arange n) (arange n)
    ++ [(inject_Z (Z.of_nat n) * inject_Z (Z.of_nat n))%Q].
Proof. rewrite arange_S, zip_with_app by reflexivity. reflexivity. Qed.

(** The sums [0 + 1 + ... + (n-1)] and [0 + 1 + 4 + ... + (n-1)^2]. *)
Lemma sums_arange (n : nat) :
  let q := inject_Z (Z.of_nat n) in
  (2 * Py.Qsum (arange n) == q * (q - 1))%Q
  /\ (6 * Py.Qsum (zip_with Qmult (arange n) (arange n)) == (q - 1) * q * (2 * q - 1))%Q.
Proof.
  induction n as [|n [IH1 IH2]].
  - simpl. split; reflexivity.
  - cbv zeta in *. rewrite squares_arange_S, arange_S, !Qsum_app.
    rewrite Nat2Z.inj_succ, <- Z.add_1_r, inject_Z_plus.
    set (q := inject_Z (Z.of_nat n)) in *.
    change (Py.Qsum [q]) with (q + 0)%Q.
    change (Py.Qsum [(q * q)%Q]) with (q * q + 0)%Q.
    change (inject_Z 1) with 1%Q.
    split.
    + transitivity (2 * Py.Qsum (arange n) + 2 * q)%Q; [ring|]. rewrite IH1. ring.
    + transitivity (6 * Py.Qsum (zip_with Qmult (arange n) (arange n)) + 6 * (q * q))%Q;
        [ring|]. rewrite IH2. ring.
Qed.

(** The denominator of the slope is positive from two points on. *)
Lemma denominator_positive (n : nat) :
  (2 <= n)%nat ->
  let q := inject_Z (Z.of_nat n) in
  (0 < q * Py.Qsum (zip_with Qmult (arange n) (arange n))
       - Py.Qsum (arange n) * Py.Qsum (arange n))%Q.
Proof.
  intros Hn q. destruct (sums_arange n) as [H1 H2]. fold q in H1, H2.
  set (s1 := Py.Qsum (arange n)) in *.
  set (s2 := Py.Qsum (zip_with Qmult (arange n) (arange n))) in *.
  assert (Hq : (2 <= q)%Q).
  { unfold q. change 2%Q with (inject_Z 2). rewrite <- Zle_Qle. lia. }
  assert (E : (12 * (q * s2 - s1 * s1) == q * q * (q * q - 1))%Q).
  { transitivity (2 * q * (6 * s2) - 3 * ((2 * s1) * (2 * s1)))%Q; [ring|].
    rewrite H1, H2. ring. }
  assert (0 < q * q * (q * q - 1))%Q by nra.
  lra.
Qed.

(** On an exactly linear history the fitted slope is the common
    difference. *)
Lemma polyfit1_linear (a b : Q) (n : nat) :
  (2 <= n)%nat ->
  ((polyfit1 (arange n) ((Spec.linear a b) <$> arange n)).1 == b)%Q.
Proof.
  intros Hn. unfold polyfit1. cbn [fst].
  pose proof (denominator_positive n Hn) as Hden. cbv zeta in Hden.
  rewrite Qsum_products_linear, Qsum_linear, length_arange.
  set (q := inject_Z (Z.of_nat n)) in *.
  set (s1 := Py.Qsum (arange n)) in *.
  set (s2 := Py.Qsum (zip_with Qmult (arange n) (arange n))) in *.
  field. lra.
Qed.

Lemma calculate_trend_direction (values : list Q) :
  (2 <= length values)%nat ->
  direction (_calculate_trend values)
  = let slope := (polyfit1 (arange (length values)) values).1 in
    if Py.Qltb (Qabs slope) 0.1 then "stable"
    else if Py.Qltb 0 slope then "improving"
    else "declining".
Proof.
  intros Hlen. unfold _calculate_trend.
  destruct (length values <? 2)%nat eqn:E; [apply Nat.ltb_lt in E; lia|].
  destruct (polyfit1 (arange (length values)) values) as [slope intercept].
  reflexivity.
Qed.

Lemma Qltb_proper (x x' y y' : Q) :
  (x == x')%Q -> (y == y')%Q -> Py.Qltb x y = Py.Qltb x' y'.
Proof. intros Hx Hy. unfold Py.Qltb. rewrite Hx, Hy. reflexivity. Qed.

(** C8 as stated fails: a strictly increasing linear history whose
    step is below 0.1 is stable, not improving. *)
Lemma slow_increase_is_stable :
  direction (_calculate_trend [80%Q; 80.05%Q; 80.1%Q]) = "stable".
Proof. vm_compute. reflexivity. Qed.

(** C8, amended.  For a history handed over in chronological order the
    direction is stable exactly when the fitted slope is below 0.1 in
    absolute value; a linear history is improving when it rises by 0.1
    or more per step and declining when it falls by 0.1 or more per
    step. *)
Theorem calculate_trend_sign_convention (values : list Q) :
  (3 <= length values)%nat ->
  (direction (_calculate_trend values) = "stable"
   <-> (Qabs (polyfit1 (arange (length values)) values).1 < 0.1)%Q)
  /\ forall a b : Q,
       values = (Spec.linear a b) <$> arange (length values) ->
       ((0.1 <= b)%Q -> direction (_calculate_trend values) = "improving")
       /\ ((b <= -0.1)%Q -> direction (_calculate_trend values) = "declining")
       /\ ((-0.1 < b)%Q -> (b < 0.1)%Q -> direction (_calculate_trend values) = "stable").
Proof.
  intros Hlen. rewrite calculate_trend_direction by lia. cbv zeta.
  set (slope := (polyfit1 (arange (length values)) values).1).
  split.
  - destruct (Py.Qltb (Qabs slope) 0.1) eqn:E.
    + apply Qltb_true in E. split; [intros _; exact E | reflexivity].
    + apply Qltb_false in E. split.
      * destruct (Py.Qltb 0 slope); discriminate.
      * intros H. lra.
  - intros a b Hlin.
    assert (Hb : (slope == b)%Q).
    { unfold slope. rewrite Hlin at 2. apply polyfit1_linear. lia. }
    rewrite (Qltb_proper (Qabs slope) (Qabs b) 0.1 0.1)
      by (rewrite ?Hb; reflexivity).
    rewrite (Qltb_proper 0 0 slope b) by (rewrite ?Hb; reflexivity).
    split; [|split].
    + intros H.
      assert (E1 : Py.Qltb (Qabs b) 0.1 = false).
      { apply Qltb_false. rewrite Qabs_pos by lra. exact H. }
      assert (E2 : Py.Qltb 0 b = true) by (apply Qltb_true; lra).
      rewrite E1, E2. reflexivity.
    + intros H.
      assert (E1 : Py.Qltb (Qabs b) 0.1 = false).
      { apply Qltb_false. rewrite Qabs_neg by lra. lra. }
      assert (E2 : Py.Qltb 0 b = false) by (apply Qltb_false; lra).
      rewrite E1, E2. reflexivity.
    + intros H1 H2.
      assert (E1 : Py.Qltb (Qabs b) 0.1 = true).
      { apply Qltb_true. apply Qabs_Qlt_condition. split; lra. }
      rewrite E1. reflexivity.
Qed.

Lemma calculate_trend_sign_convention_witness :
  direction (_calculate_trend [70%Q; 75%Q; 80%Q]) = "improving"
  /\ direction (_calculate_trend [80%Q; 75%Q; 70%Q]) = "declining".
Proof.
  split.
  - destruct (calculate_trend_sign_convention [70%Q; 75%Q; 80%Q]) as [_ H];
      [simpl; lia |].
    destruct (H 70%Q 5%Q) as [Hup _]; [vm_compute; reflexivity |].
    apply Hup. lra.
  - destruct (calculate_trend_sign_convention [80%Q; 75%Q; 70%Q]) as [_ H];
      [simpl; lia |].
    destruct (H 80%Q (-5)%Q) as [_ [Hdown _]]; [vm_compute; reflexivity |].
    apply Hdown. lra.
Defined.

(** The history query returns the newest reading first, and
    [_analyze_trends] hands the values over in that order: a state of
    health that rises from day to day is reported as declining. *)
Lemma analyze_trends_newest_first :
  (_analyze_trends 1 Examples.rising_history).1
  = inr (TrendsOf (Some (_calculate_trend [80%Q; 75%Q; 70%Q])))
  /\ direction (_calculate_trend [80%Q; 75%Q; 70%Q]) = "declining".
Proof. split; vm_compute; reflexivity. Qed.

End HealthMonitorFacts.

(** ** The planner *)

Module PlannerFacts.

Import PlannerAgent.

Lemma advance_advance (n m : nat) (w : World) :
  Spec.advance n (Spec.advance m w) = Spec.advance (n + m) w.
Proof. unfold Spec.advance. simpl. f_equal. lia. Qed.

Lemma advance_0 (w : World) : Spec.advance 0 w = w.
Proof. destruct w. reflexivity. Qed.

Lemma find_next_available_slot_run (wid service_type : string) (w : World) :
  _find_next_available_slot wid service_type w
  = (inr (Spec.next_slot (bookings w) wid service_type
            (clock w (ticks w)) (clock w (S (ticks w)))),
     Spec.advance 2 w).
Proof.
  unfold _find_next_available_slot, bind, utcnow, get_world, ret, Spec.next_slot, Spec.free, Spec.round_up.
  cbn [clock ticks bookings]. reflexivity.
Qed.

(** One turn of the loop of [_find_optimal_slot]. *)
Lemma find_optimal_loop_cons (max_delay : Z) (service_type : string)
    (workshop : Workshop) (rest : list Workshop)
    (best_slot : option OptimalSlot) (best_score : option Q) (w : World) :
  find_optimal_loop (workshop :: rest) max_delay service_type best_slot best_score w
  = match Spec.next_slot (bookings w) (ws_workshop_id workshop) service_type
            (clock w (ticks w)) (clock w (S (ticks w))) with
    | None =>
        find_optimal_loop rest max_delay service_type best_slot best_score (Spec.advance 2 w)
    | Some s =>
        let c := {| Spec.c_workshop := workshop; Spec.c_slot := s;
                    Spec.c_read := (2 + ticks w)%nat |} in
        if Py.Qltb (inject_Z max_delay) (Spec.delay_hours (clock w) c)
        then find_optimal_loop rest max_delay service_type best_slot best_score
               (Spec.advance 3 w)
        else
          match rating workshop with
          | None =>
              (inl (TypeError "unsupported operand type(s) for *: 'NoneType' and 'int'"),
               Spec.advance 3 w)
          | Some _ =>
              if match best_score with
                 | None => true
                 | Some best => Py.Qltb (Spec.score (clock w) c) best
                 end
              then find_optimal_loop rest max_delay service_type
                     (Some (Spec.slot_of service_type c)) (Some (Spec.score (clock w) c))
                     (Spec.advance 3 w)
              else find_optimal_loop rest max_delay service_type best_slot best_score
                     (Spec.advance 3 w)
          end
    end.
Proof.
  cbn [find_optimal_loop]. unfold bind at 1. rewrite find_next_available_slot_run.
  destruct (Spec.next_slot _ _ _ _ _) as [s|]; [|reflexivity].
  unfold bind at 1, utcnow at 1. cbv zeta.
  unfold Spec.score, Spec.delay_hours. cbn [Spec.c_workshop Spec.c_slot Spec.c_read].
  change (clock (Spec.advance 2 w) (ticks (Spec.advance 2 w)))
    with (clock w (2 + ticks w)%nat).
  destruct (Py.Qltb (inject_Z max_delay) _); [reflexivity|].
  destruct (rating workshop) as [r|]; [|reflexivity].
  destruct best_score as [b|]; [|reflexivity].
  cbn [default from_option id].
  destruct (Py.Qltb _ b); reflexivity.
Qed.

(** The loop of [_find_optimal_slot] selects among the candidates of
    the scan; it only reads the clock. *)
Lemma find_optimal_loop_refines (max_delay : Z) (service_type : string)
    (ws : list Workshop) (best_slot : option OptimalSlot) (best_score : option Q)
    (w : World) :
  (find_optimal_loop ws max_delay service_type best_slot best_score w).1
  = Spec.select (clock w) service_type
      (Spec.scan (clock w) (bookings w) max_delay service_type ws (ticks w)).1
      best_slot best_score
  /\ (exists n, (find_optimal_loop ws max_delay service_type best_slot best_score w).2
                = Spec.advance n w)
  /\ (forall r,
        (find_optimal_loop ws max_delay service_type best_slot best_score w).1 = inr r ->
        (ticks w <= (Spec.scan (clock w) (bookings w) max_delay service_type ws (ticks w)).2)%nat
        /\ (find_optimal_loop ws max_delay service_type best_slot best_score w).2
           = Spec.advance
               ((Spec.scan (clock w) (bookings w) max_delay service_type ws (ticks w)).2
                - ticks w) w).
Proof.
  revert best_slot best_score w.
  induction ws as [|workshop rest IH]; intros best_slot best_score w.
  - simpl. split; [reflexivity|]. split.
    + exists 0%nat. by rewrite advance_0.
    + intros r _. split; [lia|]. rewrite Nat.sub_diag. by rewrite advance_0.
  - assert (Hstep : forall k bs bsc,
              (find_optimal_loop rest max_delay service_type bs bsc (Spec.advance k w)).1
              = Spec.select (clock w) service_type
                  (Spec.scan (clock w) (bookings w) max_delay service_type rest
                     (k + ticks w)).1 bs bsc
              /\ (exists n,
                    (find_optimal_loop rest max_delay service_type bs bsc (Spec.advance k w)).2
                    = Spec.advance n w)
              /\ (forall r,
                    (find_optimal_loop rest max_delay service_type bs bsc (Spec.advance k w)).1
                    = inr r ->
                    (ticks w
                     <= (Spec.scan (clock w) (bookings w) max_delay service_type rest
                           (k + ticks w)).2)%nat
                    /\ (find_optimal_loop rest max_delay service_type bs bsc
                          (Spec.advance k w)).2
                       = Spec.advance
                           ((Spec.scan (clock w) (bookings w) max_delay service_type rest
                               (k + ticks w)).2 - ticks w) w)).
    { intros k bs bsc. destruct (IH bs bsc (Spec.advance k w)) as (IH1 & (n & IH2) & IH3).
      cbn [clock bookings ticks Spec.advance] in IH1, IH3.
      split; [exact IH1|]. split.
      - exists (n + k)%nat. rewrite IH2. apply advance_advance.
      - intros r Hr. destruct (IH3 r Hr) as [Hle Hrun]. split; [lia|].
        rewrite Hrun, advance_advance. f_equal. lia. }
    rewrite find_optimal_loop_cons. cbn [Spec.scan].
    destruct (Spec.next_slot _ _ _ _ _) as [s|]; [|apply Hstep].
    cbv zeta.
    destruct (Py.Qltb (inject_Z max_delay) _); [apply Hstep|].
    cbn [fst snd Spec.select Spec.c_workshop].
    destruct (rating workshop) as [r0|].
    + destruct (match best_score with Some _ => _ | None => _ end); apply Hstep.
    + split; [reflexivity|]. split.
      * by exists 3%nat.
      * intros r Hr. discriminate Hr.
Qed.

(** A delay in hours is compared like the duration it stands for. *)
Lemma total_hours_le (d m : Z) :
  (Time.total_hours d <= inject_Z m)%Q <-> d <= Time.hours m.
Proof.
  unfold Time.total_hours, Time.hours, Time.microseconds_per_hour.
  unfold Qle, Qdiv, Qmult, Qinv, inject_Z. cbn [Qnum Qden Z.mul Pos.mul].
  lia.
Qed.

(** What the scan keeps: a workshop of the list, the slot its search
    returned, within the delay bound at the reading it was measured
    against. *)
Lemma scan_candidates (clock : nat -> Z) (table : gmap Z Booking) (max_delay : Z)
    (service_type : string) (ws : list Workshop) (t : nat) :
  (t <= (Spec.scan clock table max_delay service_type ws t).2)%nat
  /\ forall c, c ∈ (Spec.scan clock table max_delay service_type ws t).1 ->
       Spec.c_workshop c ∈ ws
       /\ (exists i, (t <= i)%nat /\ Spec.c_read c = (2 + i)%nat
                     /\ Spec.next_slot table (ws_workshop_id (Spec.c_workshop c))
                          service_type (clock i) (clock (S i)) = Some (Spec.c_slot c))
       /\ Spec.c_slot c - clock (Spec.c_read c) <= Time.hours max_delay
       /\ (Spec.c_read c < (Spec.scan clock table max_delay service_type ws t).2)%nat.
Proof.
  revert t. induction ws as [|workshop rest IH]; intros t.
  - simpl. split; [lia|]. intros c Hc. inversion Hc.
  - cbn [Spec.scan].
    destruct (Spec.next_slot table (ws_workshop_id workshop) service_type
                (clock t) (clock (S t))) as [s|] eqn:Hs.
    + cbv zeta.
      destruct (Py.Qltb (inject_Z max_delay) _) eqn:Hlate.
      * destruct (IH (3 + t)%nat) as [Hle Hin]. split; [lia|].
        intros c Hc. destruct (Hin c Hc) as (H1 & (i & Hi & H2) & H3 & H4).
        repeat split; try assumption.
        -- by apply list_elem_of_further.
        -- exists i. split; [lia | exact H2].
      * destruct (IH (3 + t)%nat) as [Hle Hin]. cbn [fst snd]. split; [lia|].
        intros c Hc. apply elem_of_cons in Hc as [-> | Hc].
        -- cbn [Spec.c_workshop Spec.c_slot Spec.c_read].
           repeat split.
           ++ apply list_elem_of_here.
           ++ exists t. auto.
           ++ apply Qltb_false in Hlate. unfold Spec.delay_hours in Hlate.
              cbn [Spec.c_slot Spec.c_read] in Hlate. by apply total_hours_le.
           ++ lia.
        -- destruct (Hin c Hc) as (H1 & (i & Hi & H2) & H3 & H4).
           repeat split; try assumption.
           ++ by apply list_elem_of_further.
           ++ exists i. split; [lia | exact H2].
    + destruct (IH (2 + t)%nat) as [Hle Hin]. split; [lia|].
      intros c Hc. destruct (Hin c Hc) as (H1 & (i & Hi & H2) & H3 & H4).
      repeat split; try assumption.
      * by apply list_elem_of_further.
      * exists i. split; [lia | exact H2].
Qed.

(** What the selection returns comes from a candidate, or is the best
    slot it started with; it raises only at a workshop without
    rating. *)
Lemma select_from (clock : nat -> Z) (service_type : string) (cs : list Spec.Candidate)
    (best_slot : option OptimalSlot) (best_score : option Q) :
  match Spec.select clock service_type cs best_slot best_score with
  | inr (Some slot) =>
      best_slot = Some slot \/ exists c, c ∈ cs /\ slot = Spec.slot_of service_type c
  | inr None => best_slot = None
  | inl _ => exists c, c ∈ cs /\ rating (Spec.c_workshop c) = None
  end.
Proof.
  revert best_slot best_score.
  induction cs as [|c rest IH]; intros best_slot best_score.
  - simpl. destruct best_slot; auto.
  - cbn [Spec.select]. destruct (rating (Spec.c_workshop c)) as [r|] eqn:Hr.
    + destruct (match best_score with Some _ => _ | None => _ end).
      * specialize (IH (Some (Spec.slot_of service_type c)) (Some (Spec.score clock c))).
        destruct (Spec.select _ _ rest _ _) as [e|[slot|]].
        -- destruct IH as (c' & Hc' & H). exists c'. split; [by apply list_elem_of_further|done].
        -- right. destruct IH as [[= <-] | (c' & Hc' & H)].
           ++ exists c. split; [apply list_elem_of_here | reflexivity].
           ++ exists c'. split; [by apply list_elem_of_further | done].
        -- discriminate IH.
      * specialize (IH best_slot best_score).
        destruct (Spec.select _ _ rest _ _) as [e|[slot|]].
        -- destruct IH as (c' & Hc' & H). exists c'. split; [by apply list_elem_of_further|done].
        -- destruct IH as [H | (c' & Hc' & H)]; [by left|].
           right. exists c'. split; [by apply list_elem_of_further | done].
        -- exact IH.
    + exists c. split; [apply list_elem_of_here | exact Hr].
Qed.

Lemma priority_config_run (priority : string) (w : World) :
  priority_config priority w
  = (inr (default {| urgency := 3; max_delay_hours := 168 |}
            (booking_priorities !! priority)), w).
Proof.
  unfold priority_config.
  assert (E : booking_priorities !! "normal"
              = Some {| urgency := 3; max_delay_hours := 168 |})
    by (vm_compute; reflexivity).
  rewrite E. reflexivity.
Qed.

Lemma find_optimal_slot_run (ws : list Workshop) (priority service_type : string) (w : World) :
  _find_optimal_slot ws priority service_type w
  = find_optimal_loop ws (Spec.max_delay_for priority) service_type None None w.
Proof.
  unfold _find_optimal_slot, bind. rewrite priority_config_run. reflexivity.
Qed.

(** A slot the search returns is one of the slots it visits and is
    free. *)
Lemma next_slot_free (table : gmap Z Booking) (wid service_type : string)
    (now current_time s : Z) :
  Spec.next_slot table wid service_type now current_time = Some s ->
  s ∈ candidate_slots (Spec.round_up current_time)
  /\ Spec.free table wid service_type now s = true.
Proof.
  unfold Spec.next_slot. intros H. apply find_some in H as [Hin Hfree].
  split; [by apply list_elem_of_In | exact Hfree].
Qed.

Lemma find_suitable_workshops_run (service_type location : string) (w : World) :
  exists ws, _find_suitable_workshops service_type location w = (inr ws, w)
             /\ forall x, x ∈ ws -> x ∈ workshops w.
Proof.
  eexists. split; [reflexivity|]. intros x Hx.
  apply list_elem_of_filter in Hx. tauto.
Qed.

(** What [_schedule_booking] does: it leaves the bookings alone and
    returns an error dictionary or raises, or it adds, under a new
    id, a scheduled booking for the slot of [_find_optimal_slot] and
    returns it with the time read after the search. *)
Lemma schedule_booking_outcome (data : Data) (w : World) :
  let service_type := default "maintenance" (Dict.get_str data "service_type") in
  let priority := default "normal" (Dict.get_str data "priority") in
  (exists n, (_schedule_booking data w).2 = Spec.advance n w
             /\ forall r, (_schedule_booking data w).1 <> inr (RBooking r))
  \/ (exists (ws : list Workshop) (slot : OptimalSlot) (n : nat) (r : BookingResult)
             (b : Booking),
        (forall x, x ∈ ws -> x ∈ workshops w)
        /\ find_optimal_loop ws (Spec.max_delay_for priority) service_type None None w
           = (inr (Some slot), Spec.advance n w)
        /\ (_schedule_booking data w).1 = inr (RBooking r)
        /\ br_booking_slot r = slot_time slot
        /\ br_priority r = priority
        /\ br_timestamp r = clock w (n + ticks w)%nat
        /\ br_booking_id r = next_id (bookings w)
        /\ bookings (_schedule_booking data w).2
           = <[next_id (bookings w) := b]> (bookings w)
        /\ clock (_schedule_booking data w).2 = clock w
        /\ ticks (_schedule_booking data w).2 = S (n + ticks w)
        /\ workshop_id b = os_workshop_id slot
        /\ booking_slot b = slot_time slot
        /\ estimated_duration b = Some (os_estimated_duration slot)
        /\ status b = Some "scheduled").
Proof.
  cbv zeta. destruct (_schedule_booking data w) as [res w'] eqn:Hrun.
  unfold _schedule_booking in Hrun. cbv zeta in Hrun.
  unfold bind at 1, get_world at 1 in Hrun.
  destruct (Dict.get_int data "vehicle_id" ≫= (fun v => vehicles w !! v)) as [vehicle|].
  2:{ left. exists 0%nat. injection Hrun as <- <-. rewrite advance_0. split; [done|].
      intros r. discriminate. }
  unfold bind at 1 in Hrun.
  destruct (find_suitable_workshops_run
              (default "maintenance" (Dict.get_str data "service_type")) "default" w)
    as (ws & Hws & Hsub).
  rewrite Hws in Hrun.
  destruct ws as [|w0 ws0].
  { left. exists 0%nat. injection Hrun as <- <-. rewrite advance_0. split; [done|].
    intros r. discriminate. }
  unfold bind at 1 in Hrun. rewrite find_optimal_slot_run in Hrun.
  destruct (find_optimal_loop_refines
              (Spec.max_delay_for (default "normal" (Dict.get_str data "priority")))
              (default "maintenance" (Dict.get_str data "service_type"))
              (w0 :: ws0) None None w) as (_ & (n & Hworld) & _).
  destruct (find_optimal_loop (w0 :: ws0) _ _ None None w) as [[e|[slot|]] w1] eqn:Hloop;
    cbn [snd] in Hworld; subst w1.
  - left. exists n. injection Hrun as <- <-. split; [done|]. intros r. discriminate.
  - right. exists (w0 :: ws0), slot, n.
    unfold bind, add_booking, get_world, set_bookings, utcnow, ret in Hrun.
    cbn [bookings clock ticks Spec.advance] in Hrun.
    injection Hrun as <- <-.
    eexists. eexists. cbn [fst snd bookings clock ticks].
    split; [exact Hsub|]. split; [exact Hloop|]. split; [reflexivity|].
    cbn [br_booking_slot br_priority br_timestamp br_booking_id].
    repeat split.
  - left. exists n. injection Hrun as <- <-. split; [done|]. intros r. discriminate.
Qed.





(** *** Selection *)

(** Started with a best candidate [b], the selection returns the first
    candidate of the list with the smallest score if that score is
    strictly below the score of [b], and [b] otherwise. *)
Lemma select_first_minimum (clock : nat -> Z) (service_type : string)
    (cs : list Spec.Candidate) (b : Spec.Candidate) :
  (forall c, c ∈ cs -> is_Some (rating (Spec.c_workshop c))) ->
  exists c,
    Spec.select clock service_type cs
      (Some (Spec.slot_of service_type b)) (Some (Spec.score clock b))
    = inr (Some (Spec.slot_of service_type c))
    /\ ((c = b /\ forall c', c' ∈ cs -> (Spec.score clock b <= Spec.score clock c')%Q)
        \/ (exists i : nat,
              cs !! i = Some c
              /\ (Spec.score clock c < Spec.score clock b)%Q
              /\ forall (j : nat) c', cs !! j = Some c' ->
                   (Spec.score clock c <= Spec.score clock c')%Q
                   /\ ((j < i)%nat -> (Spec.score clock c < Spec.score clock c')%Q))).
Proof.
  revert b. induction cs as [|c0 rest IH]; intros b Hrated.
  - exists b. split; [reflexivity|]. left. split; [reflexivity|].
    intros c' Hc'. inversion Hc'.
  - cbn [Spec.select].
    destruct (Hrated c0 (list_elem_of_here _ _)) as [r0 Hr0]. rewrite Hr0.
    assert (Hrest : forall c, c ∈ rest -> is_Some (rating (Spec.c_workshop c))).
    { intros c Hc. apply Hrated. by apply list_elem_of_further. }
    destruct (Py.Qltb (Spec.score clock c0) (Spec.score clock b)) eqn:Hcmp.
    + apply Qltb_true in Hcmp.
      destruct (IH c0 Hrest) as (c & Hsel & Hc). exists c. split; [exact Hsel|].
      right. destruct Hc as [[-> Hmin] | (i & Hi & Hlt & Hall)].
      * exists 0%nat. split; [reflexivity|]. split; [exact Hcmp|].
        intros [|j] c' Hj; cbn in Hj.
        -- injection Hj as <-. split; [lra | lia].
        -- split; [|lia]. apply Hmin. eapply list_elem_of_lookup_2. exact Hj.
      * exists (S i). split; [exact Hi|]. split; [lra|].
        intros [|j] c' Hj; cbn in Hj.
        -- injection Hj as <-. split; [lra | intros _; exact Hlt].
        -- destruct (Hall j c' Hj) as [Hle Hstrict]. split; [exact Hle|].
           intros Hji. apply Hstrict. lia.
    + apply Qltb_false in Hcmp.
      destruct (IH b Hrest) as (c & Hsel & Hc). exists c. split; [exact Hsel|].
      destruct Hc as [[-> Hmin] | (i & Hi & Hlt & Hall)].
      * left. split; [reflexivity|]. intros c' Hc'.
        apply elem_of_cons in Hc' as [-> | Hc']; [exact Hcmp | by apply Hmin].
      * right. exists (S i). split; [exact Hi|]. split; [exact Hlt|].
        intros [|j] c' Hj; cbn in Hj.
        -- injection Hj as <-. split; [lra | intros _; lra].
        -- destruct (Hall j c' Hj) as [Hle Hstrict]. split; [exact Hle|].
           intros Hji. apply Hstrict. lia.
Qed.

(** C7 as stated fails: two workshops with the same slot and the same
    rating tie, and the one enumerated first is selected, whatever the
    workshop ids. *)
Lemma selection_depends_on_enumeration_order :
  let w := Examples.fleet (Examples.frozen Examples.morning) [] ∅ in
  (exists a b : OptimalSlot,
     (_find_optimal_slot [Examples.north; Examples.south] "critical" "corrective" w).1
     = inr (Some a)
     /\ (_find_optimal_slot [Examples.south; Examples.north] "critical" "corrective" w).1
        = inr (Some b)
     /\ os_workshop_id a = "ws_001" /\ os_workshop_id b = "ws_002"
     /\ slot_time a = slot_time b)
  /\ Spec.score (Examples.frozen Examples.morning)
       {| Spec.c_workshop := Examples.north;
          Spec.c_slot := Time.days 100 + Time.hours 8; Spec.c_read := 2 |}
     = Spec.score (Examples.frozen Examples.morning)
         {| Spec.c_workshop := Examples.south;
            Spec.c_slot := Time.days 100 + Time.hours 8; Spec.c_read := 2 |}.
Proof.
  cbv zeta. split.
  - eexists. eexists. split; [vm_compute; reflexivity|].
    split; [vm_compute; reflexivity|]. repeat split.
  - vm_compute. reflexivity.
Qed.

(** C7, amended.  Among the candidates, the workshops whose slot is
    within the delay bound, in the order of the enumeration and each
    with the score the code computes for it, [_find_optimal_slot]
    selects one of smallest score, and of several with the smallest
    score the one enumerated first; without candidate it selects
    none. *)
Theorem find_optimal_slot_selects_first_minimum
    (ws : list Workshop) (priority service_type : string) (w : World) :
  let cs := (Spec.scan (clock w) (bookings w) (Spec.max_delay_for priority)
               service_type ws (ticks w)).1 in
  (forall c, c ∈ cs -> is_Some (rating (Spec.c_workshop c))) ->
  (cs = [] -> (_find_optimal_slot ws priority service_type w).1 = inr None)
  /\ (cs <> [] ->
      exists (i : nat) (c : Spec.Candidate),
        cs !! i = Some c
        /\ (_find_optimal_slot ws priority service_type w).1
           = inr (Some (Spec.slot_of service_type c))
        /\ forall (j : nat) c', cs !! j = Some c' ->
             (Spec.score (clock w) c <= Spec.score (clock w) c')%Q
             /\ ((j < i)%nat -> (Spec.score (clock w) c < Spec.score (clock w) c')%Q)).
Proof.
  cbv zeta. intros Hrated. rewrite find_optimal_slot_run.
  destruct (find_optimal_loop_refines (Spec.max_delay_for priority) service_type ws
              None None w) as (Hsel & _ & _).
  rewrite Hsel.
  destruct (Spec.scan (clock w) (bookings w) (Spec.max_delay_for priority)
              service_type ws (ticks w)).1 as [|c0 rest].
  - split; [reflexivity | congruence].
  - split; [discriminate|]. intros _. cbn [Spec.select].
    destruct (Hrated c0 (list_elem_of_here _ _)) as [r0 Hr0]. rewrite Hr0.
    destruct (select_first_minimum (clock w) service_type rest c0) as (c & Hc & Hmin).
    { intros c Hc. apply Hrated. by apply list_elem_of_further. }
    destruct Hmin as [[-> Hmin] | (i & Hi & Hlt & Hall)].
    + exists 0%nat, c0. split; [reflexivity|]. split; [exact Hc|].
      intros [|j] c' Hj; cbn in Hj.
      * injection Hj as <-. split; [lra | lia].
      * split; [|lia]. apply Hmin. eapply list_elem_of_lookup_2. exact Hj.
    + exists (S i), c. split; [exact Hi|]. split; [exact Hc|].
      intros [|j] c' Hj; cbn in Hj.
      * injection Hj as <-. split; [lra | intros _; exact Hlt].
      * destruct (Hall j c' Hj) as [Hle Hstrict]. split; [exact Hle|].
        intros Hji. apply Hstrict. lia.
Qed.

Lemma find_optimal_slot_selects_first_minimum_witness :
  (_find_optimal_slot [Examples.north; Examples.south] "critical" "corrective"
     (Examples.fleet (Examples.frozen Examples.morning) [] ∅)).1
  = inr (Some (Spec.slot_of "corrective"
                 {| Spec.c_workshop := Examples.north;
                    Spec.c_slot := Time.days 100 + Time.hours 8;
                    Spec.c_read := 2 |})).
Proof.
  pose (w := Examples.fleet (Examples.frozen Examples.morning) [] ∅).
  pose (c1 := {| Spec.c_workshop := Examples.north;
                 Spec.c_slot := Time.days 100 + Time.hours 8; Spec.c_read := 2 |}).
  pose (c2 := {| Spec.c_workshop := Examples.south;
                 Spec.c_slot := Time.days 100 + Time.hours 8; Spec.c_read := 5 |}).
  assert (E : (Spec.scan (clock w) (bookings w) (Spec.max_delay_for "critical")
                 "corrective" [Examples.north; Examples.south] (ticks w)).1 = [c1; c2])
    by (vm_compute; reflexivity).
  destruct (find_optimal_slot_selects_first_minimum
              [Examples.north; Examples.south] "critical" "corrective" w) as [_ H].
  - rewrite E. intros c Hc.
    apply elem_of_cons in Hc as [-> | Hc]; [by eexists|].
    apply elem_of_cons in Hc as [-> | Hc]; [by eexists|]. inversion Hc.
  - rewrite E in H. destruct H as (i & c & Hi & Hrun & Hmin); [discriminate|].
    fold w. rewrite Hrun. do 2 f_equal.
    pose proof (lookup_lt_Some _ _ _ Hi) as Hlen. cbn [length] in Hlen.
    destruct i as [|[|i]]; [| |lia].
    + change (Some c1 = Some c) in Hi. by injection Hi as <-.
    + change (Some c2 = Some c) in Hi. injection Hi as <-.
      destruct (Hmin 0%nat c1 eq_refl) as [_ Hlt].
      exfalso. specialize (Hlt ltac:(lia)). vm_compute in Hlt. discriminate Hlt.
Defined.

(** *** The calendar *)

(** A new row gets an id that is not in use. *)
Lemma next_id_fresh (table : gmap Z Booking) : table !! next_id table = None.
Proof.
  destruct (table !! next_id table) as [b|] eqn:Hb; [|reflexivity]. exfalso.
  assert (Hmax : forall (l : list Z) k, k ∈ l -> k <= foldr Z.max 0 l).
  { induction l as [|x l IH]; intros k Hk; [inversion Hk|].
    cbn [foldr]. apply elem_of_cons in Hk as [-> | Hk]; [lia|].
    specialize (IH k Hk). lia. }
  apply elem_of_map_to_list in Hb.
  apply (list_elem_of_fmap_2 fst) in Hb. cbn [fst] in Hb.
  specialize (Hmax _ _ Hb). unfold next_id in Hmax. lia.
Qed.

(** Every service takes some time. *)
Lemma estimate_service_duration_positive (service_type : string) :
  0 < _estimate_service_duration service_type.
Proof.
  unfold _estimate_service_duration.
  destruct (duration_mapping !! service_type) as [d|] eqn:Hd; [|cbn; lia].
  cbn [default from_option id]. unfold duration_mapping in Hd.
  repeat (apply lookup_insert_Some in Hd as [[_ <-] | [_ Hd]]; [lia|]).
  apply lookup_singleton_Some in Hd as [_ <-]. lia.
Qed.

(** A row replaced by one that is cancelled, or that is on the same
    workshop within the same interval, keeps the calendar free of
    overlaps. *)
Lemma non_overlapping_replace (table : gmap Z Booking) (id : Z) (b b' : Booking) :
  table !! id = Some b ->
  (status b' <> Some "cancelled" ->
   status b <> Some "cancelled" /\ workshop_id b' = workshop_id b
   /\ forall instant, Spec.during b' instant -> Spec.during b instant) ->
  Spec.non_overlapping table ->
  Spec.non_overlapping (<[id := b']> table).
Proof.
  intros Hb Hkeep Hinv i j b1 b2 Hij H1 H2 Hws Hs1 Hs2 instant [Hd1 Hd2].
  apply lookup_insert_Some in H1 as [[<- <-] | [Hi H1]];
    apply lookup_insert_Some in H2 as [[<- <-] | [Hj H2]].
  - congruence.
  - destruct (Hkeep Hs1) as (Hs & Hw & Hin).
    apply (Hinv id j b b2 Hij Hb H2 ltac:(congruence) Hs Hs2 instant). split; auto.
  - destruct (Hkeep Hs2) as (Hs & Hw & Hin).
    apply (Hinv i id b1 b Hij H1 Hb ltac:(congruence) Hs1 Hs instant). split; auto.
  - apply (Hinv i j b1 b2 Hij H1 H2 Hws Hs1 Hs2 instant). split; auto.
Qed.

(** A row added under an unused id keeps the calendar free of overlaps
    when it shares no instant with a booking of its workshop. *)
Lemma non_overlapping_insert (table : gmap Z Booking) (id : Z) (b : Booking) :
  table !! id = None ->
  (forall j b0, table !! j = Some b0 -> workshop_id b0 = workshop_id b ->
                status b0 <> Some "cancelled" ->
                forall instant, ~ (Spec.during b instant /\ Spec.during b0 instant)) ->
  Spec.non_overlapping table ->
  Spec.non_overlapping (<[id := b]> table).
Proof.
  intros Hfresh Hnew Hinv i j b1 b2 Hij H1 H2 Hws Hs1 Hs2 instant [Hd1 Hd2].
  apply lookup_insert_Some in H1 as [[<- <-] | [Hi H1]];
    apply lookup_insert_Some in H2 as [[<- <-] | [Hj H2]].
  - congruence.
  - apply (Hnew j b2 H2 ltac:(congruence) Hs2 instant). split; auto.
  - apply (Hnew i b1 H1 Hws Hs1 instant). split; auto.
  - apply (Hinv i j b1 b2 Hij H1 H2 Hws Hs1 Hs2 instant). split; auto.
Qed.

(** A free slot conflicts with no booking of the workshop that is
    scheduled, confirmed or in progress and starts at the time of the
    query or later. *)
Lemma free_no_conflict (table : gmap Z Booking) (wid service_type : string)
    (now s : Z) (j : Z) (b : Booking) :
  Spec.free table wid service_type now s = true ->
  table !! j = Some b -> workshop_id b = wid -> now <= booking_slot b ->
  status b ∈ [Some "scheduled"; Some "confirmed"; Some "in_progress"] ->
  conflicts s (s + Time.minutes (_estimate_service_duration service_type)) b = false.
Proof.
  intros Hfree Hb Hw Hnow Hstatus. unfold Spec.free in Hfree.
  apply negb_true_iff in Hfree.
  destruct (conflicts s _ b) eqn:Hc; [|reflexivity].
  assert (Hex : existsb
                  (conflicts s (s + Time.minutes (_estimate_service_duration service_type)))
                  (existing_bookings wid now table) = true).
  { apply existsb_exists. exists b. split; [|exact Hc].
    apply list_elem_of_In. unfold existing_bookings.
    rewrite merge_sort_Permutation. apply list_elem_of_filter. split; [auto|].
    apply list_elem_of_fmap. exists (j, b). split; [reflexivity|].
    by apply elem_of_map_to_list. }
  congruence.
Qed.

(** Without conflict there is no common instant. *)
Lemma no_conflict_no_common_instant (b0 : Booking) (s d : Z) (b : Booking) :
  conflicts s (s + Time.minutes d) b0 = false ->
  booking_slot b = s -> estimated_duration b = Some d -> 0 < d ->
  forall instant, ~ (Spec.during b instant /\ Spec.during b0 instant).
Proof.
  intros Hc Hs Hd Hpos instant [H1 H2]. unfold conflicts in Hc.
  unfold Spec.during, Spec.booking_end in H1, H2. rewrite Hs, Hd in H1.
  cbn [Py.or_default] in H1.
  destruct (d =? 0) eqn:E; [apply Z.eqb_eq in E; lia|].
  apply andb_false_iff in Hc as [Hc | Hc]; apply Z.ltb_ge in Hc; lia.
Qed.

Lemma parse_slot_world (field : string) (value : Scalar) (w : World) :
  (parse_slot field value w).2 = w.
Proof. unfold parse_slot. case_bool_decide; [destruct value|]; reflexivity. Qed.

(** What [setattr] leaves alone. *)
Lemma setattr_keeps (booking booking' : Booking) (field : string) (value : Scalar) :
  setattr booking field value = inr booking' ->
  vehicle_id booking' = vehicle_id booking
  /\ workshop_id booking' = workshop_id booking
  /\ workshop_name booking' = workshop_name booking
  /\ recommended_actions booking' = recommended_actions booking
  /\ (field <> "booking_slot" -> booking_slot booking' = booking_slot booking)
  /\ (field <> "status" -> status booking' = status booking)
  /\ (field <> "estimated_duration" ->
      estimated_duration booking' = estimated_duration booking).
Proof.
  unfold setattr.
  repeat (case_bool_decide;
          [destruct value; intros [= <-]; repeat split; intros; congruence|]).
  destruct value; intros [= <-]; repeat split; intros; congruence.
Qed.

(** The loop over the updates writes nothing.  It leaves the vehicle,
    the workshop and the recommended actions of the row alone, and
    the slot, the status and the duration unless the update names
    them; the fields it reports are allowed ones the update names. *)
Lemma apply_updates_run (updates : list (string * Scalar)) (booking : Booking)
    (fields : list string) (refused : option Exn) (w : World) :
  (apply_updates updates booking fields refused w).2 = w
  /\ forall result,
       (apply_updates updates booking fields refused w).1 = inr result ->
       vehicle_id result.1.1 = vehicle_id booking
       /\ workshop_id result.1.1 = workshop_id booking
       /\ workshop_name result.1.1 = workshop_name booking
       /\ recommended_actions result.1.1 = recommended_actions booking
       /\ ((forall value, ("booking_slot", value) ∉ updates) ->
           booking_slot result.1.1 = booking_slot booking)
       /\ ((forall value, ("status", value) ∉ updates) ->
           status result.1.1 = status booking)
       /\ ((forall value, ("estimated_duration", value) ∉ updates) ->
           estimated_duration result.1.1 = estimated_duration booking)
       /\ (forall field, field ∈ result.1.2 ->
             field ∈ fields
             \/ (field ∈ allowed_updates /\ exists value, (field, value) ∈ updates)).
Proof.
  revert booking fields refused. induction updates as [|[field value] rest IH];
    intros booking fields refused.
  - split; [reflexivity|]. intros result [= <-]. cbn [fst snd]. repeat split; auto.
  - cbn [apply_updates]. case_bool_decide as Hallowed.
    + unfold bind. pose proof (parse_slot_world field value w) as Hw.
      destruct (parse_slot field value w) as [[e|value'] w1]; cbn [snd] in Hw; subst w1;
        [split; [reflexivity|]; intros result; discriminate|].
      assert (Hstep : forall b1 refused',
                vehicle_id b1 = vehicle_id booking
                /\ workshop_id b1 = workshop_id booking
                /\ workshop_name b1 = workshop_name booking
                /\ recommended_actions b1 = recommended_actions booking
                /\ (field <> "booking_slot" -> booking_slot b1 = booking_slot booking)
                /\ (field <> "status" -> status b1 = status booking)
                /\ (field <> "estimated_duration" ->
                    estimated_duration b1 = estimated_duration booking) ->
                (apply_updates rest b1 (fields ++ [field]) refused' w).2 = w
                /\ forall result,
                     (apply_updates rest b1 (fields ++ [field]) refused' w).1 = inr result ->
                     vehicle_id result.1.1 = vehicle_id booking
                     /\ workshop_id result.1.1 = workshop_id booking
                     /\ workshop_name result.1.1 = workshop_name booking
                     /\ recommended_actions result.1.1 = recommended_actions booking
                     /\ ((forall v, ("booking_slot", v) ∉ (field, value) :: rest) ->
                         booking_slot result.1.1 = booking_slot booking)
                     /\ ((forall v, ("status", v) ∉ (field, value) :: rest) ->
                         status result.1.1 = status booking)
                     /\ ((forall v, ("estimated_duration", v) ∉ (field, value) :: rest) ->
                         estimated_duration result.1.1 = estimated_duration booking)
                     /\ (forall f, f ∈ result.1.2 ->
                           f ∈ fields
                           \/ (f ∈ allowed_updates
                               /\ exists v, (f, v) ∈ (field, value) :: rest))).
      { intros b1 refused' (F1 & F2 & F3 & F4 & F5 & F6 & F7).
        destruct (IH b1 (fields ++ [field]) refused') as [Hworld Hkeeps].
        split; [exact Hworld|]. intros result Hres.
        destruct (Hkeeps result Hres) as (E1 & E2 & E3 & E4 & E5 & E6 & E7 & E8).
        rewrite E1, E2, E3, E4.
        split; [exact F1|]. split; [exact F2|]. split; [exact F3|]. split; [exact F4|].
        split; [|split; [|split]].
        - intros Hno. rewrite E5.
          + apply F5. intros ->. apply (Hno value), list_elem_of_here.
          + intros v Hv. apply (Hno v), list_elem_of_further, Hv.
        - intros Hno. rewrite E6.
          + apply F6. intros ->. apply (Hno value), list_elem_of_here.
          + intros v Hv. apply (Hno v), list_elem_of_further, Hv.
        - intros Hno. rewrite E7.
          + apply F7. intros ->. apply (Hno value), list_elem_of_here.
          + intros v Hv. apply (Hno v), list_elem_of_further, Hv.
        - intros f Hf. destruct (E8 f Hf) as [Hin | [Ha (v & Hv)]].
          + apply elem_of_app in Hin as [Hin | Hin]; [left; exact Hin|].
            apply list_elem_of_singleton in Hin. subst f. right.
            split; [exact Hallowed|]. exists value. apply list_elem_of_here.
          + right. split; [exact Ha|]. exists v. apply list_elem_of_further, Hv. }
      destruct (setattr booking field value') as [e|b1] eqn:Hset.
      * apply Hstep. repeat split; reflexivity.
      * apply Hstep. apply (setattr_keeps booking b1 field value' Hset).
    + destruct (IH booking fields refused) as [Hworld Hkeeps].
      split; [exact Hworld|]. intros result Hres.
      destruct (Hkeeps result Hres) as (E1 & E2 & E3 & E4 & E5 & E6 & E7 & E8).
      split; [exact E1|]. split; [exact E2|]. split; [exact E3|]. split; [exact E4|].
      split; [|split; [|split]].
      * intros Hno. apply E5. intros v Hv. apply (Hno v), list_elem_of_further, Hv.
      * intros Hno. apply E6. intros v Hv. apply (Hno v), list_elem_of_further, Hv.
      * intros Hno. apply E7. intros v Hv. apply (Hno v), list_elem_of_further, Hv.
      * intros f Hf. destruct (E8 f Hf) as [Hin | [Ha (v & Hv)]]; [left; exact Hin|].
        right. split; [exact Ha|]. exists v. apply list_elem_of_further, Hv.
Qed.

(** [_update_booking] leaves the state alone and returns no update, or
    it returns the update of a row and has replaced that row, and
    read the clock once. *)
Lemma update_booking_outcome (data : Data) (w : World) :
  let updates := default [] (Dict.get_updates data "updates") in
  ((_update_booking data w).2 = w
   /\ forall r, (_update_booking data w).1 <> inr (RBookingUpdate r))
  \/ exists id b b' fields,
       Dict.get_int data "booking_id" = Some id
       /\ bookings w !! id = Some b
       /\ _update_booking data w
          = (inr (RBookingUpdate
                    {| bu_booking_id := id; bu_updated_fields := fields;
                       bu_new_booking_slot := booking_slot b'; bu_status := status b';
                       bu_confidence := 0.9%Q; bu_timestamp := clock w (ticks w) |}),
             Spec.advance 1
               {| clock := clock w; ticks := ticks w; vehicles := vehicles w;
                  workshops := workshops w;
                  bookings := <[id := b']> (bookings w);
                  vehicle_telemetry := vehicle_telemetry w;
                  agent_actions := agent_actions w |})
       /\ vehicle_id b' = vehicle_id b
       /\ workshop_id b' = workshop_id b
       /\ workshop_name b' = workshop_name b
       /\ recommended_actions b' = recommended_actions b
       /\ ((forall value, ("booking_slot", value) ∉ updates) ->
           booking_slot b' = booking_slot b)
       /\ ((forall value, ("status", value) ∉ updates) -> status b' = status b)
       /\ ((forall value, ("estimated_duration", value) ∉ updates) ->
           estimated_duration b' = estimated_duration b)
       /\ (forall field, field ∈ fields ->
             field ∈ allowed_updates /\ exists value, (field, value) ∈ updates).
Proof.
  cbv zeta. destruct (_update_booking data w) as [res w'] eqn:Hrun0. cbn [fst snd].
  unfold _update_booking in Hrun0. cbv zeta in Hrun0.
  unfold bind at 1, get_world at 1 in Hrun0.
  destruct (Dict.get_int data "booking_id") as [id|] eqn:Hid;
    [|left; injection Hrun0 as <- <-; split; [reflexivity | discriminate]].
  cbn [mbind option_bind] in Hrun0.
  destruct (bookings w !! id) as [b|] eqn:Hb;
    [|left; injection Hrun0 as <- <-; split; [reflexivity | discriminate]].
  cbn [fmap option_fmap option_map] in Hrun0. unfold bind at 1 in Hrun0.
  destruct (apply_updates_run (default [] (Dict.get_updates data "updates")) b [] None w)
    as [Hw Hkeeps].
  destruct (apply_updates _ b [] None w) as [[e|result] w1] eqn:Hrun;
    cbn [fst snd] in Hw, Hkeeps; subst w1;
    [left; injection Hrun0 as <- <-; split; [reflexivity | discriminate]|].
  destruct (Hkeeps result eq_refl) as (E1 & E2 & E3 & E4 & E5 & E6 & E7 & E8).
  destruct result as [[b' fields] [e|]]; cbn [fst snd] in *.
  { left. unfold raise in Hrun0. injection Hrun0 as <- <-.
    split; [reflexivity | discriminate]. }
  right. exists id, b, b', fields. split; [reflexivity|]. split; [exact Hb|].
  unfold bind, set_bookings, utcnow, ret in Hrun0. injection Hrun0 as <- <-.
  split; [reflexivity|].
  repeat (split; [assumption|]).
  intros field Hfield. destruct (E8 field Hfield) as [Hin | H]; [inversion Hin | exact H].
Qed.

Lemma alternatives_world (ws : list Workshop) (service_type : string) (w : World) :
  exists n, (alternatives ws service_type w).2 = Spec.advance n w.
Proof.
  revert w. induction ws as [|workshop rest IH]; intros w.
  - exists 0%nat. by rewrite advance_0.
  - cbn [alternatives]. unfold bind at 1. rewrite find_next_available_slot_run.
    unfold bind at 1. destruct (IH (Spec.advance 2 w)) as (n & Hn).
    destruct (alternatives rest service_type (Spec.advance 2 w)) as [[e|more] w1];
      cbn [snd] in Hn; subst w1.
    + exists (n + 2)%nat. apply advance_advance.
    + exists (n + 2)%nat.
      destruct (Spec.next_slot _ _ _ _ _); cbn [snd ret]; apply advance_advance.
Qed.

(** [_cancel_booking] leaves the table alone, or marks a row as
    cancelled. *)
Lemma cancel_booking_outcome (data : Data) (w : World) :
  bookings (_cancel_booking data w).2 = bookings w
  \/ exists id b,
       bookings w !! id = Some b
       /\ bookings (_cancel_booking data w).2
          = <[id := with_status b (Some "cancelled")]> (bookings w).
Proof.
  destruct (_cancel_booking data w) as [res w'] eqn:Hrun0. cbn [snd].
  unfold _cancel_booking in Hrun0. cbv zeta in Hrun0.
  unfold bind at 1, get_world at 1 in Hrun0.
  destruct (Dict.get_int data "booking_id") as [id|];
    [|left; by injection Hrun0 as <- <-].
  cbn [mbind option_bind] in Hrun0.
  destruct (bookings w !! id) as [b|] eqn:Hb;
    [|left; by injection Hrun0 as <- <-].
  cbn [fmap option_fmap option_map] in Hrun0.
  case_bool_decide; [left; by injection Hrun0 as <- <-|].
  right. exists id, b. split; [exact Hb|].
  unfold bind at 1, set_bookings at 1 in Hrun0.
  set (w1 := {| clock := clock w;
                bookings := <[id := with_status b (Some "cancelled")]> (bookings w) |}) in Hrun0.
  change (<[id := with_status b (Some "cancelled")]> (bookings w)) with (bookings w1).
  unfold bind at 1 in Hrun0.
  assert (Halt : exists n,
             ((if default false (Dict.get_bool data "find_alternative")
               then
                 workshops <- _find_suitable_workshops (service_type b) "default" ;;
                 alternatives (take 3 workshops) (service_type b)
               else ret []) w1).2 = Spec.advance n w1).
  { destruct (default false (Dict.get_bool data "find_alternative")).
    - unfold bind.
      destruct (find_suitable_workshops_run (service_type b) "default" w1)
        as (ws & Hws & _).
      rewrite Hws. apply alternatives_world.
    - exists 0%nat. by rewrite advance_0. }
  destruct Halt as (n & Hn).
  set (search := if default false (Dict.get_bool data "find_alternative")
                 then
                   workshops <- _find_suitable_workshops (service_type b) "default" ;;
                   alternatives (take 3 workshops) (service_type b)
                 else ret []) in *.
  destruct (search w1) as [[e|alts] w2]; cbn [snd] in Hn; subst w2;
    by injection Hrun0 as <- <-.
Qed.

Lemma two_bookings_non_overlapping : Spec.non_overlapping Examples.two_bookings.
Proof.
  intros i j b1 b2 Hij H1 H2 _ _ _ instant [Hd1 Hd2].
  unfold Examples.two_bookings in H1, H2.
  apply lookup_insert_Some in H1 as [[<- <-] | [_ H1]];
    [|apply lookup_singleton_Some in H1 as [<- <-]];
    (apply lookup_insert_Some in H2 as [[<- <-] | [_ H2]];
     [|apply lookup_singleton_Some in H2 as [<- <-]]);
    try congruence;
    unfold Spec.during, Spec.booking_end, Examples.booked in Hd1, Hd2;
    cbn [booking_slot estimated_duration Py.or_default Z.eqb] in Hd1, Hd2;
    unfold Time.days, Time.hours, Time.minutes, Time.microseconds_per_day,
      Time.microseconds_per_hour, Time.microseconds_per_minute in Hd1, Hd2; lia.
Qed.

(** C2 as stated fails: [_update_booking] sets a new slot without
    looking at the calendar. *)
Lemma update_booking_can_overlap :
  let w := Examples.fleet (Examples.ticking Examples.morning) [Examples.north]
             Examples.two_bookings in
  Spec.non_overlapping (bookings w)
  /\ ~ Spec.non_overlapping (bookings (_update_booking Examples.move_to_ten w).2).
Proof.
  cbv zeta. split; [exact two_bookings_non_overlapping|].
  intros Hinv.
  apply (Hinv 1 2
           (Examples.booked "ws_001" (Time.days 100 + Time.hours 10) 60 "scheduled")
           (Examples.booked "ws_001" (Time.days 100 + Time.hours 10) 60 "scheduled")
           ltac:(lia) ltac:(vm_compute; reflexivity) ltac:(vm_compute; reflexivity)
           eq_refl ltac:(discriminate) ltac:(discriminate)
           (Time.days 100 + Time.hours 10)).
  vm_compute. repeat split; congruence.
Qed.

Lemma single_booking_non_overlapping (id : Z) (b : Booking) :
  Spec.non_overlapping {[ id := b ]}.
Proof.
  intros i j b1 b2 Hij H1 H2.
  apply lookup_singleton_Some in H1 as [<- _].
  apply lookup_singleton_Some in H2 as [<- _]. congruence.
Qed.

(** The slot search starts at 8 AM of the current day and does not
    look at bookings that started before the query: at half past
    twelve, with a job in progress since ten, [_schedule_booking]
    books eight to eleven of the same day. *)
Lemma schedule_booking_can_overlap_started_booking :
  let w := Examples.fleet (Examples.ticking Examples.midday) [Examples.south]
             Examples.started in
  Spec.non_overlapping (bookings w)
  /\ bookings (_schedule_booking Examples.critical_request w).2 !! 2
     = Some {| vehicle_id := Some 1; workshop_id := "ws_002";
               workshop_name := "South Garage";
               booking_slot := Time.days 100 + Time.hours 8;
               service_type := "corrective"; estimated_duration := Some 180;
               priority := Some "critical"; status := Some "scheduled";
               predicted_issue := Some ""; confidence_score := Some 0.5%Q;
               recommended_actions := [] |}
  /\ ~ Spec.non_overlapping (bookings (_schedule_booking Examples.critical_request w).2).
Proof.
  cbv zeta. split; [apply single_booking_non_overlapping|].
  split; [vm_compute; reflexivity|].
  intros Hinv.
  apply (Hinv 1 2
           (Examples.booked "ws_002" (Time.days 100 + Time.hours 10) 240 "in_progress")
           {| vehicle_id := Some 1; workshop_id := "ws_002";
              workshop_name := "South Garage";
              booking_slot := Time.days 100 + Time.hours 8;
              service_type := "corrective"; estimated_duration := Some 180;
              priority := Some "critical"; status := Some "scheduled";
              predicted_issue := Some ""; confidence_score := Some 0.5%Q;
              recommended_actions := [] |}
           ltac:(lia) ltac:(vm_compute; reflexivity) ltac:(vm_compute; reflexivity)
           eq_refl ltac:(discriminate) ltac:(discriminate)
           (Time.days 100 + Time.hours 10)).
  vm_compute. repeat split; congruence.
Qed.

(** C2, amended.  The calendar stays free of overlaps under
    [_cancel_booking].  It does so under [_update_booking] when the
    row of the booking ends up cancelled, or was not cancelled and
    its new interval lies within the old one: in particular when the
    update names neither [booking_slot] nor [estimated_duration] and
    does not name [status] for a cancelled booking.  It does so under
    [_schedule_booking] when the booking made shares no instant with
    the bookings of its workshop that the conflict test does not look
    at: those that are not scheduled, confirmed or in progress, and
    those that start before a clock reading of the call. *)
Theorem calendar_stays_non_overlapping :
  (forall (data : Data) (w : World),
     Spec.non_overlapping (bookings w) ->
     Spec.non_overlapping (bookings (_cancel_booking data w).2))
  /\ (forall (data : Data) (w : World),
        Spec.non_overlapping (bookings w) ->
        (forall id b b',
           Dict.get_int data "booking_id" = Some id ->
           bookings w !! id = Some b ->
           bookings (_update_booking data w).2 !! id = Some b' ->
           status b' <> Some "cancelled" ->
           status b <> Some "cancelled"
           /\ booking_slot b <= booking_slot b'
           /\ Spec.booking_end b' <= Spec.booking_end b) ->
        Spec.non_overlapping (bookings (_update_booking data w).2))
  /\ (forall (data : Data) (w : World),
        let updates := default [] (Dict.get_updates data "updates") in
        Spec.non_overlapping (bookings w) ->
        (forall value, ("booking_slot", value) ∉ updates) ->
        (forall value, ("estimated_duration", value) ∉ updates) ->
        (forall id b,
           Dict.get_int data "booking_id" = Some id ->
           bookings w !! id = Some b -> status b = Some "cancelled" ->
           forall value, ("status", value) ∉ updates) ->
        Spec.non_overlapping (bookings (_update_booking data w).2))
  /\ (forall (data : Data) (w : World),
        let run := _schedule_booking data w in
        Spec.non_overlapping (bookings w) ->
        (forall r b,
           run.1 = inr (RBooking r) ->
           bookings run.2 !! br_booking_id r = Some b ->
           forall id b0,
             bookings w !! id = Some b0 ->
             workshop_id b0 = workshop_id b ->
             status b0 <> Some "cancelled" ->
             (status b0 ∉ [Some "scheduled"; Some "confirmed"; Some "in_progress"])
             \/ (exists k, (ticks w <= k < ticks run.2)%nat /\ booking_slot b0 < clock w k) ->
             forall instant, ~ (Spec.during b instant /\ Spec.during b0 instant)) ->
        Spec.non_overlapping (bookings run.2)).
Proof.
  split; [|split; [|split]].
  - intros data w Hinv.
    destruct (cancel_booking_outcome data w) as [-> | (id & b & Hb & ->)]; [exact Hinv|].
    apply (non_overlapping_replace _ id b); [exact Hb | | exact Hinv].
    intros Hs. exfalso. apply Hs. reflexivity.
  - intros data w Hinv Hrow.
    destruct (update_booking_outcome data w)
      as [[Hw _] | (id & b & b' & fields & Hid & Hb & Hrun & _ & Hws & _)].
    { rewrite Hw. exact Hinv. }
    specialize (Hrow id b b' Hid Hb). rewrite Hrun in Hrow |- *.
    cbn [snd bookings Spec.advance] in Hrow |- *.
    rewrite lookup_insert_eq in Hrow. specialize (Hrow eq_refl).
    apply (non_overlapping_replace _ id b); [exact Hb | | exact Hinv].
    intros Hs. destruct (Hrow Hs) as (Hs0 & Hslot & Hend).
    split; [exact Hs0|]. split; [exact Hws|].
    intros instant. unfold Spec.during. lia.
  - intros data w updates Hinv Hslot Hduration Hstatus.
    destruct (update_booking_outcome data w)
      as [[Hw _] | (id & b & b' & fields & Hid & Hb & Hrun & _ & Hws & _ & _
                    & Eslot & Estatus & Eduration & _)].
    { rewrite Hw. exact Hinv. }
    rewrite Hrun. cbn [snd bookings Spec.advance].
    apply (non_overlapping_replace _ id b); [exact Hb | | exact Hinv].
    specialize (Eslot Hslot). specialize (Eduration Hduration).
    intros Hs. split.
    + intros Hcancelled. apply Hs. rewrite Estatus; [exact Hcancelled|].
      apply (Hstatus id b Hid Hb Hcancelled).
    + split; [exact Hws|].
      intros instant. unfold Spec.during, Spec.booking_end. rewrite Eslot, Eduration. auto.
  - intros data w run Hinv Hunseen. subst run.
    destruct (schedule_booking_outcome data w) as [(n & Hw & _) | Hyes].
    { rewrite Hw. exact Hinv. }
    destruct Hyes as (ws & slot & n & r & b & _ & Hloop & Hr & _ & _ & _ & Hid
                      & Htable & _ & Hticks & Hwid & Hslot & Hdur & _).
    specialize (Hunseen r b Hr). rewrite Htable, Hid, lookup_insert_eq in Hunseen.
    specialize (Hunseen eq_refl).
    rewrite Htable.
    apply non_overlapping_insert; [apply next_id_fresh | | exact Hinv].
    intros j b0 Hb0 Hsame Hstatus.
    (* the slot comes from a candidate of the scan *)
    set (service_type := default "maintenance" (Dict.get_str data "service_type")) in *.
    set (max_delay := Spec.max_delay_for (default "normal" (Dict.get_str data "priority")))
      in *.
    destruct (find_optimal_loop_refines max_delay service_type ws None None w)
      as (Hsel & _ & Hend).
    rewrite Hloop in Hsel, Hend. cbn [fst snd] in Hsel, Hend.
    destruct (Hend _ eq_refl) as [Hle Hw'].
    assert (Hn : (n + ticks w)%nat
                 = (Spec.scan (clock w) (bookings w) max_delay service_type ws (ticks w)).2).
    { apply (f_equal ticks) in Hw'. cbn [ticks Spec.advance] in Hw'. lia. }
    pose proof (select_from (clock w) service_type
                  (Spec.scan (clock w) (bookings w) max_delay service_type ws (ticks w)).1
                  None None) as Hfrom.
    rewrite <- Hsel in Hfrom. destruct Hfrom as [[=] | (c & Hc & ->)].
    destruct (scan_candidates (clock w) (bookings w) max_delay service_type ws (ticks w))
      as [_ Hcs].
    destruct (Hcs c Hc) as (_ & (i & Hi & Hread & Hnext) & _ & Hlast).
    apply next_slot_free in Hnext as [_ Hfree].
    cbn [os_workshop_id slot_time os_estimated_duration Spec.slot_of] in Hwid, Hslot, Hdur.
    destruct (decide (status b0 ∈ [Some "scheduled"; Some "confirmed"; Some "in_progress"]))
      as [Hactive | Hinactive];
      [|apply (Hunseen j b0 Hb0 Hsame Hstatus); left; exact Hinactive].
    destruct (Z.lt_ge_cases (booking_slot b0) (clock w i)) as [Hpast | Hfuture].
    { apply (Hunseen j b0 Hb0 Hsame Hstatus). right. exists i.
      split; [|exact Hpast]. rewrite Hticks. lia. }
    apply (no_conflict_no_common_instant b0 (Spec.c_slot c)
             (_estimate_service_duration service_type) b);
      [|exact Hslot | exact Hdur | apply estimate_service_duration_positive].
    apply (free_no_conflict (bookings w) (ws_workshop_id (Spec.c_workshop c))
             service_type (clock w i) (Spec.c_slot c) j b0);
      [exact Hfree | exact Hb0 | congruence | exact Hfuture | exact Hactive].
Qed.

Lemma calendar_stays_non_overlapping_witness :
  Spec.non_overlapping
    (bookings (_cancel_booking {[ "booking_id" := VScalar (SInt 1) ]}
                 (Examples.fleet (Examples.ticking Examples.morning) [Examples.north]
                    Examples.two_bookings)).2)
  /\ Spec.non_overlapping
       (bookings (_update_booking Examples.shorten
                    (Examples.fleet (Examples.ticking Examples.morning) [Examples.north]
                       Examples.two_bookings)).2)
  /\ Spec.non_overlapping
       (bookings (_update_booking Examples.confirm
                    (Examples.fleet (Examples.ticking Examples.morning) [Examples.north]
                       Examples.two_bookings)).2)
  /\ Spec.non_overlapping
       (bookings (_schedule_booking Examples.critical_request
                    (Examples.fleet (Examples.ticking Examples.morning)
                       [Examples.south] Examples.at_eight)).2)
  /\ bookings (_schedule_booking Examples.critical_request
                 (Examples.fleet (Examples.ticking Examples.morning)
                    [Examples.south] Examples.at_eight)).2 !! 2
     = Some {| vehicle_id := Some 1; workshop_id := "ws_002";
               workshop_name := "South Garage";
               booking_slot := Time.days 100 + Time.hours 11;
               service_type := "corrective"; estimated_duration := Some 180;
               priority := Some "critical"; status := Some "scheduled";
               predicted_issue := Some ""; confidence_score := Some 0.5%Q;
               recommended_actions := [] |}.
Proof.
  destruct calendar_stays_non_overlapping as (Hcancel & Hrow & Hupdate & Hschedule).
  split; [|split; [|split; [|split]]].
  - apply Hcancel. exact two_bookings_non_overlapping.
  - apply Hrow; [exact two_bookings_non_overlapping|].
    intros id b b' Hid Hb Hb' _.
    assert (E : Dict.get_int Examples.shorten "booking_id" = Some 2)
      by (vm_compute; reflexivity).
    rewrite E in Hid. injection Hid as <-.
    assert (Eb : bookings (Examples.fleet (Examples.ticking Examples.morning)
                             [Examples.north] Examples.two_bookings) !! 2
                 = Some (Examples.booked "ws_001" (Time.days 100 + Time.hours 12) 60
                           "scheduled")) by (vm_compute; reflexivity).
    assert (Eb' : bookings (_update_booking Examples.shorten
                              (Examples.fleet (Examples.ticking Examples.morning)
                                 [Examples.north] Examples.two_bookings)).2 !! 2
                  = Some (PlannerAgent.with_estimated_duration
                            (Examples.booked "ws_001" (Time.days 100 + Time.hours 12) 60
                               "scheduled") (Some 30))) by (vm_compute; reflexivity).
    rewrite Eb in Hb. rewrite Eb' in Hb'. injection Hb as <-. injection Hb' as <-.
    split; [discriminate|]. vm_compute. split; discriminate.
  - apply Hupdate; [exact two_bookings_non_overlapping | | |].
    + intros value Hin. vm_compute in Hin.
      apply list_elem_of_singleton in Hin. discriminate Hin.
    + intros value Hin. vm_compute in Hin.
      apply list_elem_of_singleton in Hin. discriminate Hin.
    + intros id b Hid Hb Hcancelled.
      assert (E : Dict.get_int Examples.confirm "booking_id" = Some 2)
        by (vm_compute; reflexivity).
      rewrite E in Hid. injection Hid as <-.
      assert (Eb : bookings (Examples.fleet (Examples.ticking Examples.morning)
                               [Examples.north] Examples.two_bookings) !! 2
                   = Some (Examples.booked "ws_001" (Time.days 100 + Time.hours 12) 60
                             "scheduled")) by (vm_compute; reflexivity).
      rewrite Eb in Hb. injection Hb as <-. discriminate Hcancelled.
  - apply Hschedule; [apply single_booking_non_overlapping|].
    intros r b _ _ id b0 Hb0 _ _ Hunseen.
    change (Examples.at_eight !! id = Some b0) in Hb0. unfold Examples.at_eight in Hb0.
    apply lookup_singleton_Some in Hb0 as [<- <-].
    exfalso. destruct Hunseen as [Hinactive | (k & Hk & Hpast)].
    + apply Hinactive, list_elem_of_here.
    + assert (E : ticks (_schedule_booking Examples.critical_request
                           (Examples.fleet (Examples.ticking Examples.morning)
                              [Examples.south] Examples.at_eight)).2
                  = 4%nat) by (vm_compute; reflexivity).
      rewrite E in Hk. revert Hpast.
      unfold Examples.fleet, Examples.ticking, Examples.booked, Examples.morning.
      cbn [clock booking_slot].
      unfold Time.days, Time.hours, Time.minutes, Time.microseconds_per_day,
        Time.microseconds_per_hour, Time.microseconds_per_minute. lia.
  - vm_compute. reflexivity.
Defined.

End PlannerFacts.

(** ** The coordinator *)

Module CoordinatorFacts.

Import AgentCoordinator.

Lemma update_action_returns (action_id : Z) (f : AgentAction -> AgentAction) (w : World) :
  exists w', BaseAgent.update_action action_id f w = (inr tt, w').
Proof.
  unfold BaseAgent.update_action, bind, get_world.
  destruct (agent_actions w !! _); [destruct (1 <=? action_id)|]; eexists; reflexivity.
Qed.

Lemma log_action_returns (self : BaseAgent.t) (action_type : string)
    (vehicle_id : option Z) (data : Data) (status : string) (w : World) :
  exists action_id w',
    BaseAgent.log_action self action_type vehicle_id data status w = (inr action_id, w').
Proof. eexists. eexists. reflexivity. Qed.

(** [execute_with_logging] returns what [process] returns and raises
    what [process] raises. *)
Lemma execute_with_logging_outcome (self : BaseAgent.t) (action_type : string)
    (data : Data) (vehicle_id : option Z) (w : World) :
  exists w1 w2,
    match (BaseAgent.execute_with_logging self action_type data vehicle_id w).1 with
    | inr result => BaseAgent.process self data w1 = (inr result, w2)
    | inl e => BaseAgent.process self data w1 = (inl e, w2)
    end.
Proof.
  unfold BaseAgent.execute_with_logging.
  unfold bind at 1.
  destruct (log_action_returns self action_type vehicle_id data "processing" w)
    as (action_id & w1 & ->).
  unfold try_except, bind at 1.
  destruct (BaseAgent.process self data w1) as [[e|result] w2] eqn:Hrun;
    exists w1, w2; unfold bind.
  - destruct (negb (action_id =? 0)).
    + destruct (update_action_returns action_id
                  (BaseAgent.failed (exn_message e)) w2) as (w3 & ->).
      exact Hrun.
    + exact Hrun.
  - destruct (update_action_returns action_id (BaseAgent.completed result) w2)
      as (w3 & ->).
    exact Hrun.
Qed.

(** A call through [execute_with_logging] of an agent that always
    raises one exception, raises it. *)
Lemma execute_with_logging_raises (self : BaseAgent.t) (action_type : string)
    (data : Data) (vehicle_id : option Z) (w : World) (e : Exn) :
  (forall data w, exists w', BaseAgent.process self data w = (inl e, w')) ->
  exists w', BaseAgent.execute_with_logging self action_type data vehicle_id w = (inl e, w').
Proof.
  intros Hraises.
  destruct (execute_with_logging_outcome self action_type data vehicle_id w)
    as (w1 & w2 & Hrun).
  destruct (Hraises data w1) as (w3 & He).
  destruct (BaseAgent.execute_with_logging self action_type data vehicle_id w)
    as [[e'|result] w']; cbn [fst] in Hrun; [|congruence].
  exists w'. congruence.
Qed.

(** The pipeline after its first two stages returned. *)
Lemma process_vehicle_telemetry_after_health (self : t) (vehicle_id : Z)
    (telemetry_data : Telemetry) (w : World) (log_result health_result : AgentResult) :
  let logged :=
    log_call self vehicle_id telemetry_data (clock w (ticks w)) (Spec.advance 1 w) in
  let checked := health_call self vehicle_id telemetry_data logged.2 in
  logged.1 = inr log_result ->
  checked.1 = inr health_result ->
  process_vehicle_telemetry self vehicle_id telemetry_data w
  = (if 0 <? get_anomalies_detected health_result
     then booking_step self vehicle_id telemetry_data health_result
            (get_overall_severity health_result)
            (derive_priority (get_overall_severity health_result))
            [("logging", log_result); ("health_monitoring", health_result)]
     else complete vehicle_id
            [("logging", log_result); ("health_monitoring", health_result)]) checked.2.
Proof.
  cbv zeta. intros Hlog Hhealth. unfold process_vehicle_telemetry. cbv zeta.
  unfold bind at 1, utcnow at 1.
  change {| clock := clock w; ticks := S (ticks w); vehicles := vehicles w;
            workshops := workshops w; bookings := bookings w;
            vehicle_telemetry := vehicle_telemetry w;
            agent_actions := agent_actions w |} with (Spec.advance 1 w).
  unfold attempt at 1.
  destruct (log_call self vehicle_id telemetry_data (clock w (ticks w)) (Spec.advance 1 w))
    as [logged w1]. cbn [fst snd] in *. subst logged.
  unfold attempt at 1.
  destruct (health_call self vehicle_id telemetry_data w1) as [checked w2].
  cbn [fst snd] in *. subst checked. reflexivity.
Qed.

Lemma derive_priority_cases (severity : Q) :
  (derive_priority severity = "critical" <-> (0.8 <= severity)%Q)
  /\ (derive_priority severity = "high" <-> (0.6 <= severity)%Q /\ (severity < 0.8)%Q)
  /\ (derive_priority severity = "normal" <-> (severity < 0.6)%Q).
Proof.
  unfold derive_priority.
  destruct (Qle_bool 0.8 severity) eqn:E1; destruct (Qle_bool 0.6 severity) eqn:E2;
    try (apply Qle_bool_iff in E1); try (apply Qle_bool_iff in E2);
    try (apply not_true_iff_false in E1; rewrite Qle_bool_iff in E1);
    try (apply not_true_iff_false in E2; rewrite Qle_bool_iff in E2);
    repeat split; intros; try discriminate; try lra;
    try match goal with H : _ /\ _ |- _ => destruct H end; try lra.
Qed.

(** After the booking was stored under ["booking"], whatever the
    notifier does, the pipeline returns, and what it returns carries
    the results of the three stages. *)
Lemma alert_step_keeps_results (self : t) (vehicle_id : Z) (telemetry_data : Telemetry)
    (health_result : AgentResult) (severity : Q)
    (results : list (string * AgentResult)) (w : World) :
  exists r w',
    alert_step self vehicle_id telemetry_data health_result severity results w = (inr r, w')
    /\ results `prefix_of` stage_results r.
Proof.
  unfold alert_step.
  destruct (Qle_bool 0.6 severity).
  - unfold attempt.
    destruct (BaseAgent.execute_with_logging _ _ _ _ w) as [[e|alert_result] w1].
    + eexists. eexists. split; [reflexivity|]. cbn [stage_results]. reflexivity.
    + eexists. eexists. split; [reflexivity|]. cbn [stage_results].
      by apply prefix_app_r.
  - eexists. eexists. split; [reflexivity|]. cbn [stage_results]. reflexivity.
Qed.

Lemma confirmation_keeps_results (self : t) (vehicle_id : Z) (telemetry_data : Telemetry)
    (health_result : AgentResult) (severity : Q)
    (results : list (string * AgentResult)) (booking_result : AgentResult) (w : World) :
  exists r w',
    (if Py.truthyZ (get_booking_id booking_result)
     then
       attempt
         (BaseAgent.execute_with_logging (communicator self) "send_booking_confirmation"
            (confirmation_request (default 0 (get_booking_id booking_result)))
            (Some vehicle_id))
         (except vehicle_id (results ++ [("booking", booking_result)]))
         (fun comm_result =>
            alert_step self vehicle_id telemetry_data health_result severity
              ((results ++ [("booking", booking_result)])
               ++ [("booking_communication", comm_result)]))
     else
       alert_step self vehicle_id telemetry_data health_result severity
         (results ++ [("booking", booking_result)])) w
    = (inr r, w')
    /\ (results ++ [("booking", booking_result)]) `prefix_of` stage_results r.
Proof.
  destruct (Py.truthyZ (get_booking_id booking_result)).
  - unfold attempt.
    destruct (BaseAgent.execute_with_logging (communicator self)
                "send_booking_confirmation" _ _ w) as [[e|comm_result] w4].
    + eexists. eexists. split; [reflexivity|]. cbn [stage_results]. reflexivity.
    + destruct (alert_step_keeps_results self vehicle_id telemetry_data health_result
                  severity
                  ((results ++ [("booking", booking_result)])
                   ++ [("booking_communication", comm_result)]) w4)
        as (r & w' & Hrun & Hprefix).
      exists r, w'. split; [exact Hrun|].
      etrans; [|exact Hprefix]. by apply prefix_app_r.
  - apply alert_step_keeps_results.
Qed.

(** *** The code behind the test of step 3

    The two lemmas that follow read the branch of step 3 as it is
    written, for a coordinator whose health stage returns a count of
    anomalies.  With the health monitor that [__init__] creates, no
    run of the pipeline enters this branch: see the next section. *)

(** In the branch, the priority is critical from severity 0.8 on, high
    from 0.6 up to 0.8, and normal below; below 0.6 the pipeline
    completes with the logging and health results alone, and from 0.6
    on it calls the planner for a corrective booking with that
    priority and what the planner returns or raises shows in its
    result. *)
Lemma step_3_priority_and_booking (self : t) (vehicle_id : Z) (telemetry_data : Telemetry)
    (w : World) (log_result health_result : AgentResult)
    (first : Anomaly) (others : list Anomaly) :
  let logged :=
    log_call self vehicle_id telemetry_data (clock w (ticks w)) (Spec.advance 1 w) in
  let checked := health_call self vehicle_id telemetry_data logged.2 in
  logged.1 = inr log_result ->
  checked.1 = inr health_result ->
  0 < get_anomalies_detected health_result ->
  get_anomalies health_result = first :: others ->
  let severity := get_overall_severity health_result in
  let priority := derive_priority severity in
  let results := [("logging", log_result); ("health_monitoring", health_result)] in
  let booked :=
    BaseAgent.execute_with_logging (planner self) "schedule_booking"
      (booking_request vehicle_id priority (message first)
         (default 0.5%Q (BaseAgent.result_confidence health_result)))
      (Some vehicle_id) checked.2 in
  (priority = "critical" <-> (0.8 <= severity)%Q)
  /\ (priority = "high" <-> (0.6 <= severity)%Q /\ (severity < 0.8)%Q)
  /\ (priority = "normal" <-> (severity < 0.6)%Q)
  /\ ((severity < 0.6)%Q ->
      process_vehicle_telemetry self vehicle_id telemetry_data w
      = complete vehicle_id results checked.2)
  /\ ((0.6 <= severity)%Q ->
      match booked.1 with
      | inl e =>
          process_vehicle_telemetry self vehicle_id telemetry_data w
          = except vehicle_id results e booked.2
      | inr booking_result =>
          exists r w',
            process_vehicle_telemetry self vehicle_id telemetry_data w = (inr r, w')
            /\ (results ++ [("booking", booking_result)]) `prefix_of` stage_results r
      end).
Proof.
  intros logged checked Hlog Hhealth Hdetected Hanomalies severity priority results booked.
  destruct (derive_priority_cases severity) as (Hc & Hh & Hn).
  split; [exact Hc|]. split; [exact Hh|]. split; [exact Hn|].
  rewrite (process_vehicle_telemetry_after_health _ _ _ _ _ _ Hlog Hhealth).
  fold logged. fold checked.
  apply Z.ltb_lt in Hdetected. rewrite Hdetected.
  fold severity priority results.
  split.
  - intros Hlow.
    assert (E : Qle_bool 0.6 severity = false).
    { apply not_true_iff_false. rewrite Qle_bool_iff. lra. }
    unfold booking_step. rewrite E. unfold alert_step. rewrite E. reflexivity.
  - intros Hhigh. apply Qle_bool_iff in Hhigh.
    assert (Hcall : schedule_call self vehicle_id health_result priority checked.2
                    = booked).
    { unfold schedule_call, first_message, bind at 1.
      destruct health_result; try discriminate Hanomalies.
      cbn [get_anomalies] in Hanomalies. rewrite Hanomalies. reflexivity. }
    assert (Hstep : booking_step self vehicle_id telemetry_data health_result severity
                      priority results checked.2
                    = match schedule_call self vehicle_id health_result priority
                              checked.2 with
                      | (inr booking_result, w3) =>
                          (if Py.truthyZ (get_booking_id booking_result)
                           then
                             attempt
                               (BaseAgent.execute_with_logging (communicator self)
                                  "send_booking_confirmation"
                                  (confirmation_request
                                     (default 0 (get_booking_id booking_result)))
                                  (Some vehicle_id))
                               (except vehicle_id (results ++ [("booking", booking_result)]))
                               (fun comm_result =>
                                  alert_step self vehicle_id telemetry_data health_result
                                    severity
                                    ((results ++ [("booking", booking_result)])
                                     ++ [("booking_communication", comm_result)]))
                           else
                             alert_step self vehicle_id telemetry_data health_result
                               severity (results ++ [("booking", booking_result)])) w3
                      | (inl e, w3) => except vehicle_id results e w3
                      end).
    { unfold booking_step. rewrite Hhigh. reflexivity. }
    rewrite Hstep, Hcall.
    destruct booked as [[e|booking_result] w3]; cbn [fst snd]; [reflexivity|].
    apply confirmation_keeps_results.
Qed.

(** In the branch, one [try] block holds all the stages: when the
    booking stage has returned for a severity of 0.6 or more and every
    call of the notifier raises, the handler of the block returns
    [workflow_completed = False] with the message of the notifier's
    exception and, as partial results, the results of the three
    stages, the booking among them. *)
Lemma step_3_notifier_failure
    (self : t) (vehicle_id : Z) (telemetry_data : Telemetry)
    (w : World) (log_result health_result booking_result : AgentResult)
    (first : Anomaly) (others : list Anomaly) (e : Exn) :
  let logged :=
    log_call self vehicle_id telemetry_data (clock w (ticks w)) (Spec.advance 1 w) in
  let checked := health_call self vehicle_id telemetry_data logged.2 in
  let booked :=
    BaseAgent.execute_with_logging (planner self) "schedule_booking"
      (booking_request vehicle_id (derive_priority (get_overall_severity health_result))
         (message first) (default 0.5%Q (BaseAgent.result_confidence health_result)))
      (Some vehicle_id) checked.2 in
  logged.1 = inr log_result ->
  checked.1 = inr health_result ->
  0 < get_anomalies_detected health_result ->
  get_anomalies health_result = first :: others ->
  (0.6 <= get_overall_severity health_result)%Q ->
  booked.1 = inr booking_result ->
  (forall data w, exists w', BaseAgent.process (communicator self) data w = (inl e, w')) ->
  exists (timestamp : Z) (w' : World),
    process_vehicle_telemetry self vehicle_id telemetry_data w
    = (inr (Failed vehicle_id (exn_message e)
              [("logging", log_result); ("health_monitoring", health_result);
               ("booking", booking_result)]
              timestamp), w')
    /\ workflow_completed
         (Failed vehicle_id (exn_message e)
            [("logging", log_result); ("health_monitoring", health_result);
             ("booking", booking_result)]
            timestamp) = false.
Proof.
  intros logged checked booked Hlog Hhealth Hdetected Hanomalies Hsevere Hbooking Hdown.
  rewrite (process_vehicle_telemetry_after_health _ _ _ _ _ _ Hlog Hhealth).
  fold logged. fold checked.
  apply Z.ltb_lt in Hdetected. rewrite Hdetected.
  apply Qle_bool_iff in Hsevere.
  assert (Hcall : schedule_call self vehicle_id health_result
                    (derive_priority (get_overall_severity health_result)) checked.2
                  = booked).
  { unfold schedule_call, first_message, bind at 1.
    destruct health_result; try discriminate Hanomalies.
    cbn [get_anomalies] in Hanomalies. rewrite Hanomalies. reflexivity. }
  unfold booking_step. rewrite Hsevere. unfold attempt at 1. rewrite Hcall.
  destruct booked as [booked_result w3]. cbn [fst] in Hbooking. subst booked_result.
  destruct (Py.truthyZ (get_booking_id booking_result)).
  - unfold attempt.
    destruct (execute_with_logging_raises (communicator self) "send_booking_confirmation"
                (confirmation_request (default 0 (get_booking_id booking_result)))
                (Some vehicle_id) w3 e Hdown) as (w4 & ->).
    eexists. eexists. split; reflexivity.
  - unfold alert_step. rewrite Hsevere. unfold attempt.
    destruct (execute_with_logging_raises (communicator self) "send_alert"
                (alert_request vehicle_id telemetry_data health_result
                   (get_overall_severity health_result))
                (Some vehicle_id) w3 e Hdown) as (w4 & ->).
    eexists. eexists. split; reflexivity.
Qed.

(** *** The agents as shipped *)

(** The request of the health stage has no ["action"] entry, so the
    health monitor runs its default operation, the health check. *)
Lemma health_request_runs_health_check
    (perform_health_check predict_maintenance_needs : option Z -> M HealthMonitorAgent.Outcome)
    (vehicle_id : Z) (telemetry_data : Telemetry) (w : World) :
  BaseAgent.process (HealthMonitor perform_health_check predict_maintenance_needs)
    (health_request vehicle_id telemetry_data) w
  = (o <- perform_health_check (Some vehicle_id) ;;
     ret (HealthMonitorAgent.outcome_result "health_check" o)) w.
Proof.
  cbn [BaseAgent.process HealthMonitor]. unfold HealthMonitorAgent.process.
  assert (Haction : Dict.get_str (health_request vehicle_id telemetry_data) "action" = None).
  { unfold Dict.get_str, health_request.
    rewrite lookup_insert_ne by discriminate.
    rewrite lookup_singleton_ne by discriminate. reflexivity. }
  assert (Hid : Dict.get_int (health_request vehicle_id telemetry_data) "vehicle_id"
                = Some vehicle_id).
  { unfold Dict.get_int, health_request. rewrite lookup_insert_eq. reflexivity. }
  rewrite Haction, Hid. reflexivity.
Qed.

(** With the health monitor as [__init__] creates it, no reading
    gets further than the health stage: whatever the telemetry, the
    pipeline returns with results of the logging and health stages at
    most, and no booking is made by it. *)
Lemma shipped_pipeline_stops_after_health_check
    (self : t)
    (perform_health_check predict_maintenance_needs : option Z -> M HealthMonitorAgent.Outcome)
    (vehicle_id : Z) (telemetry_data : Telemetry) (w : World) :
  health_monitor self = HealthMonitor perform_health_check predict_maintenance_needs ->
  exists r w',
    process_vehicle_telemetry self vehicle_id telemetry_data w = (inr r, w')
    /\ forall key result, (key, result) ∈ stage_results r ->
         key = "logging" \/ key = "health_monitoring".
Proof.
  intros Hmonitor. unfold process_vehicle_telemetry. cbv zeta.
  unfold bind at 1, utcnow at 1. unfold attempt at 1.
  destruct (log_call self vehicle_id telemetry_data _ _) as [[e|log_result] w1].
  { eexists. eexists. split; [reflexivity|]. intros key result Hin. inversion Hin. }
  unfold attempt at 1. unfold health_call.
  pose proof (execute_with_logging_outcome (health_monitor self) "anomaly_detection"
                (health_request vehicle_id telemetry_data) (Some vehicle_id) w1)
    as (wa & wb & Hrun).
  destruct (BaseAgent.execute_with_logging (health_monitor self) _ _ _ w1)
    as [[e|health_result] w2]; cbn [fst] in Hrun.
  { eexists. eexists. split; [reflexivity|]. intros key result Hin.
    cbn [stage_results] in Hin. apply list_elem_of_singleton in Hin as [= -> _]. by left. }
  rewrite Hmonitor, health_request_runs_health_check in Hrun. unfold bind in Hrun.
  destruct (perform_health_check (Some vehicle_id) wa) as [[e|o] wc];
    [discriminate Hrun|].
  injection Hrun as <- _.
  assert (Hnone : get_anomalies_detected (HealthMonitorAgent.outcome_result "health_check" o)
                  = 0) by (destruct o; reflexivity).
  rewrite Hnone. cbn [Z.ltb Z.compare].
  eexists. eexists. split; [reflexivity|]. intros key result Hin.
  cbn [stage_results] in Hin.
  apply elem_of_cons in Hin as [[= -> _] | Hin]; [by left|].
  apply list_elem_of_singleton in Hin as [= -> _]. by right.
Qed.

(** The result of the health stage is the answer of the health check. *)
Lemma health_stage_is_the_health_check
    (self : t)
    (perform_health_check predict_maintenance_needs : option Z -> M HealthMonitorAgent.Outcome)
    (vehicle_id : Z) (telemetry_data : Telemetry) (w : World) (health_result : AgentResult) :
  health_monitor self = HealthMonitor perform_health_check predict_maintenance_needs ->
  (health_call self vehicle_id telemetry_data w).1 = inr health_result ->
  exists o, health_result = HealthMonitorAgent.outcome_result "health_check" o.
Proof.
  intros Hmonitor Hhealth. unfold health_call in Hhealth.
  pose proof (execute_with_logging_outcome (health_monitor self) "anomaly_detection"
                (health_request vehicle_id telemetry_data) (Some vehicle_id) w)
    as (wa & wb & Hrun).
  rewrite Hhealth in Hrun.
  rewrite Hmonitor, health_request_runs_health_check in Hrun. unfold bind in Hrun.
  destruct (perform_health_check (Some vehicle_id) wa) as [[e|o] wc];
    [discriminate Hrun|].
  injection Hrun as <- _. by exists o.
Qed.

(** The run of the pipeline once its first two stages have returned. *)
Lemma shipped_pipeline_run
    (self : t)
    (perform_health_check predict_maintenance_needs : option Z -> M HealthMonitorAgent.Outcome)
    (vehicle_id : Z) (telemetry_data : Telemetry) (w : World)
    (log_result health_result : AgentResult) :
  let logged :=
    log_call self vehicle_id telemetry_data (clock w (ticks w)) (Spec.advance 1 w) in
  let checked := health_call self vehicle_id telemetry_data logged.2 in
  health_monitor self = HealthMonitor perform_health_check predict_maintenance_needs ->
  logged.1 = inr log_result ->
  checked.1 = inr health_result ->
  process_vehicle_telemetry self vehicle_id telemetry_data w
  = (inr (Completed vehicle_id ["logging"; "health_monitoring"]
            [("logging", log_result); ("health_monitoring", health_result)]
            (clock checked.2 (ticks checked.2))),
     Spec.advance 1 checked.2).
Proof.
  intros logged checked Hmonitor Hlog Hhealth.
  rewrite (process_vehicle_telemetry_after_health _ _ _ _ _ _ Hlog Hhealth).
  fold logged. fold checked.
  destruct (health_stage_is_the_health_check self _ _ vehicle_id telemetry_data logged.2
              health_result Hmonitor Hhealth) as (o & ->).
  assert (Hnone : get_anomalies_detected
                    (HealthMonitorAgent.outcome_result "health_check" o) = 0)
    by (destruct o; reflexivity).
  rewrite Hnone. reflexivity.
Qed.

(** The planner and the notifier have no part in the run. *)
Lemma shipped_pipeline_ignores_planner_and_notifier
    (self self' : t)
    (perform_health_check predict_maintenance_needs : option Z -> M HealthMonitorAgent.Outcome)
    (vehicle_id : Z) (telemetry_data : Telemetry) (w : World) :
  health_monitor self = HealthMonitor perform_health_check predict_maintenance_needs ->
  health_monitor self' = health_monitor self ->
  logger_agent self' = logger_agent self ->
  process_vehicle_telemetry self' vehicle_id telemetry_data w
  = process_vehicle_telemetry self vehicle_id telemetry_data w.
Proof.
  intros Hmonitor Hmonitor' Hlogger'.
  unfold process_vehicle_telemetry. cbv zeta.
  unfold log_call, health_call. rewrite Hmonitor', Hlogger'.
  unfold bind, utcnow, attempt.
  destruct (BaseAgent.execute_with_logging (logger_agent self) _ _ _ _)
    as [[e|log_result] w1]; [reflexivity|].
  pose proof (health_stage_is_the_health_check self perform_health_check
                predict_maintenance_needs vehicle_id telemetry_data w1) as Hcheck.
  unfold health_call in Hcheck.
  destruct (BaseAgent.execute_with_logging (health_monitor self) _ _ _ w1)
    as [[e|health_result] w2]; [reflexivity|].
  destruct (Hcheck health_result Hmonitor eq_refl) as (o & ->).
  assert (Hnone : get_anomalies_detected
                    (HealthMonitorAgent.outcome_result "health_check" o) = 0)
    by (destruct o; reflexivity).
  rewrite Hnone. reflexivity.
Qed.

(** C6.  The pipeline does not do what the claim says, by a slip in
    the request of its health stage.  The request names no action, so
    the health monitor that [__init__] creates answers it with the
    health check, not with anomaly detection.  Whatever the reading,
    the health result of the pipeline is no anomaly report: it counts
    no anomaly and has severity 0.  The test of step 3 fails, no
    priority is derived and the planner is not called: the pipeline
    completes with the logging and health results alone, in the state
    the health stage left, one clock reading later, and the run is the
    same under any other planner and notifier. *)
Theorem booking_gate_is_not_reached
    (self : t)
    (perform_health_check predict_maintenance_needs : option Z -> M HealthMonitorAgent.Outcome)
    (vehicle_id : Z) (telemetry_data : Telemetry) (w : World)
    (log_result health_result : AgentResult) :
  let logged :=
    log_call self vehicle_id telemetry_data (clock w (ticks w)) (Spec.advance 1 w) in
  let checked := health_call self vehicle_id telemetry_data logged.2 in
  health_monitor self = HealthMonitor perform_health_check predict_maintenance_needs ->
  logged.1 = inr log_result ->
  checked.1 = inr health_result ->
  (forall report, health_result <> RAnomalyReport report)
  /\ get_anomalies_detected health_result = 0
  /\ get_overall_severity health_result = 0%Q
  /\ process_vehicle_telemetry self vehicle_id telemetry_data w
     = (inr (Completed vehicle_id ["logging"; "health_monitoring"]
               [("logging", log_result); ("health_monitoring", health_result)]
               (clock checked.2 (ticks checked.2))),
        Spec.advance 1 checked.2)
  /\ (forall self' : t,
        health_monitor self' = health_monitor self ->
        logger_agent self' = logger_agent self ->
        process_vehicle_telemetry self' vehicle_id telemetry_data w
        = process_vehicle_telemetry self vehicle_id telemetry_data w).
Proof.
  intros logged checked Hmonitor Hlog Hhealth.
  destruct (health_stage_is_the_health_check self _ _ vehicle_id telemetry_data logged.2
              health_result Hmonitor Hhealth) as (o & Ho).
  split; [by intros report ->; destruct o|].
  split; [by rewrite Ho; destruct o|].
  split; [by rewrite Ho; destruct o|].
  split.
  - exact (shipped_pipeline_run self _ _ vehicle_id telemetry_data w log_result
             health_result Hmonitor Hlog Hhealth).
  - intros self' Hmonitor' Hlogger'.
    exact (shipped_pipeline_ignores_planner_and_notifier self self' _ _ vehicle_id
             telemetry_data w Hmonitor Hmonitor' Hlogger').
Qed.

Lemma booking_gate_is_not_reached_witness :
  exists (report : AnomalyReport) (log_result health_result : AgentResult)
         (timestamp : Z) (w' : World),
    (HealthMonitorAgent._detect_anomalies HealthMonitorAgent.__init__
       (health_request 1 Examples.hot_and_worn) Examples.depot).1 = inr report
    /\ anomalies_detected report = 2
    /\ overall_severity report = 1.0%Q
    /\ derive_priority (overall_severity report) = "critical"
    /\ process_vehicle_telemetry Examples.shipped 1 Examples.hot_and_worn Examples.depot
       = (inr (Completed 1 ["logging"; "health_monitoring"]
                 [("logging", log_result); ("health_monitoring", health_result)]
                 timestamp), w')
    /\ get_anomalies_detected health_result = 0
    /\ bookings w' = ∅.
Proof.
  eassert (Hlog : (log_call Examples.shipped 1 Examples.hot_and_worn
                     (clock Examples.depot (ticks Examples.depot))
                     (Spec.advance 1 Examples.depot)).1 = inr _)
    by (vm_compute; reflexivity).
  eassert (Hhealth : (health_call Examples.shipped 1 Examples.hot_and_worn
                        (log_call Examples.shipped 1 Examples.hot_and_worn
                           (clock Examples.depot (ticks Examples.depot))
                           (Spec.advance 1 Examples.depot)).2).1 = inr _)
    by (vm_compute; reflexivity).
  destruct (booking_gate_is_not_reached Examples.shipped _ _ 1 Examples.hot_and_worn
              Examples.depot _ _ eq_refl Hlog Hhealth)
    as (_ & Hnone & _ & Hrun & _).
  eexists. eexists. eexists. eexists. eexists.
  split; [vm_compute; reflexivity|].
  split; [reflexivity|]. split; [reflexivity|]. split; [reflexivity|].
  split; [exact Hrun|]. split; [exact Hnone|].
  vm_compute. reflexivity.
Defined.

(** C1.  The pipeline does not do what the claim says, by the same
    slip: the request of its health stage names no action, so the
    health monitor that [__init__] creates answers it with the health
    check.  With a notifier every call of which raises, and whatever
    the reading, once the logging and health stages have returned the
    pipeline returns [workflow_completed = True] with the results of
    these two stages alone.  The result carries no booking and records
    no failure: neither planner nor notifier is called, and the
    bookings are as the health stage left them. *)
Theorem severe_reading_is_not_booked
    (self : t)
    (perform_health_check predict_maintenance_needs : option Z -> M HealthMonitorAgent.Outcome)
    (vehicle_id : Z) (telemetry_data : Telemetry) (w : World)
    (log_result health_result : AgentResult) (e : Exn) :
  let logged :=
    log_call self vehicle_id telemetry_data (clock w (ticks w)) (Spec.advance 1 w) in
  let checked := health_call self vehicle_id telemetry_data logged.2 in
  health_monitor self = HealthMonitor perform_health_check predict_maintenance_needs ->
  (forall data w0, exists w1,
      BaseAgent.process (communicator self) data w0 = (inl e, w1)) ->
  logged.1 = inr log_result ->
  checked.1 = inr health_result ->
  exists (r : PipelineResult) (w' : World),
    process_vehicle_telemetry self vehicle_id telemetry_data w = (inr r, w')
    /\ workflow_completed r = true
    /\ stage_results r = [("logging", log_result); ("health_monitoring", health_result)]
    /\ (forall key result, (key, result) ∈ stage_results r ->
          key ∉ ["booking"; "booking_communication"; "alert_communication"])
    /\ bookings w' = bookings checked.2
    /\ agent_actions w' = agent_actions checked.2.
Proof.
  intros logged checked Hmonitor Hdown Hlog Hhealth.
  pose proof (shipped_pipeline_run self _ _ vehicle_id telemetry_data w log_result
                health_result Hmonitor Hlog Hhealth) as Hrun.
  cbv zeta in Hrun. fold logged in Hrun. fold checked in Hrun.
  eexists. eexists. split; [exact Hrun|].
  split; [reflexivity|]. split; [reflexivity|].
  split; [|split; reflexivity].
  intros key result Hin. cbn [stage_results] in Hin.
  apply elem_of_cons in Hin as [[= -> _] | Hin];
    [|apply list_elem_of_singleton in Hin as [= -> _]];
    intros Hkey;
    repeat (apply elem_of_cons in Hkey as [Hkey|Hkey]; [discriminate Hkey|]);
    inversion Hkey.
Qed.

Lemma severe_reading_is_not_booked_witness :
  exists (report : AnomalyReport) (booking : BookingResult)
         (r : PipelineResult) (w' : World),
    (HealthMonitorAgent._detect_anomalies HealthMonitorAgent.__init__
       (health_request 1 Examples.hot_and_worn) Examples.depot).1 = inr report
    /\ overall_severity report = 1.0%Q
    /\ (BaseAgent.process (planner Examples.shipped_notifier_down)
          (<["action" := VScalar (SStr "schedule_booking")]>
             (booking_request 1 "critical" "" 0.5%Q)) Examples.depot).1
       = inr (RBooking booking)
    /\ process_vehicle_telemetry Examples.shipped_notifier_down 1 Examples.hot_and_worn
         Examples.depot = (inr r, w')
    /\ workflow_completed r = true
    /\ (stage_results r).*1 = ["logging"; "health_monitoring"]
    /\ bookings w' = ∅.
Proof.
  eassert (Hlog : (log_call Examples.shipped_notifier_down 1 Examples.hot_and_worn
                     (clock Examples.depot (ticks Examples.depot))
                     (Spec.advance 1 Examples.depot)).1 = inr _)
    by (vm_compute; reflexivity).
  eassert (Hhealth : (health_call Examples.shipped_notifier_down 1 Examples.hot_and_worn
                        (log_call Examples.shipped_notifier_down 1 Examples.hot_and_worn
                           (clock Examples.depot (ticks Examples.depot))
                           (Spec.advance 1 Examples.depot)).2).1 = inr _)
    by (vm_compute; reflexivity).
  destruct (severe_reading_is_not_booked Examples.shipped_notifier_down _ _ 1
              Examples.hot_and_worn Examples.depot _ _
              (CollaboratorError "notification service unavailable")
              eq_refl ltac:(intros data w0; eexists; reflexivity) Hlog Hhealth)
    as (r & w' & Hrun & Hcompleted & Hresults & _ & Hbookings & _).
  eexists. eexists. exists r, w'.
  split; [vm_compute; reflexivity|]. split; [reflexivity|].
  split; [vm_compute; reflexivity|].
  split; [exact Hrun|]. split; [exact Hcompleted|].
  split; [by rewrite Hresults|].
  rewrite Hbookings. vm_compute. reflexivity.
Defined.

End CoordinatorFacts.

(** ** Sorting *)

Lemma insort_Permutation {A K : Type} (lt : K -> K -> bool) (key : A -> K) (x : A)
    (l : list A) :
  Py.insort lt key x l ≡ₚ x :: l.
Proof.
  induction l as [|y l IH]; cbn [Py.insort]; [reflexivity|].
  destruct (lt (key y) (key x)); [|reflexivity].
  rewrite IH. apply Permutation_swap.
Qed.

Lemma sorted_Permutation {A K : Type} (lt : K -> K -> bool) (key : A -> K) (l : list A) :
  Py.sorted lt key l ≡ₚ l.
Proof.
  unfold Py.sorted. induction l as [|x l IH]; cbn [foldr]; [reflexivity|].
  rewrite insort_Permutation, IH. reflexivity.
Qed.

(** When [<] on the keys is asymmetric and its negation transitive,
    no element of the sorted list has a key smaller than one before
    it. *)
Lemma sorted_StronglySorted {A K : Type} (lt : K -> K -> bool) (key : A -> K)
    (l : list A) :
  (forall a b : K, lt a b = true -> lt b a = false) ->
  (forall a b c : K, lt b a = false -> lt c b = false -> lt c a = false) ->
  StronglySorted (fun a b => lt (key b) (key a) = false) (Py.sorted lt key l).
Proof.
  intros Hasym Htrans. unfold Py.sorted.
  induction l as [|x l IH]; cbn [foldr]; [constructor|].
  set (s := foldr (Py.insort lt key) [] l) in *. clearbody s.
  induction s as [|y s IHs]; cbn [Py.insort].
  - repeat constructor.
  - apply StronglySorted_inv in IH as [Hs Hy].
    destruct (lt (key y) (key x)) eqn:E.
    + constructor; [apply IHs, Hs|].
      rewrite insort_Permutation. constructor; [apply Hasym, E | exact Hy].
    + constructor; [constructor; assumption|].
      constructor; [exact E|].
      eapply Forall_impl; [exact Hy|]. intros z Hz. cbn beta in Hz |- *.
      eapply Htrans; [exact E | exact Hz].
Qed.

Lemma StronglySorted_lookup {A : Type} (R : A -> A -> Prop) (l : list A) :
  StronglySorted R l ->
  forall (i j : nat) (a b : A), (i < j)%nat -> l !! i = Some a -> l !! j = Some b -> R a b.
Proof.
  induction 1 as [|x l Hl IH Hx]; intros i j a b Hij Ha Hb; [inversion Ha|].
  destruct j as [|j]; [lia|]. cbn in Hb.
  destruct i as [|i]; cbn in Ha.
  - injection Ha as <-. rewrite Forall_forall in Hx. apply Hx.
    eapply list_elem_of_lookup_2, Hb.
  - eapply IH; [|exact Ha|exact Hb]. lia.
Qed.

Lemma StronglySorted_weaken {A : Type} (R R' : A -> A -> Prop) (l : list A) :
  (forall a b, R a b -> R' a b) -> StronglySorted R l -> StronglySorted R' l.
Proof.
  intros HR. induction 1 as [|x l Hl IH Hx]; constructor; [exact IH|].
  eapply Forall_impl; [exact Hx|]. intros b. apply HR.
Qed.

(** A list that is in order is left as it is, and only such a list. *)
Lemma sorted_fixpoint (l : list Z) :
  Py.sorted Z.ltb id l = l <-> StronglySorted Z.le l.
Proof.
  split.
  - intros H. rewrite <- H.
    eapply StronglySorted_weaken; [|apply (sorted_StronglySorted Z.ltb id)].
    + intros a b Hab. unfold id in Hab. lia.
    + intros a b Hab. lia.
    + intros a b c H1 H2. lia.
  - induction 1 as [|x l Hl IH Hx]; [reflexivity|].
    unfold Py.sorted in *. cbn [foldr]. rewrite IH.
    destruct l as [|y l]; [reflexivity|]. cbn [Py.insort]. unfold id.
    apply Forall_cons in Hx as [Hxy _].
    destruct (y <? x) eqn:E; [lia | reflexivity].
Qed.

(** ** The health check and the predictive analysis *)

Module HealthCheckFacts.

Import HealthMonitorAgent HealthCheck.

(** *** Status of a metric *)

(** The status of a metric value and the anomaly detected on it
    agree: the status is the severity of the anomaly when there is
    one; without anomaly it is "good", or "unknown" for a metric with
    no threshold configured. *)
Theorem metric_status_agrees_with_anomaly (self : t) (metric : string) (value : Q) :
  _get_metric_status self metric value
  = match _check_metric_anomaly self metric value with
    | Some anomaly => severity anomaly
    | None =>
        if negb (Py.truthy (anomaly_thresholds self !! (metric +:+ "_critical")))
           && negb (Py.truthy (anomaly_thresholds self !! (metric +:+ "_warning")))
        then "unknown"
        else "good"
    end.
Proof.
  unfold _get_metric_status, _check_metric_anomaly.
  destruct (negb (Py.truthy (anomaly_thresholds self !! (metric +:+ "_critical")))
            && negb (Py.truthy (anomaly_thresholds self !! (metric +:+ "_warning"))));
    [reflexivity|].
  destruct (lower_is_worse metric).
  - destruct (breached (anomaly_thresholds self !! (metric +:+ "_critical")) _);
      [reflexivity|].
    destruct (breached (anomaly_thresholds self !! (metric +:+ "_warning")) _); reflexivity.
  - destruct (breached (anomaly_thresholds self !! (metric +:+ "_critical")) _);
      [reflexivity|].
    destruct (breached (anomaly_thresholds self !! (metric +:+ "_warning")) _); reflexivity.
Qed.

(** *** The vehicle status *)

Lemma determine_vehicle_status_cases (health_metrics : list (string * HealthMetric))
    (trends : Trends) :
  let status := (_determine_vehicle_status health_metrics trends).1 in
  let some s := exists entry, entry ∈ health_metrics /\ hm_status entry.2 = s in
  (status = "critical" <-> some "critical")
  /\ (status = "warning" <-> ~ some "critical" /\ some "warning")
  /\ (status = "operational" <-> ~ some "critical" /\ ~ some "warning").
Proof.
  cbv zeta. unfold _determine_vehicle_status.
  assert (Hin : forall s, s ∈ (fun entry : string * HealthMetric => hm_status entry.2)
                                <$> health_metrics
                          <-> exists entry, entry ∈ health_metrics /\ hm_status entry.2 = s).
  { intros s. rewrite list_elem_of_fmap. split; intros (e & H1 & H2); exists e; auto. }
  repeat case_bool_decide; cbn [fst]; rewrite <- !Hin;
    repeat split; try tauto; try discriminate; intros; tauto.
Qed.

Lemma default_status_lower (metric : string) (c w value : Q) :
  lower_is_worse metric = true ->
  anomaly_thresholds __init__ !! (metric +:+ "_critical") = Some c ->
  anomaly_thresholds __init__ !! (metric +:+ "_warning") = Some w ->
  ~ (c == 0)%Q -> ~ (w == 0)%Q ->
  _get_metric_status __init__ metric value
  = if Py.Qltb value c then "critical" else if Py.Qltb value w then "warning" else "good".
Proof.
  intros Hlow Hc Hw Hc0 Hw0. unfold _get_metric_status. rewrite Hc, Hw, Hlow.
  unfold breached. rewrite !truthy_Some by assumption. cbn [negb andb].
  destruct (Py.Qltb value c); [reflexivity|]. destruct (Py.Qltb value w); reflexivity.
Qed.

Lemma default_status_higher (metric : string) (c w value : Q) :
  lower_is_worse metric = false ->
  anomaly_thresholds __init__ !! (metric +:+ "_critical") = Some c ->
  anomaly_thresholds __init__ !! (metric +:+ "_warning") = Some w ->
  ~ (c == 0)%Q -> ~ (w == 0)%Q ->
  _get_metric_status __init__ metric value
  = if Py.Qltb c value then "critical" else if Py.Qltb w value then "warning" else "good".
Proof.
  intros Hlow Hc Hw Hc0 Hw0. unfold _get_metric_status. rewrite Hc, Hw, Hlow.
  unfold breached. rewrite !truthy_Some by assumption. cbn [negb andb].
  destruct (Py.Qltb c value); [reflexivity|]. destruct (Py.Qltb w value); reflexivity.
Qed.

Lemma status_of_battery_soh (value : Q) :
  _get_metric_status __init__ "battery_soh" value
  = if Py.Qltb value 70 then "critical" else if Py.Qltb value 80 then "warning" else "good".
Proof. apply default_status_lower; try (vm_compute; reflexivity); discriminate. Qed.

Lemma status_of_motor_efficiency (value : Q) :
  _get_metric_status __init__ "motor_efficiency" value
  = if Py.Qltb value 75 then "critical" else if Py.Qltb value 80 then "warning" else "good".
Proof. apply default_status_lower; try (vm_compute; reflexivity); discriminate. Qed.

Lemma status_of_coolant_level (value : Q) :
  _get_metric_status __init__ "coolant_level" value
  = if Py.Qltb value 20 then "critical" else if Py.Qltb value 30 then "warning" else "good".
Proof. apply default_status_lower; try (vm_compute; reflexivity); discriminate. Qed.

Lemma status_of_battery_temp (value : Q) :
  _get_metric_status __init__ "battery_temp" value
  = if Py.Qltb 45 value then "critical" else if Py.Qltb 40 value then "warning" else "good".
Proof. apply default_status_higher; try (vm_compute; reflexivity); discriminate. Qed.

Lemma status_below (value c w : Q) (s : string) :
  (c <= w)%Q ->
  ((if Py.Qltb value c then "critical" else if Py.Qltb value w then "warning" else "good")
   = "critical" <-> (value < c)%Q)
  /\ ((if Py.Qltb value c then "critical" else if Py.Qltb value w then "warning" else "good")
      = "warning" <-> (c <= value)%Q /\ (value < w)%Q).
Proof.
  intros Hcw.
  destruct (Py.Qltb value c) eqn:Ec; [apply Qltb_true in Ec | apply Qltb_false in Ec];
    (destruct (Py.Qltb value w) eqn:Ew; [apply Qltb_true in Ew | apply Qltb_false in Ew]);
    repeat split; intros; try discriminate; try reflexivity; try lra.
Qed.

Lemma status_above (value c w : Q) (s : string) :
  (w <= c)%Q ->
  ((if Py.Qltb c value then "critical" else if Py.Qltb w value then "warning" else "good")
   = "critical" <-> (c < value)%Q)
  /\ ((if Py.Qltb c value then "critical" else if Py.Qltb w value then "warning" else "good")
      = "warning" <-> (value <= c)%Q /\ (w < value)%Q).
Proof.
  intros Hcw.
  destruct (Py.Qltb c value) eqn:Ec; [apply Qltb_true in Ec | apply Qltb_false in Ec];
    (destruct (Py.Qltb w value) eqn:Ew; [apply Qltb_true in Ew | apply Qltb_false in Ew]);
    repeat split; intros; try discriminate; try reflexivity; try lra.
Qed.

Lemma analyze_health_metrics_statuses (telemetry : TelemetryRow) (s : string) :
  (exists entry, entry ∈ _analyze_health_metrics __init__ telemetry /\ hm_status entry.2 = s)
  <-> (exists v, battery_soh telemetry = Some v
                 /\ _get_metric_status __init__ "battery_soh" v = s)
      \/ (exists v, battery_temp telemetry = Some v
                    /\ _get_metric_status __init__ "battery_temp" v = s)
      \/ (exists v, motor_efficiency telemetry = Some v
                    /\ _get_metric_status __init__ "motor_efficiency" v = s)
      \/ (exists v, coolant_level telemetry = Some v
                    /\ _get_metric_status __init__ "coolant_level" v = s).
Proof.
  unfold _analyze_health_metrics. split.
  - intros (entry & Hin & Hs).
    repeat rewrite elem_of_app in Hin.
    destruct Hin as [Hin | [Hin | [Hin | Hin]]];
      [ destruct (battery_soh telemetry) as [v|] eqn:E
      | destruct (battery_temp telemetry) as [v|] eqn:E
      | destruct (motor_efficiency telemetry) as [v|] eqn:E
      | destruct (coolant_level telemetry) as [v|] eqn:E ];
      cbn [health_metric] in Hin; try (inversion Hin; fail);
      apply list_elem_of_singleton in Hin; subst entry; cbn [snd hm_status] in Hs;
      [ left | right; left | right; right; left | right; right; right ];
      exists v; split; auto.
  - intros [(v & E & Hs) | [(v & E & Hs) | [(v & E & Hs) | (v & E & Hs)]]];
      rewrite E; cbn [health_metric]; eexists; repeat rewrite elem_of_app.
    + split; [left; apply list_elem_of_here | exact Hs].
    + split; [right; left; apply list_elem_of_here | exact Hs].
    + split; [right; right; left; apply list_elem_of_here | exact Hs].
    + split; [right; right; right; apply list_elem_of_here | exact Hs].
Qed.

Lemma reading_below (reading : option Q) (status : Q -> string) (c w : Q) :
  (forall v, (status v = "critical" <-> (v < c)%Q)
             /\ (status v = "warning" <-> (c <= v)%Q /\ (v < w)%Q)) ->
  (c <= w)%Q ->
  ((exists v, reading = Some v /\ status v = "critical") <-> Spec.below reading c)
  /\ (Spec.below reading w
      <-> Spec.below reading c \/ exists v, reading = Some v /\ status v = "warning").
Proof.
  intros Hstatus Hcw. unfold Spec.below. repeat split.
  - intros (v & E & Hs). exists v. split; [exact E|]. apply Hstatus, Hs.
  - intros (v & E & Hv). exists v. split; [exact E|]. apply Hstatus, Hv.
  - intros (v & E & Hv). destruct (Qlt_le_dec v c) as [Hc | Hc].
    + left. exists v. auto.
    + right. exists v. split; [exact E|]. apply Hstatus. auto.
  - intros [(v & E & Hv) | (v & E & Hs)]; exists v; (split; [exact E|]).
    + lra.
    + apply Hstatus in Hs. tauto.
Qed.

Lemma reading_above (reading : option Q) (status : Q -> string) (c w : Q) :
  (forall v, (status v = "critical" <-> (c < v)%Q)
             /\ (status v = "warning" <-> (v <= c)%Q /\ (w < v)%Q)) ->
  (w <= c)%Q ->
  ((exists v, reading = Some v /\ status v = "critical") <-> Spec.above reading c)
  /\ (Spec.above reading w
      <-> Spec.above reading c \/ exists v, reading = Some v /\ status v = "warning").
Proof.
  intros Hstatus Hcw. unfold Spec.above. repeat split.
  - intros (v & E & Hs). exists v. split; [exact E|]. apply Hstatus, Hs.
  - intros (v & E & Hv). exists v. split; [exact E|]. apply Hstatus, Hv.
  - intros (v & E & Hv). destruct (Qlt_le_dec c v) as [Hc | Hc].
    + left. exists v. auto.
    + right. exists v. split; [exact E|]. apply Hstatus. auto.
  - intros [(v & E & Hv) | (v & E & Hs)]; exists v; (split; [exact E|]).
    + lra.
    + apply Hstatus in Hs. tauto.
Qed.

(** Under the default thresholds the health check calls a vehicle
    critical exactly when the latest row has a battery state of health
    below 70, a battery temperature above 45, a motor efficiency below
    75 or a coolant level below 20; warning when none of these holds
    but one of the warning thresholds (80, 40, 80, 30) is passed; and
    operational otherwise, in particular when the row has none of the
    four readings.  The trends and the other columns play no part. *)
Theorem vehicle_status_by_default_thresholds (telemetry : TelemetryRow) (trends : Trends) :
  let status :=
    (_determine_vehicle_status (_analyze_health_metrics __init__ telemetry) trends).1 in
  let critical :=
    Spec.below (battery_soh telemetry) 70 \/ Spec.above (battery_temp telemetry) 45
    \/ Spec.below (motor_efficiency telemetry) 75 \/ Spec.below (coolant_level telemetry) 20 in
  let warning :=
    Spec.below (battery_soh telemetry) 80 \/ Spec.above (battery_temp telemetry) 40
    \/ Spec.below (motor_efficiency telemetry) 80 \/ Spec.below (coolant_level telemetry) 30 in
  (status = "critical" <-> critical)
  /\ (status = "warning" <-> ~ critical /\ warning)
  /\ (status = "operational" <-> ~ warning).
Proof.
  cbv zeta.
  destruct (determine_vehicle_status_cases (_analyze_health_metrics __init__ telemetry) trends)
    as (Hc & Hw & Ho).
  cbv zeta in Hc, Hw, Ho. rewrite Hc, Hw, Ho. clear Hc Hw Ho.
  rewrite !analyze_health_metrics_statuses.
  destruct (reading_below (battery_soh telemetry)
              (_get_metric_status __init__ "battery_soh") 70 80) as [C1 W1];
    [intros v; rewrite status_of_battery_soh; apply status_below; [exact ""|lra] | lra |].
  destruct (reading_above (battery_temp telemetry)
              (_get_metric_status __init__ "battery_temp") 45 40) as [C2 W2];
    [intros v; rewrite status_of_battery_temp; apply status_above; [exact ""|lra] | lra |].
  destruct (reading_below (motor_efficiency telemetry)
              (_get_metric_status __init__ "motor_efficiency") 75 80) as [C3 W3];
    [intros v; rewrite status_of_motor_efficiency; apply status_below; [exact ""|lra]
    | lra |].
  destruct (reading_below (coolant_level telemetry)
              (_get_metric_status __init__ "coolant_level") 20 30) as [C4 W4];
    [intros v; rewrite status_of_coolant_level; apply status_below; [exact ""|lra] | lra |].
  rewrite W1, W2, W3, W4, <- C1, <- C2, <- C3, <- C4. clear.
  generalize (exists v, battery_soh telemetry = Some v
                        /\ _get_metric_status __init__ "battery_soh" v = "critical"),
    (exists v, battery_temp telemetry = Some v
               /\ _get_metric_status __init__ "battery_temp" v = "critical"),
    (exists v, motor_efficiency telemetry = Some v
               /\ _get_metric_status __init__ "motor_efficiency" v = "critical"),
    (exists v, coolant_level telemetry = Some v
               /\ _get_metric_status __init__ "coolant_level" v = "critical"),
    (exists v, battery_soh telemetry = Some v
               /\ _get_metric_status __init__ "battery_soh" v = "warning"),
    (exists v, battery_temp telemetry = Some v
               /\ _get_metric_status __init__ "battery_temp" v = "warning"),
    (exists v, motor_efficiency telemetry = Some v
               /\ _get_metric_status __init__ "motor_efficiency" v = "warning"),
    (exists v, coolant_level telemetry = Some v
               /\ _get_metric_status __init__ "coolant_level" v = "warning").
  intros c1 c2 c3 c4 s1 s2 s3 s4. tauto.
Qed.

(** *** The health score *)

Lemma status_score_range (status : string) :
  (0.2 <= status_score status <= 1)%Q
  /\ ((status_score status == 1)%Q <-> status = "good").
Proof.
  unfold status_score.
  repeat case_bool_decide; subst; (split; [lra|]); split; intros Hs;
    try reflexivity; try congruence; try lra.
Qed.

Lemma weight_known :
  weight "battery_health" = 0.3%Q /\ weight "battery_temperature" = 0.25%Q
  /\ weight "motor_efficiency" = 0.25%Q /\ weight "coolant_system" = 0.2%Q.
Proof. repeat split; vm_compute; reflexivity. Qed.

Lemma Qdiv_one (x : Q) : (x / 1 == x)%Q.
Proof. unfold Qdiv. change (/ 1)%Q with 1%Q. apply Qmult_1_r. Qed.

Lemma weights_sum : (Py.Qsum weights.*2 == 1)%Q.
Proof. vm_compute. reflexivity. Qed.

Lemma health_metric_cases (self : t) (name metric : string) (reading : option Q) :
  (reading = None /\ health_metric self name metric reading = [])
  \/ exists m, health_metric self name metric reading = [(name, m)]
               /\ hm_status m = _get_metric_status self metric (hm_value m)
               /\ reading = Some (hm_value m) /\ hm_metric m = metric.
Proof.
  destruct reading as [v|]; [right|left; split; reflexivity].
  eexists. split; [reflexivity|]. repeat split.
Qed.

(** The health score of a telemetry row lies between 0 and 1.  It is 1
    exactly when all four readings are present and good, and 0 exactly
    when none is present: a reading that is missing counts for less
    than one that is critical. *)
Theorem health_score_bounds (self : t) (telemetry : TelemetryRow) :
  let health_metrics := _analyze_health_metrics self telemetry in
  let score := _calculate_health_score health_metrics in
  (0 <= score <= 1)%Q
  /\ ((score == 1)%Q
      <-> length health_metrics = 4%nat
          /\ forall entry, entry ∈ health_metrics -> hm_status entry.2 = "good")
  /\ ((score == 0)%Q <-> health_metrics = []).
Proof.
  cbv zeta. unfold _analyze_health_metrics.
  destruct weight_known as (W1 & W2 & W3 & W4).
  destruct (health_metric_cases self "battery_health" "battery_soh" (battery_soh telemetry))
    as [[_ ->] | (m1 & -> & _)];
  destruct (health_metric_cases self "battery_temperature" "battery_temp"
              (battery_temp telemetry)) as [[_ ->] | (m2 & -> & _)];
  destruct (health_metric_cases self "motor_efficiency" "motor_efficiency"
              (motor_efficiency telemetry)) as [[_ ->] | (m3 & -> & _)];
  destruct (health_metric_cases self "coolant_system" "coolant_level"
              (coolant_level telemetry)) as [[_ ->] | (m4 & -> & _)].
  1: { cbn [app _calculate_health_score length].
       split; [split; discriminate|].
       split; split; try reflexivity.
       - intros Hs. discriminate Hs.
       - intros [Hs _]. discriminate Hs. }
  all: cbn [app _calculate_health_score length]; rewrite ?weights_sum, ?Qdiv_one;
    cbn [fmap list_fmap fst snd Py.Qsum foldr];
    rewrite ?W1, ?W2, ?W3, ?W4;
    try pose proof (status_score_range (hm_status m1)) as [R1 G1];
    try pose proof (status_score_range (hm_status m2)) as [R2 G2];
    try pose proof (status_score_range (hm_status m3)) as [R3 G3];
    try pose proof (status_score_range (hm_status m4)) as [R4 G4];
    (split; [lra|]); split;
    (split;
     [ intros Hs; try lra
     | try (intros [Hlen _]; discriminate Hlen); try discriminate ]).
  - split; [reflexivity|]. intros entry Hin.
    repeat (apply elem_of_cons in Hin as [-> | Hin]); cbn [snd];
      [apply G1 | apply G2 | apply G3 | apply G4 | inversion Hin]; lra.
  - intros [_ Hgood].
    assert (H1 := Hgood _ (list_elem_of_here _ _)).
    assert (H2 := Hgood _ (list_elem_of_further _ _ _ (list_elem_of_here _ _))).
    assert (H3 := Hgood _ (list_elem_of_further _ _ _
                             (list_elem_of_further _ _ _ (list_elem_of_here _ _)))).
    assert (H4 := Hgood _ (list_elem_of_further _ _ _
                             (list_elem_of_further _ _ _
                                (list_elem_of_further _ _ _ (list_elem_of_here _ _))))).
    cbn [snd] in H1, H2, H3, H4. apply G1 in H1. apply G2 in H2. apply G3 in H3.
    apply G4 in H4. lra.
Qed.

(** *** The health check *)

Lemma analyze_trends_run (vehicle_id : Z) (w : World) :
  exists trends, _analyze_trends vehicle_id w = (inr trends, Spec.advance 1 w).
Proof.
  unfold _analyze_trends, _get_historical_telemetry, bind, utcnow, get_world, ret.
  cbn [clock ticks vehicle_telemetry].
  destruct (length _ <? 3)%nat; [eexists; reflexivity|].
  destruct (3 <=? length _)%nat; eexists; reflexivity.
Qed.

Lemma health_check_confidence :
  (BaseAgent._calculate_confidence
     [("data_confidence", 0.9%Q); ("analysis_confidence", 0.85%Q)] == 0.875)%Q.
Proof. vm_compute. reflexivity. Qed.

(** A health check reports the status and the score computed from the
    metrics it reports, with confidence 0.875, and leaves the status
    column of the vehicle equal to the status it reports; the other
    vehicles are not touched.  When it answers with an error the
    vehicles are as before.  It raises only if the query for the
    latest row does.  The query is taken not to write to the vehicles. *)
Theorem health_check_stores_the_status
    (_get_latest_telemetry : Z -> M (option TelemetryRow)) (self : t)
    (vehicle_id : option Z) (w : World) :
  (forall v w, vehicles (_get_latest_telemetry v w).2 = vehicles w) ->
  let run := _perform_health_check _get_latest_telemetry self vehicle_id w in
  match run.1 with
  | inr (HealthCheckReport r) =>
      vehicle_id = Some (hr_vehicle_id r)
      /\ (exists vehicle,
            vehicles w !! hr_vehicle_id r = Some vehicle
            /\ vehicles run.2
               = <[hr_vehicle_id r := {| vehicle_reg := vehicle_reg vehicle;
                                         vehicle_status := hr_status r |}]> (vehicles w))
      /\ hr_status r = (_determine_vehicle_status (health_metrics r) (hr_trends r)).1
      /\ recommendations r = (_determine_vehicle_status (health_metrics r) (hr_trends r)).2
      /\ overall_health_score r = _calculate_health_score (health_metrics r)
      /\ (hr_confidence r == 0.875)%Q
  | inr (HealthCheckError error) =>
      vehicles run.2 = vehicles w
      /\ (error = "Vehicle not found" \/ error = "No telemetry data available")
  | inl e => exists v w', (_get_latest_telemetry v w').1 = inl e
  end.
Proof.
  intros Hquery. cbv zeta.
  destruct (_perform_health_check _get_latest_telemetry self vehicle_id w)
    as [result w'] eqn:Hrun.
  cbn [fst snd]. unfold _perform_health_check in Hrun.
  unfold bind at 1 in Hrun. unfold get_world at 1 in Hrun.
  destruct vehicle_id as [id|]; cbn [mbind option_bind] in Hrun;
    [|injection Hrun as <- <-; auto].
  destruct (vehicles w !! id) as [vehicle|] eqn:Hvehicle;
    cbn [fmap option_fmap option_map] in Hrun;
    [|injection Hrun as <- <-; auto].
  unfold bind at 1 in Hrun.
  pose proof (Hquery id w) as Hvehicles.
  destruct (_get_latest_telemetry id w) as [[e | [latest|]] w1] eqn:Hlatest;
    cbn [snd] in Hvehicles.
  - injection Hrun as <- <-. exists id, w. rewrite Hlatest. reflexivity.
  - unfold bind at 1 in Hrun.
    destruct (analyze_trends_run id w1) as [trends Htrends]. rewrite Htrends in Hrun.
    set (determined := _determine_vehicle_status (_analyze_health_metrics self latest) trends)
      in Hrun.
    unfold bind at 1 in Hrun.
    case_bool_decide as Hstatus.
    + unfold bind, utcnow, ret, Spec.advance in Hrun. injection Hrun as <- <-.
      cbn [vehicles hr_vehicle_id hr_status health_metrics hr_trends recommendations
             overall_health_score hr_confidence].
      split; [reflexivity|]. split.
      * exists vehicle. split; [exact Hvehicle|]. rewrite Hvehicles.
        symmetry. apply insert_id. rewrite Hvehicle. f_equal.
        destruct vehicle as [reg st]. cbn [vehicle_reg vehicle_status] in Hstatus |- *.
        rewrite Hstatus. reflexivity.
      * repeat split; try reflexivity; apply health_check_confidence.
    + unfold bind, get_world, set_vehicles, utcnow, ret, Spec.advance in Hrun.
      injection Hrun as <- <-.
      cbn [vehicles hr_vehicle_id hr_status health_metrics hr_trends recommendations
             overall_health_score hr_confidence].
      split; [reflexivity|]. split.
      * exists vehicle. split; [exact Hvehicle|]. rewrite Hvehicles. reflexivity.
      * repeat split; try reflexivity; apply health_check_confidence.
  - injection Hrun as <- <-. auto.
Qed.

Lemma health_check_stores_the_status_witness :
  let run := _perform_health_check Examples.latest_worn __init__ (Some 1) Examples.depot in
  exists r,
    run.1 = inr (HealthCheckReport r)
    /\ hr_status r = "critical"
    /\ vehicle_status <$> vehicles run.2 !! 1 = Some "critical".
Proof.
  cbv zeta.
  pose proof (health_check_stores_the_status Examples.latest_worn __init__ (Some 1)
                Examples.depot (fun _ _ => eq_refl)) as T.
  cbv zeta in T.
  destruct (_perform_health_check Examples.latest_worn __init__ (Some 1) Examples.depot).1
    as [e | [error | r]] eqn:E.
  - vm_compute in E. discriminate E.
  - vm_compute in E. discriminate E.
  - destruct T as (_ & (vehicle & _ & Hstore) & _).
    assert (Hid : hr_vehicle_id r = 1 /\ hr_status r = "critical").
    { vm_compute in E. injection E as <-. split; reflexivity. }
    destruct Hid as [Hid Hstatus]. exists r. split; [reflexivity|]. split; [exact Hstatus|].
    rewrite Hstore, Hid, lookup_insert_eq, Hstatus. reflexivity.
Defined.

(** *** Ranges of a trend *)

(** For finite readings: the rate of a trend is never negative, its
    confidence lies between 0 and 1, and its direction is one of
    stable, improving and declining, stable exactly when the rate is
    below 0.1.  A history of fewer than two values is stable with rate
    0.0 and confidence 0.0. *)
Theorem calculate_trend_ranges (values : list Q) :
  let trend := _calculate_trend values in
  (0 <= rate trend)%Q
  /\ (0 <= trend_confidence trend <= 1)%Q
  /\ direction trend ∈ ["stable"; "improving"; "declining"]
  /\ (direction trend = "stable" <-> (rate trend < 0.1)%Q)
  /\ ((length values < 2)%nat ->
      trend = {| direction := "stable"; rate := 0.0%Q; trend_confidence := 0.0%Q |}).
Proof.
  cbv zeta. unfold _calculate_trend.
  destruct (length values <? 2)%nat eqn:Hlen.
  { cbn [rate trend_confidence direction].
    split; [discriminate|]. split; [split; discriminate|].
    split; [apply list_elem_of_here|]. split; [|reflexivity].
    split; [reflexivity | intros _; reflexivity]. }
  destruct (polyfit1 (arange (length values)) values) as [slope intercept] eqn:Hfit.
  cbn [rate trend_confidence direction].
  split; [apply Qabs_nonneg|]. split.
  { unfold Py.max2, Py.min2.
    repeat match goal with
           | |- context [Py.Qltb ?a ?b] =>
               let E := fresh "E" in
               destruct (Py.Qltb a b) eqn:E;
               [apply Qltb_true in E | apply Qltb_false in E]
           end; split; try lra; try discriminate. }
  split; [|split].
  - destruct (Py.Qltb (Qabs slope) 0.1); [apply list_elem_of_here|].
    destruct (Py.Qltb 0 slope);
      [apply list_elem_of_further, list_elem_of_here
      |apply list_elem_of_further, list_elem_of_further, list_elem_of_here].
  - destruct (Py.Qltb (Qabs slope) 0.1) eqn:E.
    + apply Qltb_true in E. split; [intros _; exact E | reflexivity].
    + apply Qltb_false in E. split.
      * destruct (Py.Qltb 0 slope); discriminate.
      * intros Hlow. exfalso. lra.
  - intros Hshort. apply Nat.ltb_ge in Hlen. lia.
Qed.

(** *** Predictive analysis *)

Lemma declining_rate (values : list Q) :
  direction (_calculate_trend values) = "declining" ->
  (0.1 <= rate (_calculate_trend values))%Q.
Proof.
  unfold _calculate_trend.
  destruct (length values <? 2)%nat; [discriminate|].
  destruct (polyfit1 (arange (length values)) values) as [slope intercept].
  cbn [direction rate].
  destruct (Py.Qltb (Qabs slope) 0.1) eqn:E; [discriminate|].
  intros _. apply Qltb_false, E.
Qed.

(** The trend analysis of a metric returns.  It makes a prediction
    only for a metric with a critical threshold, when the values
    decline by at least 0.1 per step in the order given and the first
    value is above the threshold; the days to critical are then
    positive, the distance of the first value to the threshold divided
    by the rate, and the predicted date is that many days after the
    clock reading of the call.  With the default thresholds the state
    of charge and the charge cycles never get a prediction. *)
Theorem metric_trend_prediction (self : t) (historical_data : list TelemetryRow)
    (metric : string) (w : World) :
  exists (r : MetricTrend) (w' : World),
    _analyze_metric_trend self historical_data metric w = (inr r, w')
    /\ mt_metric r = metric
    /\ (forall p, mt_prediction r = Some p ->
          anomaly_thresholds self !! (metric +:+ "_critical") = Some (critical_threshold p)
          /\ head (omap (fun data => getattr data metric) historical_data)
             = Some (current_value p)
          /\ (critical_threshold p < current_value p)%Q
          /\ (exists trend,
                mt_trend r = Some trend /\ direction trend = "declining"
                /\ (0.1 <= rate trend)%Q
                /\ days_to_critical p
                   = ((current_value p - critical_threshold p) / rate trend)%Q)
          /\ (0 < days_to_critical p)%Q
          /\ predicted_date p = clock w (ticks w) + Time.float_days (days_to_critical p)
          /\ w' = Spec.advance 1 w)
    /\ (mt_prediction r = None -> w' = w)
    /\ (anomaly_thresholds self !! (metric +:+ "_critical") = None -> mt_prediction r = None)
    /\ (self = __init__ -> metric = "battery_soc" \/ metric = "charge_cycles" ->
        mt_prediction r = None).
Proof.
  assert (Hmain :
    exists (r : MetricTrend) (w' : World),
      _analyze_metric_trend self historical_data metric w = (inr r, w')
      /\ mt_metric r = metric
      /\ (forall p, mt_prediction r = Some p ->
            anomaly_thresholds self !! (metric +:+ "_critical") = Some (critical_threshold p)
            /\ head (omap (fun data => getattr data metric) historical_data)
               = Some (current_value p)
            /\ (critical_threshold p < current_value p)%Q
            /\ (exists trend,
                  mt_trend r = Some trend /\ direction trend = "declining"
                  /\ (0.1 <= rate trend)%Q
                  /\ days_to_critical p
                     = ((current_value p - critical_threshold p) / rate trend)%Q)
            /\ (0 < days_to_critical p)%Q
            /\ predicted_date p = clock w (ticks w) + Time.float_days (days_to_critical p)
            /\ w' = Spec.advance 1 w)
      /\ (mt_prediction r = None -> w' = w)
      /\ (anomaly_thresholds self !! (metric +:+ "_critical") = None ->
          mt_prediction r = None)).
  { unfold _analyze_metric_trend.
    set (values := omap (fun data => getattr data metric) historical_data).
    destruct (length values <? 3)%nat.
    { eexists _, w. split; [reflexivity|]. cbn [mt_metric mt_prediction].
      repeat split; try reflexivity; intros; discriminate. }
    set (trend := _calculate_trend values).
    destruct (bool_decide (direction trend = "declining") && Py.Qltb 0 (rate trend)) eqn:Hdir;
      [|eexists _, w; split; [reflexivity|]; cbn [mt_metric mt_prediction];
        repeat split; try reflexivity; intros; discriminate].
    apply andb_prop in Hdir as [Hdecl Hrate]. apply bool_decide_eq_true in Hdecl.
    destruct (anomaly_thresholds self !! (metric +:+ "_critical")) as [c|] eqn:Hc;
      [|eexists _, w; split; [reflexivity|]; cbn [mt_metric mt_prediction];
        repeat split; try reflexivity; intros; discriminate].
    destruct values as [|first rest] eqn:Hvalues;
      [eexists _, w; split; [reflexivity|]; cbn [mt_metric mt_prediction];
        repeat split; try reflexivity; intros; discriminate|].
    destruct (Py.truthy (Some c) && Py.Qltb c first) eqn:Habove;
      [|eexists _, w; split; [reflexivity|]; cbn [mt_metric mt_prediction];
        repeat split; try reflexivity; intros; discriminate].
    apply andb_prop in Habove as [_ Habove]. apply Qltb_true in Habove.
    destruct (Py.Qltb 0 ((first - c) / rate trend)) eqn:Hdays;
      [|eexists _, w; split; [reflexivity|]; cbn [mt_metric mt_prediction];
        repeat split; try reflexivity; intros; discriminate].
    apply Qltb_true in Hdays.
    eexists _, (Spec.advance 1 w). split; [reflexivity|].
    cbn [mt_metric mt_prediction mt_trend]. split; [reflexivity|]. split.
    - intros p [= <-].
      cbn [critical_threshold current_value days_to_critical predicted_date head].
      repeat split; try reflexivity; try assumption.
      exists trend. repeat split; try reflexivity; try assumption.
      apply declining_rate, Hdecl.
    - split; intros; discriminate. }
  destruct Hmain as (r & w' & Hrun & Hmetric & Hp & Hw & Hnone).
  exists r, w'. split; [exact Hrun|]. split; [exact Hmetric|]. split; [exact Hp|].
  split; [exact Hw|]. split; [exact Hnone|].
  intros -> Hm. apply Hnone. destruct Hm as [-> | ->]; vm_compute; reflexivity.
Qed.

(** The maintenance recommendations are those of the predictions that
    carry a prediction, one each, ordered by the estimated days; a
    recommendation is urgent up to 7 days, high up to 30 days and
    normal beyond. *)
Theorem maintenance_recommendations_by_urgency (predictions : list MetricTrend) :
  let recommendations := _generate_maintenance_recommendations predictions in
  recommendations ≡ₚ predictions ≫= recommendation
  /\ (forall (i j : nat) a b,
        (i < j)%nat -> recommendations !! i = Some a -> recommendations !! j = Some b ->
        (estimated_days a <= estimated_days b)%Q)
  /\ (forall r, r ∈ recommendations ->
        (rec_priority r = "urgent" <-> (estimated_days r <= 7)%Q)
        /\ (rec_priority r = "high"
            <-> (7 < estimated_days r)%Q /\ (estimated_days r <= 30)%Q)
        /\ (rec_priority r = "normal" <-> (30 < estimated_days r)%Q)).
Proof.
  cbv zeta. unfold _generate_maintenance_recommendations.
  split; [apply sorted_Permutation|]. split.
  - intros i j a b Hij Ha Hb. apply Qltb_false.
    assert (Hasym : forall x y : Q, Py.Qltb x y = true -> Py.Qltb y x = false).
    { intros x y Hxy. apply Qltb_true in Hxy. apply Qltb_false. lra. }
    assert (Htrans : forall x y z : Q,
              Py.Qltb y x = false -> Py.Qltb z y = false -> Py.Qltb z x = false).
    { intros x y z H1 H2. apply Qltb_false in H1, H2. apply Qltb_false. lra. }
    apply (StronglySorted_lookup _ _
             (sorted_StronglySorted Py.Qltb estimated_days _ Hasym Htrans) i j a b Hij Ha Hb).
  - intros r Hr. rewrite sorted_Permutation in Hr.
    apply list_elem_of_bind in Hr as (p & Hr & _).
    unfold recommendation in Hr. destruct (mt_prediction p) as [d|]; [|inversion Hr].
    apply list_elem_of_singleton in Hr. subst r. cbn [rec_priority estimated_days].
    destruct (Qle_bool (days_to_critical d) 7) eqn:E7;
      [apply Qle_bool_iff in E7 | apply not_true_iff_false in E7; rewrite Qle_bool_iff in E7];
      (destruct (Qle_bool (days_to_critical d) 30) eqn:E30;
       [apply Qle_bool_iff in E30
       | apply not_true_iff_false in E30; rewrite Qle_bool_iff in E30]);
      cbn [fst]; repeat split; intros; try discriminate; try reflexivity; try lra.
Qed.

End HealthCheckFacts.

(** ** More of the planner *)

Module PlannerOperationFacts.

Import PlannerAgent.

(** *** The slots a search visits *)

Lemma replace_hour0_day (h x : Z) :
  0 <= h < 24 ->
  Time.replace_hour0 h x / Time.microseconds_per_day = x / Time.microseconds_per_day
  /\ Time.replace_hour0 h x mod Time.microseconds_per_day = Time.hours h
  /\ Time.replace_hour0 h x mod Time.microseconds_per_hour = 0.
Proof.
  intros Hh.
  unfold Time.replace_hour0, Time.hours, Time.microseconds_per_day,
    Time.microseconds_per_hour.
  repeat split; Z.div_mod_to_equations; lia.
Qed.

Lemma hourly_day (x : Z) :
  let day_start := Time.replace_hour0 8 x in
  hourly day_start (Time.replace_hour 18 day_start)
  = (fun k => day_start + Time.hours k) <$> seqZ 0 10.
Proof.
  cbv zeta. unfold hourly. f_equal. f_equal.
  destruct (replace_hour0_day 8 x ltac:(lia)) as (Hd & _ & Hh).
  unfold Time.replace_hour. rewrite Hd, Hh.
  unfold Time.replace_hour0, Time.hours, Time.microseconds_per_day,
    Time.microseconds_per_hour.
  Z.div_mod_to_equations; lia.
Qed.


Lemma candidate_slots_first (current_time : Z) :
  exists rest, candidate_slots current_time = Time.replace_hour0 8 current_time :: rest.
Proof.
  unfold candidate_slots.
  change (seqZ 0 30) with (0 :: seqZ 1 29). cbn [mbind list_bind].
  rewrite hourly_day. change (seqZ 0 10) with (0 :: seqZ 1 9). cbn [fmap list_fmap].
  eexists. cbn [app]. f_equal.
  unfold Time.days, Time.hours. rewrite Z.mul_0_l, !Z.add_0_r. reflexivity.
Qed.


(** When no booking of the workshop that is scheduled, confirmed or in
    progress starts at the first clock reading or later, the search
    returns 8 o'clock of the day of its second clock reading rounded
    up to the hour.  When the second reading is later than 8 o'clock
    and earlier than 23 o'clock, this is 8 o'clock of the day of the
    reading itself, a slot that is already past. *)
Theorem next_available_slot_can_be_past (wid service_type : string) (w : World) :
  (forall id b, bookings w !! id = Some b -> workshop_id b = wid ->
                status b ∈ [Some "scheduled"; Some "confirmed"; Some "in_progress"] ->
                booking_slot b < clock w (ticks w)) ->
  let now := clock w (S (ticks w)) in
  (_find_next_available_slot wid service_type w).1
  = inr (Some (Time.replace_hour0 8 (Spec.round_up now)))
  /\ (Time.hours 8 < now mod Time.microseconds_per_day < Time.hours 23 ->
      (_find_next_available_slot wid service_type w).1
      = inr (Some (Time.replace_hour0 8 now))
      /\ Time.replace_hour0 8 now < now).
Proof.
  intros Hnone now.
  assert (Hrun : (_find_next_available_slot wid service_type w).1
                 = inr (Some (Time.replace_hour0 8 (Spec.round_up now)))).
  { rewrite PlannerFacts.find_next_available_slot_run. cbn [fst]. fold now.
    unfold Spec.next_slot.
    destruct (candidate_slots_first (Spec.round_up now)) as [rest ->].
    cbn [List.find].
    assert (Hfree : Spec.free (bookings w) wid service_type (clock w (ticks w))
                      (Time.replace_hour0 8 (Spec.round_up now)) = true).
    { unfold Spec.free. apply negb_true_iff, not_true_iff_false. intros Hex.
      apply existsb_exists in Hex as (b & Hb & _).
      apply list_elem_of_In in Hb. unfold existing_bookings in Hb.
      rewrite merge_sort_Permutation in Hb.
      apply list_elem_of_filter in Hb as [(Hw & Hslot & Hstatus) Hb].
      apply list_elem_of_fmap in Hb as ([id b'] & -> & Hb).
      apply elem_of_map_to_list in Hb. cbn [snd] in *.
      specialize (Hnone id b' Hb Hw Hstatus). lia. }
    rewrite Hfree. reflexivity. }
  split; [exact Hrun|]. intros Hnow.
  assert (Hday : Time.replace_hour0 8 (Spec.round_up now) = Time.replace_hour0 8 now).
  { unfold Time.replace_hour0. f_equal. f_equal.
    unfold Spec.round_up, Time.replace_minute0, Time.minute.
    destruct (0 <? _); [|reflexivity].
    unfold Time.hours, Time.microseconds_per_day, Time.microseconds_per_hour,
      Time.microseconds_per_minute in *.
    Z.div_mod_to_equations; lia. }
  split.
  - rewrite Hrun, Hday. reflexivity.
  - unfold Time.replace_hour0.
    unfold Time.hours, Time.microseconds_per_day in *.
    Z.div_mod_to_equations; lia.
Qed.

Lemma next_available_slot_can_be_past_witness :
  (_find_next_available_slot "ws_002" "corrective"
     (Examples.fleet (Examples.ticking Examples.midday) [Examples.south] ∅)).1
  = inr (Some (Time.days 100 + Time.hours 8))
  /\ Time.days 100 + Time.hours 8 < Examples.midday + 1.
Proof.
  apply (next_available_slot_can_be_past "ws_002" "corrective"
           (Examples.fleet (Examples.ticking Examples.midday) [Examples.south] ∅)).
  - intros id b Hb. cbn [Examples.fleet bookings] in Hb. rewrite lookup_empty in Hb.
    discriminate Hb.
  - vm_compute. split; reflexivity.
Defined.

(** *** Scheduling *)

Lemma find_optimal_loop_slot (ws : list Workshop) (max_delay : Z) (service_type : string)
    (w : World) (slot : OptimalSlot) (w' : World) :
  find_optimal_loop ws max_delay service_type None None w = (inr (Some slot), w') ->
  os_estimated_duration slot = _estimate_service_duration service_type
  /\ availability_confidence slot = 0.8%Q
  /\ exists workshop, workshop ∈ ws
                      /\ os_workshop_id slot = ws_workshop_id workshop
                      /\ os_workshop_name slot = ws_name workshop
                      /\ os_location slot = ws_location workshop.
Proof.
  intros Hrun.
  destruct (PlannerFacts.find_optimal_loop_refines max_delay service_type ws None None w)
    as (Hselect & _).
  rewrite Hrun in Hselect. cbn [fst] in Hselect.
  pose proof (PlannerFacts.select_from (clock w) service_type
                (Spec.scan (clock w) (bookings w) max_delay service_type ws (ticks w)).1
                None None) as Hfrom.
  rewrite <- Hselect in Hfrom. destruct Hfrom as [[=] | (c & Hc & ->)].
  split; [reflexivity|]. split; [reflexivity|].
  exists (Spec.c_workshop c). split; [|repeat split].
  destruct (PlannerFacts.scan_candidates (clock w) (bookings w) max_delay service_type ws
              (ticks w)) as [_ Hscan].
  apply (Hscan c Hc).
Qed.

Lemma scheduling_confidence (availability : Q) :
  (BaseAgent._calculate_confidence
     [("workshop_availability", availability); ("scheduling_confidence", 0.9%Q)] == 0.9)%Q.
Proof.
  unfold BaseAgent._calculate_confidence.
  change (filter _ _) with [("scheduling_confidence", 0.9%Q)].
  reflexivity.
Qed.

(** A booking request that returns a booking has added exactly the row
    it describes, under a key that was free, for a vehicle that
    exists and a workshop of the table: vehicle, service type and
    priority are those of the request (or the defaults), the status is
    scheduled, the duration is the estimate for the service type and
    the confidence is 0.9.  A request answered with an error leaves
    the bookings as they are.  Vehicles, workshops and the audit table
    are not touched. *)
Theorem schedule_booking_stores_the_booking (data : Data) (w : World) :
  let run := _schedule_booking data w in
  (forall r, run.1 = inr (RBooking r) ->
     bookings w !! br_booking_id r = None
     /\ bookings run.2
        = <[br_booking_id r :=
              {| vehicle_id := br_vehicle_id r;
                 workshop_id := br_workshop_id r;
                 workshop_name := br_workshop_name r;
                 booking_slot := br_booking_slot r;
                 service_type := br_service_type r;
                 estimated_duration := Some (br_estimated_duration r);
                 priority := Some (br_priority r);
                 status := Some (br_status r);
                 predicted_issue := Some (default "" (Dict.get_str data "predicted_issue"));
                 confidence_score :=
                   Some (default 0.5%Q (Dict.get_float data "confidence_score"));
                 recommended_actions :=
                   default [] (Dict.get_strings data "recommended_actions") |}]>
            (bookings w)
     /\ br_vehicle_id r = Dict.get_int data "vehicle_id"
     /\ is_Some (br_vehicle_id r ≫= (fun v => vehicles w !! v))
     /\ br_service_type r = default "maintenance" (Dict.get_str data "service_type")
     /\ br_priority r = default "normal" (Dict.get_str data "priority")
     /\ br_status r = "scheduled"
     /\ br_estimated_duration r = _estimate_service_duration (br_service_type r)
     /\ (exists workshop, workshop ∈ workshops w
                          /\ br_workshop_id r = ws_workshop_id workshop
                          /\ br_workshop_name r = ws_name workshop
                          /\ br_workshop_location r = ws_location workshop)
     /\ (br_confidence r == 0.9)%Q)
  /\ ((forall r, run.1 <> inr (RBooking r)) -> bookings run.2 = bookings w)
  /\ vehicles run.2 = vehicles w
  /\ workshops run.2 = workshops w
  /\ agent_actions run.2 = agent_actions w.
Proof.
  cbv zeta. destruct (_schedule_booking data w) as [res w'] eqn:Hrun. cbn [fst snd].
  unfold _schedule_booking in Hrun. cbv zeta in Hrun.
  unfold bind at 1, get_world at 1 in Hrun.
  destruct (Dict.get_int data "vehicle_id" ≫= (fun v => vehicles w !! v))
    as [vehicle|] eqn:Hvehicle.
  2:{ injection Hrun as <- <-. split; [intros r; discriminate|]. repeat split. }
  unfold bind at 1 in Hrun.
  destruct (PlannerFacts.find_suitable_workshops_run
              (default "maintenance" (Dict.get_str data "service_type")) "default" w)
    as (ws & Hws & Hsub).
  rewrite Hws in Hrun.
  destruct ws as [|w0 ws0].
  { injection Hrun as <- <-. split; [intros r; discriminate|]. repeat split. }
  unfold bind at 1 in Hrun. rewrite PlannerFacts.find_optimal_slot_run in Hrun.
  destruct (PlannerFacts.find_optimal_loop_refines
              (Spec.max_delay_for (default "normal" (Dict.get_str data "priority")))
              (default "maintenance" (Dict.get_str data "service_type"))
              (w0 :: ws0) None None w) as (_ & (n & Hworld) & _).
  destruct (find_optimal_loop (w0 :: ws0) _ _ None None w) as [[e|[slot|]] w1] eqn:Hloop;
    cbn [snd] in Hworld; subst w1.
  - injection Hrun as <- <-. split; [intros r; discriminate|]. repeat split.
  - destruct (find_optimal_loop_slot _ _ _ _ _ _ Hloop)
      as (Hduration & Hconfidence & workshop & Hin & Hid & Hname & Hlocation).
    unfold bind, add_booking, get_world, set_bookings, utcnow, ret in Hrun.
    cbn [bookings clock ticks Spec.advance] in Hrun.
    injection Hrun as <- <-. cbn [bookings vehicles workshops agent_actions].
    split; [|split; [intros Hno; exfalso; eapply Hno; reflexivity | repeat split]].
    intros r [= <-].
    cbn [br_booking_id br_vehicle_id br_workshop_id br_workshop_name br_workshop_location
           br_booking_slot br_estimated_duration br_service_type br_priority br_status
           br_confidence].
    split; [apply PlannerFacts.next_id_fresh|]. split; [reflexivity|].
    split; [reflexivity|]. split; [rewrite Hvehicle; eexists; reflexivity|].
    split; [reflexivity|]. split; [reflexivity|]. split; [reflexivity|].
    split; [exact Hduration|]. split.
    + exists workshop. split; [apply Hsub, Hin|]. repeat split; assumption.
    + apply scheduling_confidence.
  - injection Hrun as <- <-. split; [intros r; discriminate|]. repeat split.
Qed.

(** *** Updating *)

(** An update is all or nothing and never moves a booking to another
    vehicle or workshop.  When it raises (a string for the slot that
    is no ISO date, or a value the commit refuses, such as no slot or
    no service type) or answers with an error, the state is as
    before.  When it returns, only the row of the booking has
    changed; its vehicle, workshop and recommended actions are as
    before, so are its slot, its status and its duration unless the
    update names them; the fields reported as updated are allowed
    ones named by the update, and the slot and status returned are
    those of the row.  A status of [None] is stored and returned. *)
Theorem update_booking_all_or_nothing (data : Data) (w : World) :
  let run := _update_booking data w in
  let updates := default [] (Dict.get_updates data "updates") in
  match run.1 with
  | inr (RBookingUpdate r) =>
      exists b b',
        bookings w !! bu_booking_id r = Some b
        /\ run.2 = Spec.advance 1
                     {| clock := clock w; ticks := ticks w; vehicles := vehicles w;
                        workshops := workshops w;
                        bookings := <[bu_booking_id r := b']> (bookings w);
                        vehicle_telemetry := vehicle_telemetry w;
                        agent_actions := agent_actions w |}
        /\ vehicle_id b' = vehicle_id b
        /\ workshop_id b' = workshop_id b
        /\ workshop_name b' = workshop_name b
        /\ recommended_actions b' = recommended_actions b
        /\ ((forall value, ("booking_slot", value) ∉ updates) ->
            booking_slot b' = booking_slot b)
        /\ ((forall value, ("status", value) ∉ updates) -> status b' = status b)
        /\ ((forall value, ("estimated_duration", value) ∉ updates) ->
            estimated_duration b' = estimated_duration b)
        /\ (forall field, field ∈ bu_updated_fields r ->
              field ∈ allowed_updates /\ exists value, (field, value) ∈ updates)
        /\ bu_new_booking_slot r = booking_slot b'
        /\ bu_status r = status b'
  | _ => run.2 = w
  end
  /\ forall id b,
       Dict.get_int data "booking_id" = Some id ->
       bookings w !! id = Some b ->
       updates = [("status", SNone)] ->
       exists r,
         run.1 = inr (RBookingUpdate r)
         /\ bu_status r = None
         /\ bookings run.2 = <[id := with_status b None]> (bookings w).
Proof.
  cbv zeta. split.
  - destruct (PlannerFacts.update_booking_outcome data w)
      as [[Hw Hno] | (id & b & b' & fields & Hid & Hb & Hrun & E)].
    + rewrite Hw. destruct (_update_booking data w).1 as [e|[]]; try reflexivity.
      exfalso. apply (Hno r). reflexivity.
    + rewrite Hrun. cbn [fst snd bu_booking_id bu_updated_fields bu_new_booking_slot
                         bu_status].
      exists b, b'. split; [exact Hb|]. split; [reflexivity|].
      destruct E as (E1 & E2 & E3 & E4 & E5 & E6 & E7 & E8).
      repeat (split; [assumption|]). split; reflexivity.
  - intros id b Hid Hb Hupdates.
    destruct (_update_booking data w) as [res w'] eqn:Hrun. cbn [fst snd].
    unfold _update_booking in Hrun. cbv zeta in Hrun.
    unfold bind at 1, get_world at 1 in Hrun.
    rewrite Hid in Hrun. cbn [mbind option_bind] in Hrun. rewrite Hb in Hrun.
    cbn [fmap option_fmap option_map] in Hrun. rewrite Hupdates in Hrun.
    unfold bind at 1 in Hrun.
    assert (Happly : apply_updates [("status", SNone)] b [] None w
                     = (inr (with_status b None, ["status"], None), w)) by reflexivity.
    rewrite Happly in Hrun. cbn [fst snd] in Hrun.
    unfold bind, set_bookings, utcnow, ret in Hrun. injection Hrun as <- <-.
    eexists. split; [reflexivity|]. split; reflexivity.
Qed.

(** *** Cancelling *)

Lemma existing_bookings_elem (wid : string) (now : Z) (table : gmap Z Booking) (b : Booking) :
  b ∈ existing_bookings wid now table
  <-> (workshop_id b = wid /\ now <= booking_slot b
       /\ status b ∈ [Some "scheduled"; Some "confirmed"; Some "in_progress"])
      /\ exists id, table !! id = Some b.
Proof.
  unfold existing_bookings. rewrite merge_sort_Permutation, list_elem_of_filter.
  rewrite list_elem_of_fmap. split; intros [HP Hb]; (split; [exact HP|]).
  - destruct Hb as ([id b'] & -> & Hb). exists id. by apply elem_of_map_to_list.
  - destruct Hb as (id & Hb). exists (id, b). split; [reflexivity|].
    by apply elem_of_map_to_list.
Qed.

Lemma existsb_same_elements {A : Type} (f : A -> bool) (l1 l2 : list A) :
  (forall x, x ∈ l1 <-> x ∈ l2) -> existsb f l1 = existsb f l2.
Proof.
  intros H. apply eq_true_iff_eq. rewrite !existsb_exists.
  split; intros (x & Hx & Hf); exists x; (split; [|exact Hf]);
    apply list_elem_of_In; apply H; apply list_elem_of_In; exact Hx.
Qed.

Lemma find_ext_in {A : Type} (f g : A -> bool) (l : list A) :
  (forall x, f x = g x) -> List.find f l = List.find g l.
Proof.
  intros H. induction l as [|x l IH]; [reflexivity|]. cbn [List.find].
  rewrite H, IH. reflexivity.
Qed.

(** A booking that is not scheduled, confirmed or in progress does not
    count in a slot search: the search runs as if the row were not
    there. *)
Lemma next_slot_insert_inactive (table : gmap Z Booking) (id : Z) (b : Booking)
    (wid service_type : string) (now current_time : Z) :
  status b ∉ [Some "scheduled"; Some "confirmed"; Some "in_progress"] ->
  Spec.next_slot (<[id := b]> table) wid service_type now current_time
  = Spec.next_slot (delete id table) wid service_type now current_time.
Proof.
  intros Hstatus. unfold Spec.next_slot. apply find_ext_in. intros s.
  unfold Spec.free. f_equal. apply existsb_same_elements. intros b'.
  rewrite !existing_bookings_elem.
  split; intros [HP (j & Hj)]; (split; [exact HP|]).
  - destruct (decide (j = id)) as [-> | Hne].
    + rewrite lookup_insert_eq in Hj. injection Hj as <-. tauto.
    + exists j. rewrite lookup_insert_ne in Hj by auto.
      rewrite lookup_delete_ne by auto. exact Hj.
  - destruct (decide (j = id)) as [-> | Hne].
    + rewrite lookup_delete_eq in Hj. discriminate Hj.
    + exists j. rewrite lookup_delete_ne in Hj by auto.
      rewrite lookup_insert_ne by auto. exact Hj.
Qed.

Lemma alternatives_run (ws : list Workshop) (service_type : string) (w : World) :
  exists alts n, alternatives ws service_type w = (inr alts, Spec.advance n w)
                 /\ (length alts <= length ws)%nat.
Proof.
  revert w. induction ws as [|workshop rest IH]; intros w.
  - exists [], 0%nat. rewrite PlannerFacts.advance_0. split; [reflexivity|]. cbn. lia.
  - cbn [alternatives]. unfold bind at 1. rewrite PlannerFacts.find_next_available_slot_run.
    unfold bind at 1. destruct (IH (Spec.advance 2 w)) as (more & n & -> & Hlen).
    rewrite PlannerFacts.advance_advance.
    destruct (Spec.next_slot _ _ _ _ _); cbn [ret];
      eexists _, (n + 2)%nat; (split; [reflexivity|]); cbn [length]; lia.
Qed.

Lemma cancel_booking_returns (data : Data) (w : World) (r : BookingCancelResult) :
  (_cancel_booking data w).1 = inr (RBookingCancel r) ->
  exists (b : Booking) (n : nat),
    Dict.get_int data "booking_id" = Some (bc_booking_id r)
    /\ bookings w !! bc_booking_id r = Some b
    /\ (status b ∉ [Some "completed"; Some "cancelled"])
    /\ (_cancel_booking data w).2
       = Spec.advance n
           {| clock := clock w; ticks := ticks w; vehicles := vehicles w;
              workshops := workshops w;
              bookings := <[bc_booking_id r := with_status b (Some "cancelled")]> (bookings w);
              vehicle_telemetry := vehicle_telemetry w;
              agent_actions := agent_actions w |}
    /\ bc_status r = "cancelled"
    /\ bc_reason r = default "User requested" (Dict.get_str data "reason")
    /\ (length (bc_alternative_slots r) <= 3)%nat
    /\ (default false (Dict.get_bool data "find_alternative") = false ->
        bc_alternative_slots r = []).
Proof.
  destruct (_cancel_booking data w) as [res w'] eqn:Hrun0. cbn [fst snd].
  unfold _cancel_booking in Hrun0. cbv zeta in Hrun0.
  unfold bind at 1, get_world at 1 in Hrun0.
  destruct (Dict.get_int data "booking_id") as [id|];
    [|injection Hrun0 as <- <-; discriminate].
  cbn [mbind option_bind] in Hrun0.
  destruct (bookings w !! id) as [b|] eqn:Hb;
    [|injection Hrun0 as <- <-; discriminate].
  cbn [fmap option_fmap option_map] in Hrun0.
  case_bool_decide as Hstatus; [injection Hrun0 as <- <-; discriminate|].
  unfold bind at 1, set_bookings at 1 in Hrun0.
  set (w1 := {| clock := clock w;
                bookings := <[id := with_status b (Some "cancelled")]> (bookings w) |}) in Hrun0.
  unfold bind at 1 in Hrun0.
  assert (Halt : exists alts n,
             (if default false (Dict.get_bool data "find_alternative")
              then
                workshops <- _find_suitable_workshops (service_type b) "default" ;;
                alternatives (take 3 workshops) (service_type b)
              else ret []) w1 = (inr alts, Spec.advance n w1)
             /\ (length alts <= 3)%nat
             /\ (default false (Dict.get_bool data "find_alternative") = false -> alts = [])).
  { destruct (default false (Dict.get_bool data "find_alternative")).
    - unfold bind.
      destruct (PlannerFacts.find_suitable_workshops_run (service_type b) "default" w1)
        as (ws & Hws & _).
      rewrite Hws. destruct (alternatives_run (take 3 ws) (service_type b) w1)
        as (alts & n & -> & Hlen).
      exists alts, n. split; [reflexivity|]. split; [|discriminate].
      rewrite length_take in Hlen. lia.
    - exists [], 0%nat. rewrite PlannerFacts.advance_0. split; [reflexivity|].
      split; [cbn; lia | reflexivity]. }
  destruct Halt as (alts & n & Halt & Hlen & Hnone). rewrite Halt in Hrun0.
  unfold bind, utcnow, ret in Hrun0. injection Hrun0 as <- <-.
  intros [= <-]. cbn [bc_booking_id bc_status bc_reason bc_alternative_slots].
  exists b, (S n). split; [reflexivity|]. split; [exact Hb|]. split; [exact Hstatus|].
  split; [reflexivity|]. split; [reflexivity|]. split; [reflexivity|]. split; assumption.
Qed.

(** After a booking is cancelled its row is still there, with status
    cancelled, and a slot search runs as if the row were deleted: the
    slot is released. *)
Theorem cancelled_booking_releases_its_slot (data : Data) (w : World)
    (r : BookingCancelResult) :
  (_cancel_booking data w).1 = inr (RBookingCancel r) ->
  (exists b, bookings w !! bc_booking_id r = Some b
             /\ bookings (_cancel_booking data w).2
                = <[bc_booking_id r := with_status b (Some "cancelled")]> (bookings w))
  /\ forall (wid service_type : string) (w1 w2 : World),
       clock w1 = clock w2 -> ticks w1 = ticks w2 ->
       bookings w1 = bookings (_cancel_booking data w).2 ->
       bookings w2 = delete (bc_booking_id r) (bookings w) ->
       (_find_next_available_slot wid service_type w1).1
       = (_find_next_available_slot wid service_type w2).1.
Proof.
  intros Hrun.
  destruct (cancel_booking_returns data w r Hrun) as (b & n & _ & Hb & _ & Hw & _).
  assert (Hbookings : bookings (_cancel_booking data w).2
                      = <[bc_booking_id r := with_status b (Some "cancelled")]> (bookings w)).
  { rewrite Hw. reflexivity. }
  split; [exists b; split; assumption|].
  intros wid service_type w1 w2 Hclock Hticks H1 H2.
  rewrite !PlannerFacts.find_next_available_slot_run. cbn [fst].
  rewrite H1, H2, Hbookings, Hclock, Hticks. f_equal.
  apply next_slot_insert_inactive. cbn [with_status status].
  intros Hin. repeat (apply elem_of_cons in Hin as [[=] | Hin]). inversion Hin.
Qed.

Lemma cancelled_booking_releases_its_slot_witness :
  let w := Examples.fleet (Examples.ticking Examples.morning) [Examples.north]
             Examples.two_bookings in
  let data : Data := {[ "booking_id" := VScalar (SInt 1) ]} in
  exists b, bookings w !! 1 = Some b
            /\ bookings (_cancel_booking data w).2 = <[1 := with_status b (Some "cancelled")]> (bookings w).
Proof.
  cbv zeta.
  apply (cancelled_booking_releases_its_slot {[ "booking_id" := VScalar (SInt 1) ]}
           (Examples.fleet (Examples.ticking Examples.morning) [Examples.north]
              Examples.two_bookings)
           {| bc_booking_id := 1; bc_status := "cancelled"; bc_reason := "User requested";
              bc_alternative_slots := []; bc_confidence := 1.0%Q;
              bc_timestamp := Examples.morning |}).
  vm_compute. reflexivity.
Defined.

(** A booking cannot be cancelled twice: the second request is
    answered with an error and changes nothing. *)
Theorem cancel_booking_twice (data : Data) (w : World) (r : BookingCancelResult) :
  (_cancel_booking data w).1 = inr (RBookingCancel r) ->
  forall data' : Data,
    Dict.get_int data' "booking_id" = Some (bc_booking_id r) ->
    _cancel_booking data' (_cancel_booking data w).2
    = (inr (RError "Cannot cancel booking with status: cancelled" 0.0%Q None),
       (_cancel_booking data w).2).
Proof.
  intros Hrun data' Hid.
  destruct (cancel_booking_returns data w r Hrun) as (b & n & _ & Hb & _ & Hw & _).
  rewrite Hw. unfold _cancel_booking at 1. cbv zeta. rewrite Hid.
  unfold bind at 1, get_world at 1. cbn [mbind option_bind Spec.advance bookings].
  rewrite lookup_insert_eq. cbn [fmap option_fmap option_map with_status status].
  rewrite bool_decide_eq_true_2; [reflexivity|].
  apply list_elem_of_further, list_elem_of_here.
Qed.

Lemma cancel_booking_twice_witness :
  let w := Examples.fleet (Examples.ticking Examples.morning) [Examples.north]
             Examples.two_bookings in
  let data : Data := {[ "booking_id" := VScalar (SInt 1) ]} in
  _cancel_booking data (_cancel_booking data w).2
  = (inr (RError "Cannot cancel booking with status: cancelled" 0.0%Q None),
     (_cancel_booking data w).2).
Proof.
  cbv zeta.
  apply (cancel_booking_twice {[ "booking_id" := VScalar (SInt 1) ]}
           (Examples.fleet (Examples.ticking Examples.morning) [Examples.north]
              Examples.two_bookings)
           {| bc_booking_id := 1; bc_status := "cancelled"; bc_reason := "User requested";
              bc_alternative_slots := []; bc_confidence := 1.0%Q;
              bc_timestamp := Examples.morning |}).
  - vm_compute. reflexivity.
  - vm_compute. reflexivity.
Defined.

(** *** Workshop search *)









(** *** Schedule optimization *)

Lemma efficiency_formula (avg_gap : Q) :
  let gain := Py.min2 20 (Py.max2 0 (avg_gap - 30) / 30 * 20)%Q in
  (0 <= gain <= 20)%Q
  /\ ((gain == 0)%Q <-> (avg_gap <= 30)%Q)
  /\ ((gain == 20)%Q <-> (60 <= avg_gap)%Q).
Proof.
  cbv zeta. unfold Py.max2.
  destruct (Py.Qltb 0 (avg_gap - 30)) eqn:E;
    [apply Qltb_true in E | apply Qltb_false in E].
  - assert (Hx : ((avg_gap - 30) / 30 * 20 == (avg_gap - 30) * (2 # 3))%Q) by field.
    unfold Py.min2.
    destruct (Py.Qltb ((avg_gap - 30) / 30 * 20) 20) eqn:E2;
      [apply Qltb_true in E2 | apply Qltb_false in E2];
      rewrite Hx in E2; rewrite ?Hx; repeat split; intros; lra.
  - assert (Hx : (0 / 30 * 20 == 0)%Q) by reflexivity.
    unfold Py.min2. change (Py.Qltb (0 / 30 * 20) 20) with true. cbv iota.
    rewrite Hx. repeat split; intros; lra.
Qed.


(** The efficiency analysis of a schedule.  Without bookings it is the
    short answer.  Otherwise the efficiency gain lies between 0 and
    20: it is 0 up to an average gap of 30 minutes and 20 from 60
    minutes on.  Reducing gaps is suggested exactly when the average
    gap exceeds 60 minutes, reordering exactly when the priorities of
    the bookings, in the order given, are not ascending. *)
Theorem schedule_efficiency_analysis (bookings : list Row) :
  match _analyze_schedule_efficiency bookings with
  | EfficiencyOfNone => bookings = []
  | EfficiencyOf gain avg_gap suggestions total_bookings total_duration =>
      bookings <> []
      /\ (0 <= gain <= 20)%Q
      /\ ((gain == 0)%Q <-> (avg_gap <= 30)%Q)
      /\ ((gain == 20)%Q <-> (60 <= avg_gap)%Q)
      /\ ("Reduce gaps between bookings" ∈ suggestions <-> (60 < avg_gap)%Q)
      /\ ("Reorder bookings by priority" ∈ suggestions
          <-> ~ StronglySorted Z.le (priority_rank <$> bookings))
      /\ total_bookings = Z.of_nat (length bookings)
      /\ (length bookings = 1%nat -> avg_gap = 0%Q)
  end.
Proof.
  unfold _analyze_schedule_efficiency.
  destruct bookings as [|first rest]; [reflexivity|].
  set (bookings := first :: rest). cbv zeta.
  set (avg_gap := match gaps bookings with
                  | [] => 0%Q
                  | _ :: _ => (Py.Qsum (gaps bookings)
                               / inject_Z (Z.of_nat (length (gaps bookings))))%Q
                  end).
  destruct (efficiency_formula avg_gap) as (Hrange & Hzero & Hfull). cbv zeta in *.
  split; [discriminate|]. split; [exact Hrange|]. split; [exact Hzero|].
  split; [exact Hfull|]. split; [|split; [|split]].
  - rewrite elem_of_app.
    destruct (Py.Qltb 60 avg_gap) eqn:E;
      [apply Qltb_true in E | apply Qltb_false in E]; split.
    + intros _. exact E.
    + intros _. left. apply list_elem_of_here.
    + intros [Hin | Hin]; [inversion Hin|].
      case_bool_decide; [inversion Hin|].
      apply list_elem_of_singleton in Hin. discriminate Hin.
    + intros H. lra.
  - rewrite elem_of_app. rewrite <- sorted_fixpoint.
    case_bool_decide as Hsorted; split.
    + intros [Hin | Hin]; [|inversion Hin].
      destruct (Py.Qltb 60 avg_gap); [|inversion Hin].
      apply list_elem_of_singleton in Hin. discriminate Hin.
    + intros Hnot. exfalso. apply Hnot. symmetry. exact Hsorted.
    + intros _ Heq. apply Hsorted. symmetry. exact Heq.
    + intros _. right. apply list_elem_of_here.
  - reflexivity.
  - intros Hlen. destruct rest; [reflexivity|discriminate Hlen].
Qed.

Lemma ZZltb_asymmetric (a b : Z * Z) : Py.ZZltb a b = true -> Py.ZZltb b a = false.
Proof.
  destruct a as [a1 a2], b as [b1 b2]. unfold Py.ZZltb. cbn [fst snd].
  destruct (a1 =? b1) eqn:E1, (b1 =? a1) eqn:E2; lia.
Qed.

Lemma ZZltb_transitive (a b c : Z * Z) :
  Py.ZZltb b a = false -> Py.ZZltb c b = false -> Py.ZZltb c a = false.
Proof.
  destruct a as [a1 a2], b as [b1 b2], c as [c1 c2]. unfold Py.ZZltb. cbn [fst snd].
  destruct (b1 =? a1) eqn:E1, (c1 =? b1) eqn:E2, (c1 =? a1) eqn:E3; lia.
Qed.

Lemma lay_out_entries (sorted_bookings : list Row) (current_time : Z) :
  se_booking_id <$> lay_out sorted_bookings current_time = sorted_bookings.*1
  /\ (forall first, head (lay_out sorted_bookings current_time) = Some first ->
                    optimized_slot first = current_time)
  /\ (forall i e, lay_out sorted_bookings current_time !! i = Some e ->
        exists b, sorted_bookings !! i = Some b
                  /\ se_booking_id e = b.1 /\ original_slot e = booking_slot b.2
                  /\ se_duration e = duration b /\ se_priority e = priority b.2
                  /\ se_vehicle_id e = vehicle_id b.2
                  /\ se_service_type e = service_type b.2)
  /\ (forall i a b,
        lay_out sorted_bookings current_time !! i = Some a ->
        lay_out sorted_bookings current_time !! S i = Some b ->
        optimized_slot b = optimized_slot a + Time.minutes (se_duration a) + Time.minutes 30).
Proof.
  revert current_time. induction sorted_bookings as [|booking rest IH]; intros current_time.
  - repeat split; intros; discriminate.
  - destruct (IH (current_time + Time.minutes (duration booking) + Time.minutes 30))
      as (Hids & Hfirst & Hentries & Hchain).
    cbn [lay_out]. split; [|split; [|split]].
    + cbn [fmap list_fmap se_booking_id]. f_equal. exact Hids.
    + intros first [= <-]. reflexivity.
    + intros [|i] e He.
      * injection He as <-. exists booking. repeat split.
      * apply (Hentries i e He).
    + intros [|i] a b Ha Hb.
      * injection Ha as <-. cbn [optimized_slot se_duration].
        apply Hfirst. destruct (lay_out rest _); [discriminate Hb|].
        injection Hb as <-. reflexivity.
      * apply (Hchain i a b Ha Hb).
Qed.

Lemma foldl_min (x : Z) (l : list Z) :
  foldl Z.min x l ∈ x :: l /\ forall y, y ∈ x :: l -> foldl Z.min x l <= y.
Proof.
  revert x. induction l as [|z l IH]; intros x; cbn [foldl].
  - split; [apply list_elem_of_here|]. intros y Hy.
    apply list_elem_of_singleton in Hy. lia.
  - destruct (IH (Z.min x z)) as [Hin Hle]. split.
    + apply elem_of_cons in Hin as [-> | Hin].
      * destruct (Z.min_spec x z) as [[_ ->] | [_ ->]];
          [apply list_elem_of_here | apply list_elem_of_further, list_elem_of_here].
      * do 2 apply list_elem_of_further. exact Hin.
    + intros y Hy. apply elem_of_cons in Hy as [-> | Hy].
      * specialize (Hle (Z.min x z) (list_elem_of_here _ _)). lia.
      * apply elem_of_cons in Hy as [-> | Hy].
        -- specialize (Hle (Z.min x z) (list_elem_of_here _ _)). lia.
        -- apply Hle, list_elem_of_further, Hy.
Qed.


(** The optimized schedule holds every booking once, the more urgent
    first and, within a priority, the earlier slot first.  The first
    entry starts at the earliest original slot and each entry starts
    when the one before it ends, plus a buffer of 30 minutes. *)
Theorem optimized_schedule_is_a_chain (bookings : list Row) :
  let schedule := _generate_optimized_schedule bookings in
  let rank := fun e => default 3 (se_priority e ≫= (fun p => priority_order !! p)) in
  se_booking_id <$> schedule ≡ₚ bookings.*1
  /\ (forall first, head schedule = Some first ->
        (exists b, b ∈ bookings /\ optimized_slot first = booking_slot b.2)
        /\ forall b, b ∈ bookings -> optimized_slot first <= booking_slot b.2)
  /\ (forall i a b,
        schedule !! i = Some a -> schedule !! S i = Some b ->
        optimized_slot b = optimized_slot a + Time.minutes (se_duration a) + Time.minutes 30)
  /\ (forall (i j : nat) a b,
        (i < j)%nat -> schedule !! i = Some a -> schedule !! j = Some b ->
        rank a <= rank b /\ (rank a = rank b -> original_slot a <= original_slot b)).
Proof.
  cbv zeta. unfold _generate_optimized_schedule.
  destruct bookings as [|first others].
  { split; [reflexivity|]. repeat split; intros; discriminate. }
  set (bookings := first :: others).
  set (key := fun b : Row => (priority_rank b, booking_slot b.2)).
  set (start := foldl Z.min (booking_slot first.2)
                  ((fun b : Row => booking_slot b.2) <$> others)).
  destruct (lay_out_entries (Py.sorted Py.ZZltb key bookings) start)
    as (Hids & Hfirst & Hentries & Hchain).
  split; [rewrite Hids, sorted_Permutation; reflexivity|].
  split; [|split; [exact Hchain|]].
  - intros e He. rewrite (Hfirst e He).
    destruct (foldl_min (booking_slot first.2)
                ((fun b : Row => booking_slot b.2) <$> others)) as [Hin Hle].
    fold start in Hin, Hle.
    change (booking_slot first.2 :: ((fun b : Row => booking_slot b.2) <$> others))
      with ((fun b : Row => booking_slot b.2) <$> bookings) in Hin, Hle.
    split.
    + apply list_elem_of_fmap in Hin as (b & Hb & Hin). exists b. auto.
    + intros b Hb. apply Hle. apply (list_elem_of_fmap_2 (fun b : Row => booking_slot b.2)).
      exact Hb.
  - intros i j a b Hij Ha Hb.
    destruct (Hentries i a Ha) as (ba & Hba & _ & Hsa & _ & Hpa & _).
    destruct (Hentries j b Hb) as (bb & Hbb & _ & Hsb & _ & Hpb & _).
    pose proof (StronglySorted_lookup _ _
                  (sorted_StronglySorted Py.ZZltb key bookings
                     ZZltb_asymmetric ZZltb_transitive) i j _ _ Hij Hba Hbb) as Hord.
    unfold key, Py.ZZltb, priority_rank in Hord. cbn [fst snd] in Hord.
    rewrite Hpa, Hpb, Hsa, Hsb.
    destruct (default 3 (priority bb.2 ≫= (fun p => priority_order !! p))
              =? default 3 (priority ba.2 ≫= (fun p => priority_order !! p))) eqn:E; lia.
Qed.



End PlannerOperationFacts.

(** ** The base agent *)

Module BaseAgentFacts.

Import BaseAgent.

(** *** Confidence *)

Lemma foldl_confidence_bounds (counted : list (string * Q)) (lo hi acc : Q) :
  (forall kv, kv ∈ counted -> (lo <= kv.2 <= hi)%Q) ->
  let total := foldl (fun acc (kv : string * Q) => (acc + kv.2)%Q) acc counted in
  let n := inject_Z (Z.of_nat (length counted)) in
  (acc + n * lo <= total)%Q /\ (total <= acc + n * hi)%Q.
Proof.
  revert acc. induction counted as [|kv rest IH]; intros acc Hall; cbv zeta.
  - cbn [foldl length]. change (inject_Z (Z.of_nat 0)) with 0%Q. split; lra.
  - cbn [foldl]. change (length (kv :: rest)) with (S (length rest)).
    rewrite Nat2Z.inj_succ, <- Z.add_1_r, inject_Z_plus.
    destruct (IH (acc + kv.2)%Q) as [H1 H2].
    { intros kv' Hin. apply Hall, list_elem_of_further, Hin. }
    cbv zeta in H1, H2.
    pose proof (Hall kv (list_elem_of_here _ _)) as Hkv.
    change (inject_Z 1) with 1%Q.
    set (n := inject_Z (Z.of_nat (length rest))) in *.
    set (total := foldl _ (acc + kv.2)%Q rest) in *.
    clearbody n total. split; lra.
Qed.

(** The confidence computed from a dictionary of metrics is the mean
    of the entries whose key ends in [_confidence]: it lies within any
    bounds these entries lie in, whatever the other entries are, and
    it is 0.5 when there is no such entry. *)
Theorem calculate_confidence_bounds (metrics : list (string * Q)) (lo hi : Q) :
  (forall key value, (key, value) ∈ metrics -> endswith key "_confidence" = true ->
                     (lo <= value <= hi)%Q) ->
  ((exists key value, (key, value) ∈ metrics /\ endswith key "_confidence" = true) ->
   (lo <= _calculate_confidence metrics <= hi)%Q)
  /\ ((forall key value, (key, value) ∈ metrics -> endswith key "_confidence" = false) ->
      _calculate_confidence metrics = 0.5%Q).
Proof.
  intros Hbounds. unfold _calculate_confidence.
  set (counted := filter (fun kv : string * Q => endswith kv.1 "_confidence" = true) metrics).
  assert (Hcounted : forall kv, kv ∈ counted -> (lo <= kv.2 <= hi)%Q).
  { intros [key value] Hin. apply list_elem_of_filter in Hin as [Hend Hin].
    apply (Hbounds key value Hin Hend). }
  split.
  - intros (key & value & Hin & Hend).
    assert (Hin' : (key, value) ∈ counted) by (apply list_elem_of_filter; auto).
    destruct (0 <? length counted)%nat eqn:Hlen.
    2:{ apply Nat.ltb_ge in Hlen. destruct counted; [inversion Hin'|cbn in Hlen; lia]. }
    apply Nat.ltb_lt in Hlen.
    destruct (foldl_confidence_bounds counted lo hi 0 Hcounted) as [H1 H2].
    cbv zeta in H1, H2.
    set (total := foldl _ 0%Q counted) in *.
    assert (Hn : (0 < inject_Z (Z.of_nat (length counted)))%Q).
    { change 0%Q with (inject_Z 0). rewrite <- Zlt_Qlt. lia. }
    set (n := inject_Z (Z.of_nat (length counted))) in *.
    clearbody n total.
    split.
    + apply Qle_shift_div_l; [exact Hn|]. rewrite (Qmult_comm lo n). lra.
    + apply Qle_shift_div_r; [exact Hn|]. rewrite (Qmult_comm hi n). lra.
  - intros Hnone.
    assert (Hnil : counted = []).
    { destruct counted as [|[key value] rest] eqn:E; [reflexivity|].
      assert (Hin : (key, value) ∈ counted) by (rewrite E; apply list_elem_of_here).
      apply list_elem_of_filter in Hin as [Hend Hin]. cbn [fst] in Hend.
      rewrite (Hnone key value Hin) in Hend. discriminate Hend. }
    rewrite Hnil. reflexivity.
Qed.

Lemma calculate_confidence_bounds_witness :
  (0.75 <= _calculate_confidence
             [("data_confidence", 0.9%Q); ("model_confidence", 0.75%Q); ("rows", 12%Q)]
   <= 0.9)%Q.
Proof.
  apply (calculate_confidence_bounds
           [("data_confidence", 0.9%Q); ("model_confidence", 0.75%Q); ("rows", 12%Q)]
           0.75 0.9).
  - intros key value Hin Hend.
    repeat (apply elem_of_cons in Hin as [[= -> ->] | Hin]);
      [split; discriminate | split; discriminate | discriminate Hend | inversion Hin].
  - exists "data_confidence", 0.9%Q. split; [apply list_elem_of_here | reflexivity].
Defined.

(** *** The audit table *)





End BaseAgentFacts.

(** ** Single actions, emergencies and the agents as set up *)

Module CoordinatorOperationFacts.

Import AgentCoordinator.

(** *** Logged calls *)

Lemma update_action_frame (action_id : Z) (f : AgentAction -> AgentAction) (w : World) :
  exists rows, BaseAgent.update_action action_id f w = (inr tt, Spec.with_audit rows w).
Proof.
  unfold BaseAgent.update_action, bind, get_world.
  destruct (agent_actions w !! _); [destruct (1 <=? action_id)|].
  - eexists. reflexivity.
  - exists (agent_actions w). destruct w. reflexivity.
  - exists (agent_actions w). destruct w. reflexivity.
Qed.

(** A logged call runs [process] once, on the state it is given with
    one more row in the audit table, and leaves the state [process]
    leaves, but for the audit table. *)
Lemma logged_call (self : BaseAgent.t) (action_type : string) (data : Data)
    (vehicle_id : option Z) (w : World) :
  exists rows1 w2 rows3,
    BaseAgent.process self data (Spec.with_audit rows1 w)
    = ((BaseAgent.execute_with_logging self action_type data vehicle_id w).1, w2)
    /\ (BaseAgent.execute_with_logging self action_type data vehicle_id w).2
       = Spec.with_audit rows3 w2.
Proof.
  destruct (BaseAgent.execute_with_logging self action_type data vehicle_id w)
    as [res w'] eqn:Hrun.
  unfold BaseAgent.execute_with_logging in Hrun. unfold bind at 1 in Hrun.
  destruct (BaseAgent.log_action self action_type vehicle_id data "processing" w)
    as [[e|action_id] w1] eqn:Hlog; [discriminate Hlog|].
  assert (Hw1 : exists rows1, w1 = Spec.with_audit rows1 w).
  { eexists. unfold BaseAgent.log_action, bind, get_world, set_agent_actions, ret in Hlog.
    injection Hlog as _ <-. reflexivity. }
  destruct Hw1 as (rows1 & ->).
  unfold try_except, bind at 1 in Hrun.
  destruct (BaseAgent.process self data (Spec.with_audit rows1 w)) as [[e|result] w2]
    eqn:Hprocess.
  - unfold bind in Hrun. exists rows1, w2. rewrite Hprocess.
    destruct (negb (action_id =? 0)).
    + destruct (update_action_frame action_id (BaseAgent.failed (exn_message e)) w2)
        as (rows3 & Hupdate).
      rewrite Hupdate in Hrun. injection Hrun as <- <-. exists rows3. split; reflexivity.
    + injection Hrun as <- <-. exists (agent_actions w2). split; [reflexivity|].
      destruct w2. reflexivity.
  - unfold bind in Hrun. exists rows1, w2. rewrite Hprocess.
    destruct (update_action_frame action_id (BaseAgent.completed result) w2)
      as (rows3 & Hupdate).
    rewrite Hupdate in Hrun. injection Hrun as <- <-. exists rows3. split; reflexivity.
Qed.

Lemma agents_lookup (self : t) (agent_name : string) :
  agents self !! agent_name
  = if decide (agent_name = "health_monitor") then Some (health_monitor self)
    else if decide (agent_name = "planner") then Some (planner self)
    else if decide (agent_name = "communicator") then Some (communicator self)
    else if decide (agent_name = "logger") then Some (logger_agent self)
    else None.
Proof.
  unfold agents.
  destruct (decide (agent_name = "health_monitor")) as [->|H1].
  { by rewrite lookup_insert_eq. }
  rewrite lookup_insert_ne by done.
  destruct (decide (agent_name = "planner")) as [->|H2].
  { by rewrite lookup_insert_eq. }
  rewrite lookup_insert_ne by done.
  destruct (decide (agent_name = "communicator")) as [->|H3].
  { by rewrite lookup_insert_eq. }
  rewrite lookup_insert_ne by done.
  destruct (decide (agent_name = "logger")) as [->|H4].
  { by rewrite lookup_singleton_eq. }
  by rewrite lookup_singleton_ne.
Qed.

(** *** Single actions *)


(** With the health monitor as [__init__] creates it, the single
    action [anomaly_detection] does reach anomaly detection: it
    returns a report of the anomalies of the reading stored under
    ["telemetry"], with their number, their severities, the greatest
    severity score and the vehicle of the request. *)
Theorem single_action_detects_anomalies (self : t)
    (perform_health_check predict_maintenance_needs : option Z -> M HealthMonitorAgent.Outcome)
    (data : Data) (w : World) :
  health_monitor self = HealthMonitor perform_health_check predict_maintenance_needs ->
  let telemetry := default [] (Dict.get_telemetry data "telemetry") in
  let found := HealthMonitorAgent.check_each HealthMonitorAgent.__init__ telemetry in
  exists report w',
    execute_agent_action self "health_monitor" "anomaly_detection" data w
    = (inr (RAnomalyReport report), w')
    /\ anomalies_detected report = Z.of_nat (length found)
    /\ severity <$> anomalies report = severity <$> found
    /\ overall_severity report
       = match severity_score <$> found with
         | s :: rest => Py.max_from s rest
         | [] => 0.0%Q
         end
    /\ ar_vehicle_id report = Dict.get_int data "vehicle_id".
Proof.
  intros Hmonitor. cbv zeta.
  unfold execute_agent_action. rewrite agents_lookup.
  rewrite decide_True by reflexivity. unfold try_except. cbv zeta. rewrite Hmonitor.
  set (monitor := HealthMonitor perform_health_check predict_maintenance_needs).
  set (request := <["action" := VScalar (SStr "anomaly_detection")]> data).
  destruct (logged_call monitor "anomaly_detection" request
              (Dict.get_int request "vehicle_id") w)
    as (rows1 & w2 & rows3 & Hprocess & Hworld).
  cbn [BaseAgent.process HealthMonitor monitor] in Hprocess.
  unfold HealthMonitorAgent.process in Hprocess.
  assert (Haction : Dict.get_str request "action" = Some "anomaly_detection").
  { unfold Dict.get_str, request. by rewrite lookup_insert_eq. }
  rewrite Haction in Hprocess. cbn [default] in Hprocess.
  rewrite bool_decide_eq_false_2 in Hprocess by discriminate.
  rewrite bool_decide_eq_true_2 in Hprocess by reflexivity.
  assert (Htelemetry : Dict.get_telemetry request "telemetry"
                       = Dict.get_telemetry data "telemetry").
  { unfold Dict.get_telemetry, request. by rewrite lookup_insert_ne. }
  assert (Hid : Dict.get_int request "vehicle_id" = Dict.get_int data "vehicle_id").
  { unfold Dict.get_int, request. by rewrite lookup_insert_ne. }
  destruct (HealthMonitorFacts.detect_anomalies_report HealthMonitorAgent.__init__ request
              (Spec.with_audit rows1 w))
    as (l & r & Hreport & Hscores & Hseverities & Hl & Hcount & Hoverall & _).
  assert (Hvehicle : ar_vehicle_id r = Dict.get_int data "vehicle_id").
  { rewrite <- Hid. revert Hreport.
    unfold HealthMonitorAgent._detect_anomalies, bind, utcnow, ret. cbn [fst].
    intros [= <-]. reflexivity. }
  unfold bind in Hprocess.
  destruct (HealthMonitorAgent._detect_anomalies HealthMonitorAgent.__init__ request
              (Spec.with_audit rows1 w)) as [[e|r'] w1]; cbn [fst] in Hreport;
    [discriminate Hreport|].
  injection Hreport as ->. unfold ret in Hprocess.
  destruct (BaseAgent.execute_with_logging monitor "anomaly_detection" request _ w)
    as [[e|result] w'];
    cbn [fst snd] in Hprocess, Hworld; [discriminate Hprocess|].
  injection Hprocess as <- _.
  exists r, w'. split; [reflexivity|].
  rewrite Htelemetry in Hscores, Hseverities.
  split.
  { rewrite Hcount. f_equal.
    rewrite <- (length_fmap severity_score l), Hscores.
    apply length_fmap. }
  split; [by rewrite Hl|].
  split; [by rewrite Hoverall, Hscores|].
  exact Hvehicle.
Qed.

Lemma single_action_detects_anomalies_witness :
  exists report w',
    execute_agent_action Examples.shipped "health_monitor" "anomaly_detection"
      (health_request 1 Examples.hot_and_worn) Examples.depot
    = (inr (RAnomalyReport report), w')
    /\ anomalies_detected report = 2.
Proof.
  destruct (single_action_detects_anomalies Examples.shipped _ _
              (health_request 1 Examples.hot_and_worn) Examples.depot eq_refl)
    as (report & w' & Hrun & Hcount & _).
  exists report, w'. split; [exact Hrun|]. rewrite Hcount.
  vm_compute. reflexivity.
Defined.

(** *** Emergencies *)

(** [handle_emergency] never raises.  It calls the notifier, then the
    planner, then the logger, each in the state the one before left,
    but for the audit table.  It reports the emergency as handled
    exactly when the three calls returned, with the three results in
    this order, whatever they are.  When one of them raises, the calls
    after it are not made, the result carries the message of the
    exception, and what the calls before it wrote stays written. *)
Theorem handle_emergency_outcome (self : t) (vehicle_id : Z)
    (emergency_data : list (string * Scalar)) (w : World) :
  let alert := emergency_alert_request vehicle_id emergency_data in
  let booking := emergency_booking_request vehicle_id emergency_data in
  let status := emergency_status_request vehicle_id emergency_data in
  exists r w',
    handle_emergency self vehicle_id emergency_data w = (inr r, w')
    /\ match r with
       | EmergencyHandled v actions_taken results timestamp =>
           v = vehicle_id
           /\ actions_taken = ["emergency_alert"; "emergency_booking"; "status_update"]
           /\ exists a b s rows1 w1 rows2 w2 rows3 w3 rows4,
                results = [("emergency_alert", a); ("emergency_booking", b);
                           ("status_update", s)]
                /\ BaseAgent.process (communicator self) alert (Spec.with_audit rows1 w)
                   = (inr a, w1)
                /\ BaseAgent.process (planner self) booking (Spec.with_audit rows2 w1)
                   = (inr b, w2)
                /\ BaseAgent.process (logger_agent self) status (Spec.with_audit rows3 w2)
                   = (inr s, w3)
                /\ timestamp = clock w3 (ticks w3)
                /\ w' = Spec.advance 1 (Spec.with_audit rows4 w3)
       | EmergencyNotHandled error =>
           exists e rows1 w1 rows4,
             error = exn_message e
             /\ (BaseAgent.process (communicator self) alert (Spec.with_audit rows1 w)
                 = (inl e, w1)
                 /\ w' = Spec.with_audit rows4 w1
                 \/ exists a rows2 w2,
                      BaseAgent.process (communicator self) alert (Spec.with_audit rows1 w)
                      = (inr a, w1)
                      /\ (BaseAgent.process (planner self) booking (Spec.with_audit rows2 w1)
                          = (inl e, w2)
                          /\ w' = Spec.with_audit rows4 w2
                          \/ exists b rows3 w3,
                               BaseAgent.process (planner self) booking
                                 (Spec.with_audit rows2 w1) = (inr b, w2)
                               /\ BaseAgent.process (logger_agent self) status
                                    (Spec.with_audit rows3 w2) = (inl e, w3)
                               /\ w' = Spec.with_audit rows4 w3))
       end.
Proof.
  cbv zeta. unfold handle_emergency, try_except.
  unfold bind at 1.
  destruct (logged_call (communicator self) "send_alert"
              (emergency_alert_request vehicle_id emergency_data) (Some vehicle_id) w)
    as (rows1 & w1 & rows1' & Hp1 & Hw1).
  destruct (BaseAgent.execute_with_logging (communicator self) _ _ _ w) as [[e|a] wa];
    cbn [fst snd] in Hp1, Hw1; subst wa.
  { eexists. eexists. split; [reflexivity|]. exists e, rows1, w1, rows1'.
    split; [reflexivity|]. left. split; [exact Hp1 | reflexivity]. }
  unfold bind at 1.
  destruct (logged_call (planner self) "schedule_booking"
              (emergency_booking_request vehicle_id emergency_data) (Some vehicle_id)
              (Spec.with_audit rows1' w1))
    as (rows2 & w2 & rows2' & Hp2 & Hw2).
  change (Spec.with_audit rows2 (Spec.with_audit rows1' w1))
    with (Spec.with_audit rows2 w1) in Hp2.
  destruct (BaseAgent.execute_with_logging (planner self) _ _ _ _) as [[e|b] wb];
    cbn [fst snd] in Hp2, Hw2; subst wb.
  { eexists. eexists. split; [reflexivity|]. exists e, rows1, w1, rows2'.
    split; [reflexivity|]. right. exists a, rows2, w2. split; [exact Hp1|].
    left. split; [exact Hp2 | reflexivity]. }
  unfold bind at 1.
  destruct (logged_call (logger_agent self) "update_vehicle_status"
              (emergency_status_request vehicle_id emergency_data) (Some vehicle_id)
              (Spec.with_audit rows2' w2))
    as (rows3 & w3 & rows3' & Hp3 & Hw3).
  change (Spec.with_audit rows3 (Spec.with_audit rows2' w2))
    with (Spec.with_audit rows3 w2) in Hp3.
  destruct (BaseAgent.execute_with_logging (logger_agent self) _ _ _ _) as [[e|s] wc];
    cbn [fst snd] in Hp3, Hw3; subst wc.
  { eexists. eexists. split; [reflexivity|]. exists e, rows1, w1, rows3'.
    split; [reflexivity|]. right. exists a, rows2, w2. split; [exact Hp1|].
    right. exists b, rows3, w3. split; [exact Hp2|]. split; [exact Hp3 | reflexivity]. }
  unfold bind, utcnow, ret. cbn [clock ticks Spec.with_audit].
  eexists. eexists. split; [reflexivity|].
  split; [reflexivity|]. split; [reflexivity|].
  exists a, b, s, rows1, w1, rows2, w2, rows3, w3, rows3'.
  split; [reflexivity|]. split; [exact Hp1|]. split; [exact Hp2|]. split; [exact Hp3|].
  split; reflexivity.
Qed.

(** *** The planner behind the coordinator *)

Lemma emergency_booking_runs_schedule_booking
    (find_available_workshops optimize_booking_schedule : Data -> M AgentResult)
    (vehicle_id : Z) (emergency_data : list (string * Scalar)) (w : World) :
  BaseAgent.process (Planner find_available_workshops optimize_booking_schedule)
    (emergency_booking_request vehicle_id emergency_data) w
  = PlannerAgent._schedule_booking (emergency_booking_request vehicle_id emergency_data) w.
Proof.
  cbn [BaseAgent.process Planner]. unfold PlannerAgent.process.
  assert (Haction : Dict.get_str (emergency_booking_request vehicle_id emergency_data)
                      "action" = None).
  { unfold Dict.get_str, emergency_booking_request.
    repeat rewrite lookup_insert_ne by discriminate.
    rewrite lookup_singleton_ne by discriminate. reflexivity. }
  rewrite Haction. reflexivity.
Qed.

(** A booking request for a vehicle that is not in the table, or for
    a service no workshop offers, is answered with an error
    dictionary and changes nothing. *)
Lemma emergency_booking_refused (vehicle_id : Z) (emergency_data : list (string * Scalar))
    (w : World) :
  vehicles w !! vehicle_id = None
  \/ Forall (fun ws => ("emergency" ∉ specialties ws) /\ ("all" ∉ specialties ws)
                       /\ ("general" ∉ specialties ws)) (workshops w) ->
  exists error,
    PlannerAgent._schedule_booking (emergency_booking_request vehicle_id emergency_data) w
    = (inr (RError error 0.0%Q None), w)
    /\ error ∈ ["Vehicle not found"; "No available workshops found"].
Proof.
  intros Hcase. unfold PlannerAgent._schedule_booking. cbv zeta.
  assert (Hid : Dict.get_int (emergency_booking_request vehicle_id emergency_data)
                  "vehicle_id" = Some vehicle_id).
  { unfold Dict.get_int, emergency_booking_request. by rewrite lookup_insert_eq. }
  assert (Hservice : Dict.get_str (emergency_booking_request vehicle_id emergency_data)
                       "service_type" = Some "emergency").
  { unfold Dict.get_str, emergency_booking_request.
    rewrite lookup_insert_ne by discriminate. by rewrite lookup_insert_eq. }
  rewrite Hid, Hservice. change (default "maintenance" (Some "emergency")) with "emergency".
  unfold bind at 1, get_world at 1. cbn [mbind option_bind].
  destruct (vehicles w !! vehicle_id) as [vehicle|] eqn:Hvehicle.
  2:{ exists "Vehicle not found". split; [reflexivity | apply list_elem_of_here]. }
  destruct Hcase as [Hnone|Hnone]; [discriminate Hnone|].
  unfold bind at 1, PlannerAgent._find_suitable_workshops at 1.
  unfold bind at 1, get_world at 1, ret at 1.
  assert (Hfilter : filter (fun ws => "emergency" ∈ specialties ws
                                      \/ "all" ∈ specialties ws
                                      \/ "general" ∈ specialties ws) (workshops w) = []).
  { induction Hnone as [|ws l (H1 & H2 & H3) _ IH]; [reflexivity|].
    rewrite filter_cons_False by tauto. exact IH. }
  rewrite Hfilter.
  exists "No available workshops found".
  split; [reflexivity | apply list_elem_of_further, list_elem_of_here].
Qed.

(** With the planner as [__init__] creates it, and a notifier and a
    logger that answer and do not write to the vehicles, workshops
    and bookings, an emergency is reported as handled also when no
    booking was made: for a vehicle that is not in the table, or when
    no workshop offers the emergency service, the booking result is
    the error dictionary of [_schedule_booking] and the bookings are
    as before. *)
Theorem emergency_handled_without_booking (self : t)
    (find_available_workshops optimize_booking_schedule : Data -> M AgentResult)
    (vehicle_id : Z) (emergency_data : list (string * Scalar)) (w : World) :
  planner self = Planner find_available_workshops optimize_booking_schedule ->
  (forall agent, agent = communicator self \/ agent = logger_agent self ->
   forall data w, exists r w',
     BaseAgent.process agent data w = (inr r, w')
     /\ vehicles w' = vehicles w /\ workshops w' = workshops w
     /\ bookings w' = bookings w) ->
  vehicles w !! vehicle_id = None
  \/ Forall (fun ws => ("emergency" ∉ specialties ws) /\ ("all" ∉ specialties ws)
                       /\ ("general" ∉ specialties ws)) (workshops w) ->
  exists a error s timestamp w',
    handle_emergency self vehicle_id emergency_data w
    = (inr (EmergencyHandled vehicle_id
              ["emergency_alert"; "emergency_booking"; "status_update"]
              [("emergency_alert", a);
               ("emergency_booking", RError error 0.0%Q None);
               ("status_update", s)]
              timestamp), w')
    /\ error ∈ ["Vehicle not found"; "No available workshops found"]
    /\ bookings w' = bookings w.
Proof.
  intros Hplanner Hanswer Hcase.
  unfold handle_emergency, try_except.
  unfold bind at 1.
  destruct (logged_call (communicator self) "send_alert"
              (emergency_alert_request vehicle_id emergency_data) (Some vehicle_id) w)
    as (rows1 & w1 & rows1' & Hp1 & Hw1).
  destruct (Hanswer (communicator self) (or_introl eq_refl)
              (emergency_alert_request vehicle_id emergency_data)
              (Spec.with_audit rows1 w)) as (a & w1' & Ha & Hv1 & Hs1 & Hb1).
  rewrite Ha in Hp1.
  cbn [vehicles workshops bookings Spec.with_audit] in Hv1, Hs1, Hb1.
  destruct (BaseAgent.execute_with_logging (communicator self) _ _ _ w) as [[e|a'] wa];
    cbn [fst snd] in Hp1, Hw1; [discriminate Hp1|].
  injection Hp1 as <- <-. subst wa.
  unfold bind at 1. rewrite Hplanner.
  destruct (logged_call (Planner find_available_workshops optimize_booking_schedule)
              "schedule_booking"
              (emergency_booking_request vehicle_id emergency_data) (Some vehicle_id)
              (Spec.with_audit rows1' w1'))
    as (rows2 & w2 & rows2' & Hp2 & Hw2).
  rewrite emergency_booking_runs_schedule_booking in Hp2.
  destruct (emergency_booking_refused vehicle_id emergency_data
              (Spec.with_audit rows2 (Spec.with_audit rows1' w1')))
    as (error & Hrefused & Herror).
  { cbn [vehicles workshops Spec.with_audit]. by rewrite Hv1, Hs1. }
  rewrite Hrefused in Hp2.
  destruct (BaseAgent.execute_with_logging (Planner _ _) _ _ _ _) as [[e|b] wb];
    cbn [fst snd] in Hp2, Hw2; [discriminate Hp2|].
  injection Hp2 as <- <-. subst wb.
  unfold bind at 1.
  destruct (logged_call (logger_agent self) "update_vehicle_status"
              (emergency_status_request vehicle_id emergency_data) (Some vehicle_id)
              (Spec.with_audit rows2'
                 (Spec.with_audit rows2 (Spec.with_audit rows1' w1'))))
    as (rows3 & w3 & rows3' & Hp3 & Hw3).
  destruct (Hanswer (logger_agent self) (or_intror eq_refl)
              (emergency_status_request vehicle_id emergency_data)
              (Spec.with_audit rows3
                 (Spec.with_audit rows2'
                    (Spec.with_audit rows2 (Spec.with_audit rows1' w1')))))
    as (s & w3' & Hs & _ & _ & Hb3).
  rewrite Hs in Hp3. cbn [bookings Spec.with_audit] in Hb3.
  destruct (BaseAgent.execute_with_logging (logger_agent self) _ _ _ _) as [[e|s'] wc];
    cbn [fst snd] in Hp3, Hw3; [discriminate Hp3|].
  injection Hp3 as <- <-. subst wc.
  unfold bind, utcnow, ret. cbn [clock ticks Spec.with_audit].
  exists a, error, s. eexists. eexists. split; [reflexivity|].
  split; [exact Herror|].
  cbn [bookings Spec.with_audit]. by rewrite Hb3, Hb1.
Qed.

Lemma emergency_handled_without_booking_witness :
  exists a error s timestamp w',
    handle_emergency Examples.shipped 7 [("issue", SStr "Battery fire")] Examples.depot
    = (inr (EmergencyHandled 7
              ["emergency_alert"; "emergency_booking"; "status_update"]
              [("emergency_alert", a);
               ("emergency_booking", RError error 0.0%Q None);
               ("status_update", s)]
              timestamp), w')
    /\ error ∈ ["Vehicle not found"; "No available workshops found"]
    /\ bookings w' = bookings Examples.depot.
Proof.
  apply (emergency_handled_without_booking Examples.shipped _ _ 7
           [("issue", SStr "Battery fire")] Examples.depot eq_refl).
  - intros agent [-> | ->] data w; eexists; eexists; (split; [reflexivity|]); done.
  - left. reflexivity.
Defined.

(** *** The pipeline with the agents as set up *)

(** With the health monitor as [__init__] creates it, the telemetry
    pipeline never calls the planner or the notifier.  The request of
    its health stage has no ["action"] entry, so the stage runs the
    health check, not anomaly detection; the result has no count of
    anomalies, and the pipeline returns after this stage, with the
    results of the logging and health stages at most.  What it returns
    and the state it leaves are the same under any other planner and
    notifier. *)
Theorem shipped_pipeline_never_plans (self self' : t)
    (perform_health_check predict_maintenance_needs : option Z -> M HealthMonitorAgent.Outcome)
    (vehicle_id : Z) (telemetry_data : Telemetry) (w : World) :
  health_monitor self = HealthMonitor perform_health_check predict_maintenance_needs ->
  health_monitor self' = health_monitor self ->
  logger_agent self' = logger_agent self ->
  process_vehicle_telemetry self' vehicle_id telemetry_data w
  = process_vehicle_telemetry self vehicle_id telemetry_data w
  /\ (forall w1,
        BaseAgent.process (health_monitor self) (health_request vehicle_id telemetry_data) w1
        = (o <- perform_health_check (Some vehicle_id) ;;
           ret (HealthMonitorAgent.outcome_result "health_check" o)) w1)
  /\ exists r w',
       process_vehicle_telemetry self vehicle_id telemetry_data w = (inr r, w')
       /\ forall key result, (key, result) ∈ stage_results r ->
            key = "logging" \/ key = "health_monitoring".
Proof.
  intros Hmonitor Hmonitor' Hlogger'.
  split; [|split].
  - unfold process_vehicle_telemetry. cbv zeta.
    unfold log_call, health_call. rewrite Hmonitor', Hlogger'.
    unfold bind, utcnow, attempt.
    destruct (BaseAgent.execute_with_logging (logger_agent self) _ _ _ _)
      as [[e|log_result] w1]; [reflexivity|].
    pose proof (CoordinatorFacts.execute_with_logging_outcome (health_monitor self)
                  "anomaly_detection" (health_request vehicle_id telemetry_data)
                  (Some vehicle_id) w1) as (wa & wb & Hrun).
    destruct (BaseAgent.execute_with_logging (health_monitor self) _ _ _ w1)
      as [[e|health_result] w2]; cbn [fst] in Hrun; [reflexivity|].
    rewrite Hmonitor, CoordinatorFacts.health_request_runs_health_check in Hrun.
    unfold bind in Hrun.
    destruct (perform_health_check (Some vehicle_id) wa) as [[e|o] wc];
      [discriminate Hrun|].
    injection Hrun as <- _.
    assert (Hnone : get_anomalies_detected
                      (HealthMonitorAgent.outcome_result "health_check" o) = 0)
      by (destruct o; reflexivity).
    rewrite Hnone. reflexivity.
  - intros w1. rewrite Hmonitor.
    apply CoordinatorFacts.health_request_runs_health_check.
  - apply (CoordinatorFacts.shipped_pipeline_stops_after_health_check self
             perform_health_check predict_maintenance_needs vehicle_id telemetry_data w
             Hmonitor).
Qed.

Lemma shipped_pipeline_never_plans_witness :
  process_vehicle_telemetry Examples.shipped_notifier_down 1 Examples.hot_and_worn
    Examples.depot
  = process_vehicle_telemetry Examples.shipped 1 Examples.hot_and_worn Examples.depot.
Proof.
  apply (shipped_pipeline_never_plans Examples.shipped Examples.shipped_notifier_down
           _ _ 1 Examples.hot_and_worn Examples.depot eq_refl eq_refl eq_refl).
Defined.

(** *** Unknown actions *)

Lemma update_action_last (f : AgentAction -> AgentAction) (rows : list AgentAction)
    (row : AgentAction) (w : World) :
  BaseAgent.update_action (Z.of_nat (length rows) + 1) f (Spec.with_audit (rows ++ [row]) w)
  = (inr tt, Spec.with_audit (rows ++ [f row]) w).
Proof.
  unfold BaseAgent.update_action, bind, get_world. cbn [agent_actions Spec.with_audit].
  replace (Z.to_nat (Z.of_nat (length rows) + 1 - 1)) with (length rows) by lia.
  rewrite list_lookup_middle by reflexivity.
  destruct (1 <=? Z.of_nat (length rows) + 1) eqn:E; [|apply Z.leb_gt in E; lia].
  unfold set_agent_actions, Spec.with_audit. cbn [clock ticks vehicles workshops bookings
    vehicle_telemetry agent_actions].
  rewrite insert_app_r_alt by reflexivity. rewrite Nat.sub_diag. reflexivity.
Qed.

(** With the planner and the health monitor as [__init__] creates
    them, a single action that the agent does not know is answered
    with an error dictionary that names the action, with confidence
    0; nothing is raised.  The call writes one row to the audit table,
    failed, with the same message, and nothing else. *)
Theorem unknown_action_is_reported (self : t)
    (find_available_workshops optimize_booking_schedule : Data -> M AgentResult)
    (perform_health_check predict_maintenance_needs : option Z -> M HealthMonitorAgent.Outcome)
    (agent_name action : string) (data : Data) (w : World) :
  planner self = Planner find_available_workshops optimize_booking_schedule ->
  health_monitor self = HealthMonitor perform_health_check predict_maintenance_needs ->
  agent_name = "planner"
  /\ (action ∉ ["schedule_booking"; "find_workshops"; "optimize_schedule";
                "update_booking"; "cancel_booking"])
  \/ agent_name = "health_monitor"
     /\ (action ∉ ["health_check"; "anomaly_detection"; "predictive_analysis"]) ->
  let request := <["action" := VScalar (SStr action)]> data in
  let message := "Unknown action type: " +:+ action in
  execute_agent_action self agent_name action data w
  = (inr (RError message 0.0%Q None),
     Spec.with_audit
       (agent_actions w ++
        [{| agent_name := if decide (agent_name = "planner") then "Planner"
                          else "HealthMonitor";
            action_type := action;
            aa_vehicle_id := Dict.get_int request "vehicle_id";
            input_data := request; output_data := None; aa_status := "failed";
            aa_confidence_score := None; error_message := Some message |}]) w).
Proof.
  intros Hplanner Hmonitor Hcase. cbv zeta.
  set (request := <["action" := VScalar (SStr action)]> data).
  assert (Haction : Dict.get_str request "action" = Some action).
  { unfold Dict.get_str, request. by rewrite lookup_insert_eq. }
  assert (Hrun : forall agent : BaseAgent.t,
            (forall w1, BaseAgent.process agent request w1
                        = (inl (ValueError ("Unknown action type: " +:+ action)), w1)) ->
            try_except
              (BaseAgent.execute_with_logging agent action request
                 (Dict.get_int request "vehicle_id"))
              (fun e => ret (RError (exn_message e) 0.0%Q None)) w
            = (inr (RError ("Unknown action type: " +:+ action) 0.0%Q None),
               Spec.with_audit
                 (agent_actions w ++
                  [{| agent_name := BaseAgent.name agent; action_type := action;
                      aa_vehicle_id := Dict.get_int request "vehicle_id";
                      input_data := request; output_data := None; aa_status := "failed";
                      aa_confidence_score := None;
                      error_message := Some ("Unknown action type: " +:+ action) |}]) w)).
  { intros agent Hraises. unfold try_except, BaseAgent.execute_with_logging.
    unfold bind at 1.
    change (BaseAgent.log_action agent action (Dict.get_int request "vehicle_id") request
              "processing" w)
      with (inr (A := Exn) (Z.of_nat (length (agent_actions w)) + 1),
            Spec.with_audit
              (agent_actions w ++
               [{| agent_name := BaseAgent.name agent; action_type := action;
                   aa_vehicle_id := Dict.get_int request "vehicle_id";
                   input_data := request; output_data := None;
                   aa_status := "processing"; aa_confidence_score := None;
                   error_message := None |}]) w).
    unfold try_except, bind at 1. rewrite Hraises.
    assert (Hid : negb (Z.of_nat (length (agent_actions w)) + 1 =? 0) = true)
      by (apply negb_true_iff, Z.eqb_neq; lia).
    rewrite Hid. unfold bind at 1. rewrite update_action_last. reflexivity. }
  unfold execute_agent_action. rewrite agents_lookup.
  destruct Hcase as [[-> Hunknown] | [-> Hunknown]].
  - rewrite decide_False by discriminate. rewrite !decide_True by reflexivity.
    cbv zeta. fold request. rewrite Hplanner. apply Hrun.
    intros w1. cbn [BaseAgent.process Planner]. unfold PlannerAgent.process.
    rewrite Haction. cbn [default from_option id].
    repeat (rewrite bool_decide_eq_false_2 by (intros ->; apply Hunknown; set_solver)).
    reflexivity.
  - rewrite decide_True by reflexivity. rewrite decide_False by discriminate.
    cbv zeta. fold request. rewrite Hmonitor. apply Hrun.
    intros w1. cbn [BaseAgent.process HealthMonitor]. unfold HealthMonitorAgent.process.
    rewrite Haction. cbn [default from_option id].
    repeat (rewrite bool_decide_eq_false_2 by (intros ->; apply Hunknown; set_solver)).
    reflexivity.
Qed.

Lemma unknown_action_is_reported_witness :
  (execute_agent_action Examples.shipped "planner" "reschedule"
     (confirmation_request 1) Examples.depot).1
  = inr (RError "Unknown action type: reschedule" 0.0%Q None).
Proof.
  rewrite (unknown_action_is_reported Examples.shipped _ _ _ _ "planner" "reschedule"
             (confirmation_request 1) Examples.depot eq_refl eq_refl).
  - reflexivity.
  - left. split; [reflexivity|]. intros Hin.
    repeat (apply elem_of_cons in Hin as [Hin|Hin]; [discriminate Hin|]).
    inversion Hin.
Defined.

End CoordinatorOperationFacts.

(** ** Trends of a stored history *)

Module TrendFacts.

Import HealthMonitorAgent.

Local Abbreviation range k n := ((fun i : nat => inject_Z (Z.of_nat i)) <$> seq k n).

Lemma omap_reverse {A B : Type} (f : A -> option B) (l : list A) :
  omap f (reverse l) = reverse (omap f l).
Proof.
  induction l as [|x l IH]; [reflexivity|].
  rewrite reverse_cons, omap_app, IH. cbn [omap list_omap].
  destruct (f x); [rewrite reverse_cons | rewrite app_nil_r]; reflexivity.
Qed.

Lemma length_omap_le {A B : Type} (f : A -> option B) (l : list A) :
  (length (omap f l) <= length l)%nat.
Proof.
  induction l as [|x l IH]; [reflexivity|].
  cbn [omap list_omap]. destruct (f x); cbn [length]; lia.
Qed.

Lemma Qsum_reverse (l : list Q) : (Py.Qsum (reverse l) == Py.Qsum l)%Q.
Proof.
  induction l as [|x l IH]; [reflexivity|].
  rewrite reverse_cons, HealthMonitorFacts.Qsum_app, IH.
  change (Py.Qsum [x]) with (x + 0)%Q. change (Py.Qsum (x :: l)) with (x + Py.Qsum l)%Q.
  ring.
Qed.

Lemma inject_S (k : nat) : (inject_Z (Z.of_nat (S k)) == inject_Z (Z.of_nat k) + 1)%Q.
Proof. rewrite Nat2Z.inj_succ, <- Z.add_1_r, inject_Z_plus. reflexivity. Qed.

(** Moving the abscissas one step to the right adds the sum of the
    values to the sum of products. *)
Lemma products_shift (k : nat) (y : list Q) :
  (Py.Qsum (zip_with Qmult (range (S k) (length y)) y)
   == Py.Qsum (zip_with Qmult (range k (length y)) y) + Py.Qsum y)%Q.
Proof.
  revert k. induction y as [|v y IH]; intros k.
  - cbn. ring.
  - change (Py.Qsum (zip_with Qmult (range (S k) (length (v :: y))) (v :: y)))
      with (inject_Z (Z.of_nat (S k)) * v
            + Py.Qsum (zip_with Qmult (range (S (S k)) (length y)) y))%Q.
    change (Py.Qsum (zip_with Qmult (range k (length (v :: y))) (v :: y)))
      with (inject_Z (Z.of_nat k) * v
            + Py.Qsum (zip_with Qmult (range (S k) (length y)) y))%Q.
    change (Py.Qsum (v :: y)) with (v + Py.Qsum y)%Q.
    rewrite (IH (S k)), inject_S. ring.
Qed.

(** The sums of products of a list and of its reverse add up to a
    multiple of the sum of the list. *)
Lemma products_reverse (k : nat) (y : list Q) :
  (Py.Qsum (zip_with Qmult (range k (length y)) y)
   + Py.Qsum (zip_with Qmult (range k (length y)) (reverse y))
   == (2 * inject_Z (Z.of_nat k) + inject_Z (Z.of_nat (length y)) - 1) * Py.Qsum y)%Q.
Proof.
  induction y as [|v y IH].
  - cbn. ring.
  - change (Py.Qsum (zip_with Qmult (range k (length (v :: y))) (v :: y)))
      with (inject_Z (Z.of_nat k) * v
            + Py.Qsum (zip_with Qmult (range (S k) (length y)) y))%Q.
    rewrite products_shift.
    change (length (v :: y)) with (S (length y)).
    rewrite reverse_cons, seq_S, fmap_app.
    rewrite zip_with_app
      by (rewrite length_fmap, length_seq, length_reverse; reflexivity).
    rewrite HealthMonitorFacts.Qsum_app.
    change (Py.Qsum (zip_with Qmult (range (k + length y) 0 ++ []) [v])) with 0%Q.
    change (Py.Qsum (zip_with Qmult ((fun i : nat => inject_Z (Z.of_nat i))
                                       <$> [(k + length y)%nat]) [v]))
      with (inject_Z (Z.of_nat (k + length y)) * v + 0)%Q.
    change (Py.Qsum (v :: y)) with (v + Py.Qsum y)%Q.
    rewrite inject_S, Nat2Z.inj_add, inject_Z_plus.
    set (a := Py.Qsum (zip_with Qmult (range k (length y)) y)) in *.
    set (b := Py.Qsum (zip_with Qmult (range k (length y)) (reverse y))) in *.
    set (s := Py.Qsum y) in *.
    set (qk := inject_Z (Z.of_nat k)) in *.
    set (qn := inject_Z (Z.of_nat (length y))) in *.
    transitivity (qk * v + (a + b) + s + (qk + qn) * v)%Q; [ring|].
    rewrite IH. ring.
Qed.

(** Reversing a history negates the slope of the fitted line. *)
Lemma slope_reverse (y : list Q) :
  (2 <= length y)%nat ->
  ((polyfit1 (arange (length (reverse y))) (reverse y)).1
   == - (polyfit1 (arange (length y)) y).1)%Q.
Proof.
  intros Hlen. rewrite length_reverse. unfold polyfit1. cbn [fst].
  rewrite HealthMonitorFacts.length_arange, Qsum_reverse.
  pose proof (HealthMonitorFacts.denominator_positive (length y) Hlen) as Hden.
  cbv zeta in Hden.
  destruct (HealthMonitorFacts.sums_arange (length y)) as [Hsum _].
  pose proof (products_reverse 0 y) as Hrev.
  change (range 0 (length y)) with (arange (length y)) in Hrev.
  change (inject_Z (Z.of_nat 0)) with 0%Q in Hrev.
  set (q := inject_Z (Z.of_nat (length y))) in *.
  set (sx := Py.Qsum (arange (length y))) in *.
  set (sxx := Py.Qsum (zip_with Qmult (arange (length y)) (arange (length y)))) in *.
  set (sy := Py.Qsum y) in *.
  set (sxy := Py.Qsum (zip_with Qmult (arange (length y)) y)) in *.
  set (sxy' := Py.Qsum (zip_with Qmult (arange (length y)) (reverse y))) in *.
  assert (Hnum : (q * sxy' - sx * sy == - (q * sxy - sx * sy))%Q).
  { transitivity (q * (sxy + sxy') - q * sxy - sx * sy)%Q; [ring|].
    rewrite Hrev.
    transitivity (q * (q - 1) * sy - q * sxy - sx * sy)%Q; [ring|].
    rewrite <- Hsum. ring. }
  rewrite Hnum. field. lra.
Qed.

Lemma newest_first_transitive : Transitive newest_first.
Proof. intros a b c. unfold newest_first. lia. Qed.

Lemma newest_first_total : Total newest_first.
Proof. intros a b. unfold newest_first. lia. Qed.

Lemma sorted_unique {A : Type} (R : A -> A -> Prop) (l1 l2 : list A) :
  (forall a b, a ∈ l1 -> b ∈ l1 -> R a b -> R b a -> a = b) ->
  StronglySorted R l1 -> StronglySorted R l2 -> l1 ≡ₚ l2 -> l1 = l2.
Proof.
  intros Hanti H1. revert l2. induction H1 as [|x l1 H1 IH Hx]; intros l2 H2 Hperm.
  - apply Permutation_nil_l in Hperm. exact Hperm.
  - destruct H2 as [|y l2 H2 Hy].
    { apply Permutation_nil_r in Hperm. discriminate Hperm. }
    assert (Hxy : x = y).
    { assert (Hin_x : x ∈ y :: l2) by (rewrite <- Hperm; apply list_elem_of_here).
      assert (Hin_y : y ∈ x :: l1) by (rewrite Hperm; apply list_elem_of_here).
      apply elem_of_cons in Hin_x as [->|Hin_x]; [reflexivity|].
      apply elem_of_cons in Hin_y as [->|Hin_y]; [reflexivity|].
      rewrite Forall_forall in Hx, Hy.
      apply Hanti.
      - apply list_elem_of_here.
      - apply list_elem_of_further, Hin_y.
      - apply Hx, Hin_y.
      - apply Hy, Hin_x. }
    subst y. f_equal. apply IH.
    + intros a b Ha Hb. apply Hanti; apply list_elem_of_further; assumption.
    + exact H2.
    + apply (Permutation_cons_inv Hperm).
Qed.

Lemma chronological_reverse (history : list VehicleTelemetry) :
  StronglySorted (fun a b => vt_timestamp a < vt_timestamp b) history ->
  StronglySorted newest_first (reverse history)
  /\ forall a b, a ∈ history -> b ∈ history -> vt_timestamp a = vt_timestamp b -> a = b.
Proof.
  induction 1 as [|x l Hl [IH1 IH2] Hx].
  - split; [constructor|]. intros a b Ha. inversion Ha.
  - rewrite Forall_forall in Hx. split.
    + rewrite reverse_cons.
      apply StronglySorted_app_2; [| exact IH1 | repeat constructor].
      intros a b Ha Hb. apply list_elem_of_singleton in Hb as ->.
      rewrite elem_of_reverse in Ha. unfold newest_first. specialize (Hx a Ha). lia.
    + intros a b Ha Hb Hts.
      apply elem_of_cons in Ha as [->|Ha]; apply elem_of_cons in Hb as [->|Hb].
      * reflexivity.
      * specialize (Hx b Hb). lia.
      * specialize (Hx a Ha). lia.
      * apply IH2; assumption.
Qed.

(** The query returns the chronological history in reverse. *)
Lemma historical_telemetry_newest_first (vehicle_id days : Z) (w : World)
    (history : list VehicleTelemetry) :
  history ≡ₚ filter (fun r => vt_vehicle_id r = vehicle_id
                              /\ clock w (ticks w) - Time.days days <= vt_timestamp r)
               (vehicle_telemetry w) ->
  StronglySorted (fun a b => vt_timestamp a < vt_timestamp b) history ->
  _get_historical_telemetry vehicle_id days w = (inr (reverse history), Spec.advance 1 w).
Proof.
  intros Hperm Hsorted.
  unfold _get_historical_telemetry, bind, utcnow, get_world, ret.
  cbn [clock ticks vehicle_telemetry].
  destruct (chronological_reverse history Hsorted) as [Hrev Hinj].
  match goal with
  | |- (inr (merge_sort _ ?rows), _) = _ =>
      assert (E : merge_sort newest_first rows = reverse history)
  end.
  { symmetry. apply (sorted_unique newest_first).
    - intros a b Ha Hb Hab Hba. rewrite elem_of_reverse in Ha, Hb.
      apply Hinj; [assumption..|]. unfold newest_first in Hab, Hba. lia.
    - exact Hrev.
    - apply StronglySorted_merge_sort;
        [exact newest_first_transitive | exact newest_first_total].
    - rewrite reverse_Permutation, merge_sort_Permutation. exact Hperm. }
  rewrite E. reflexivity.
Qed.

(** The trend of the battery's state of health is computed on the
    rows newest first.  For the rows of the last seven days of a
    vehicle, at least three of them with a reading and no two with
    the same timestamp, the trend reported is that of the readings in
    reverse: a state of health that falls over time, by 0.1 or more
    per reading on the fitted line, is reported as improving, and one
    that rises so as declining. *)
Theorem analyze_trends_reads_history_backwards (vehicle_id : Z) (w : World)
    (history : list VehicleTelemetry) :
  history ≡ₚ filter (fun r => vt_vehicle_id r = vehicle_id
                              /\ clock w (ticks w) - Time.days 7 <= vt_timestamp r)
               (vehicle_telemetry w) ->
  StronglySorted (fun a b => vt_timestamp a < vt_timestamp b) history ->
  let values := omap vt_battery_soh history in
  (3 <= length values)%nat ->
  let slope := (polyfit1 (arange (length values)) values).1 in
  exists trend,
    (_analyze_trends vehicle_id w).1 = inr (TrendsOf (Some trend))
    /\ trend = _calculate_trend (reverse values)
    /\ (direction trend = "improving" <-> (slope <= -0.1)%Q)
    /\ (direction trend = "declining" <-> (0.1 <= slope)%Q)
    /\ (direction trend = "stable" <-> (-0.1 < slope /\ slope < 0.1)%Q).
Proof.
  intros Hperm Hsorted values Hlen slope.
  exists (_calculate_trend (reverse values)).
  split.
  { unfold _analyze_trends, bind.
    rewrite (historical_telemetry_newest_first vehicle_id 7 w history Hperm Hsorted).
    pose proof (length_omap_le vt_battery_soh history) as Hle. fold values in Hle.
    rewrite length_reverse.
    destruct (length history <? 3)%nat eqn:E; [apply Nat.ltb_lt in E; lia|].
    rewrite omap_reverse. fold values. rewrite length_reverse.
    destruct (3 <=? length values)%nat eqn:E'; [reflexivity|].
    apply Nat.leb_gt in E'. lia. }
  split; [reflexivity|].
  rewrite HealthMonitorFacts.calculate_trend_direction by (rewrite length_reverse; lia).
  cbv zeta.
  pose proof (slope_reverse values ltac:(lia)) as Hslope. fold slope in Hslope.
  set (slope' := (polyfit1 (arange (length (reverse values))) (reverse values)).1) in *.
  rewrite (HealthMonitorFacts.Qltb_proper (Qabs slope') (Qabs slope) 0.1 0.1)
    by (rewrite ?Hslope, ?Qabs_opp; reflexivity).
  rewrite (HealthMonitorFacts.Qltb_proper 0 0 slope' (- slope))
    by (rewrite ?Hslope; reflexivity).
  clearbody slope slope'.
  destruct (Py.Qltb (Qabs slope) 0.1) eqn:E1.
  - apply Qltb_true in E1. apply Qabs_Qlt_condition in E1. destruct E1 as [E1 E1'].
    split; [|split]; split;
      first [discriminate | reflexivity | intros _; split; assumption
            | intros H; exfalso; lra].
  - apply Qltb_false in E1.
    destruct (Py.Qltb 0 (- slope)) eqn:E2.
    + apply Qltb_true in E2. rewrite Qabs_neg in E1 by lra.
      split; [|split]; split;
        first [discriminate | reflexivity | intros _; lra
              | intros H; exfalso; lra].
    + apply Qltb_false in E2. rewrite Qabs_pos in E1 by lra.
      split; [|split]; split;
        first [discriminate | reflexivity | intros _; lra
              | intros H; exfalso; lra].
Qed.

Lemma analyze_trends_reads_history_backwards_witness :
  exists trend,
    (_analyze_trends 1 Examples.rising_history).1 = inr (TrendsOf (Some trend))
    /\ direction trend = "declining".
Proof.
  destruct (analyze_trends_reads_history_backwards 1 Examples.rising_history
              (vehicle_telemetry Examples.rising_history))
    as (trend & Hrun & _ & _ & Hdeclining & _).
  - vm_compute. reflexivity.
  - repeat constructor.
  - vm_compute. lia.
  - exists trend. split; [exact Hrun|]. apply Hdeclining. vm_compute. discriminate.
Defined.

End TrendFacts.
